(** * Build environments of [readthedocs/doc_builder/environments.py]

    A shallow embedding of the command and build-environment classes:
    [BuildCommand], [DockerBuildCommand], [BaseEnvironment],
    [BuildEnvironment] and [DockerBuildEnvironment].

    Conventions of the embedding.
    - A Python [str] is a list of Unicode code points ([pystr]); [bytes] is a
      [list byte].
    - Mutable dictionaries that are shared between objects (the
      environment-variable mappings) live in a store and are referred to by
      location, so that aliasing is visible.
    - Methods are computations in a state-and-exception monad over the
      environment object and the outside world (container engine, tracking
      API, host processes).  The outside world answers through an [Oracle]
      that sees the history of calls.
    - Log calls, timestamps and the build duration are left out, except where
      evaluating a log argument can raise. *)

From Stdlib Require Import ZArith Lia List Ascii String.
From Stdlib.Strings Require Import Byte.
From stdpp Require Import base option list gmap strings pretty.

Local Open Scope Z_scope.

(** ** Python text *)

Abbreviation pystr := (list Z) (only parsing).

Definition py (s : string) : pystr :=
  map (fun a : ascii => Z.of_N (N_of_ascii a)) (list_ascii_of_string s).

Definition NL : string := String "010"%char EmptyString.

(** [str(n)] and [f'{n}'] for an [int]. *)
Definition str_of_int (n : Z) : pystr := py (pretty n).

(** [s.replace('\x00', '')] *)
Definition strip_nul (s : pystr) : pystr := filter (fun c : Z => c ≠ 0) s.

(** [s[start:]], with Python's treatment of negative and out-of-range
    indices. *)
Definition py_slice_from {A} (start : Z) (s : list A) : list A :=
  let n := Z.of_nat (length s) in
  let i := if start <? 0 then Z.max (n + start) 0 else Z.min start n in
  drop (Z.to_nat i) s.

(** [l[-k:]] for a positive literal [k]. *)
Definition last_n {A} (k : nat) (l : list A) : list A :=
  drop (length l - k)%nat l.

(** [sep.join(parts)] *)
Fixpoint join {A} (sep : list A) (parts : list (list A)) : list A :=
  match parts with
  | [] => []
  | [p] => p
  | p :: rest => p ++ sep ++ join sep rest
  end.

(** [needle in s] for strings. *)
Fixpoint is_prefix (p s : pystr) : bool :=
  match p, s with
  | [], _ => true
  | _ :: _, [] => false
  | a :: p', b :: s' => (a =? b) && is_prefix p' s'
  end.

Fixpoint contains (needle s : pystr) : bool :=
  is_prefix needle s ||
  match s with
  | [] => false
  | _ :: s' => contains needle s'
  end.

(** [str.splitlines()]: the line boundaries are \n, \r, \r\n, \v, \f,
    \x1c, \x1d, \x1e, \x85, U+2028 and U+2029; boundaries are not kept and a
    trailing boundary does not open an empty last line. *)
Definition is_linebreak (c : Z) : bool :=
  (c =? 10) || (c =? 13) || (c =? 11) || (c =? 12) || (c =? 28) ||
  (c =? 29) || (c =? 30) || (c =? 133) || (c =? 8232) || (c =? 8233).

Fixpoint splitlines_go (cur : pystr) (s : pystr) : list pystr :=
  match s with
  | [] => match cur with [] => [] | _ => [rev cur] end
  | c :: s' =>
    if is_linebreak c then
      match s' with
      | c' :: s'' =>
        if (c =? 13) && (c' =? 10)
        then rev cur :: splitlines_go [] s''
        else rev cur :: splitlines_go [] s'
      | [] => [rev cur]
      end
    else splitlines_go (c :: cur) s'
  end.

Definition splitlines (s : pystr) : list pystr := splitlines_go [] s.

(** ** [bytes.decode('utf-8', 'replace')]

    Well-formed sequences follow the table of the Unicode standard; every
    maximal ill-formed prefix is replaced by one U+FFFD. *)

Definition REPLACEMENT : Z := 65533.

Definition byte_val (b : byte) : Z := Z.of_N (Byte.to_N b).

Definition in_range (lo hi b : Z) : bool := (lo <=? b) && (b <=? hi).

Definition is_cont (b : Z) : bool := in_range 128 191 b.

Definition second_ok (b0 b1 : Z) : bool :=
  if b0 =? 224 then in_range 160 191 b1
  else if b0 =? 237 then in_range 128 159 b1
  else if b0 =? 240 then in_range 144 191 b1
  else if b0 =? 244 then in_range 128 143 b1
  else is_cont b1.

Fixpoint utf8_decode_replace (bs : list Z) : pystr :=
  match bs with
  | [] => []
  | b0 :: r0 =>
    if b0 <? 128 then b0 :: utf8_decode_replace r0
    else if b0 <? 194 then REPLACEMENT :: utf8_decode_replace r0
    else if b0 <? 224 then
      match r0 with
      | [] => [REPLACEMENT]
      | b1 :: r1 =>
        if is_cont b1
        then ((b0 - 192) * 64 + (b1 - 128)) :: utf8_decode_replace r1
        else REPLACEMENT :: utf8_decode_replace r0
      end
    else if b0 <? 240 then
      match r0 with
      | [] => [REPLACEMENT]
      | b1 :: r1 =>
        if second_ok b0 b1 then
          match r1 with
          | [] => [REPLACEMENT]
          | b2 :: r2 =>
            if is_cont b2
            then ((b0 - 224) * 4096 + (b1 - 128) * 64 + (b2 - 128))
                 :: utf8_decode_replace r2
            else REPLACEMENT :: utf8_decode_replace r1
          end
        else REPLACEMENT :: utf8_decode_replace r0
      end
    else if b0 <? 245 then
      match r0 with
      | [] => [REPLACEMENT]
      | b1 :: r1 =>
        if second_ok b0 b1 then
          match r1 with
          | [] => [REPLACEMENT]
          | b2 :: r2 =>
            if is_cont b2 then
              match r2 with
              | [] => [REPLACEMENT]
              | b3 :: r3 =>
                if is_cont b3
                then ((b0 - 240) * 262144 + (b1 - 128) * 4096
                      + (b2 - 128) * 64 + (b3 - 128))
                     :: utf8_decode_replace r3
                else REPLACEMENT :: utf8_decode_replace r2
              end
            else REPLACEMENT :: utf8_decode_replace r1
          end
        else REPLACEMENT :: utf8_decode_replace r0
      end
    else REPLACEMENT :: utf8_decode_replace r0
  end.

Definition bytes_decode (bs : list byte) : pystr :=
  utf8_decode_replace (map byte_val bs).

(** ** Exceptions *)

(** Modelled from the spec: the exception classes of the project's
    [exceptions] modules, which this file imports.  In the spec's taxonomy
    the environment-level error and the environment-level warning are the
    two kinds of build-environment exception, and the known build faults
    are environment-level errors.  The classes of docker, requests and
    slumber stand with the base classes their libraries give them. *)
Inductive exc_class :=
  | BaseExceptionC | ExceptionC | KeyboardInterrupt
  | OSError | TypeError | AttributeError | KeyError
  | RequestException | HTTPError | ConnectionError | Timeout | ReadTimeout
  | DockerException | DockerAPIError | DockerNotFoundError
  | HttpClientError
  | BuildEnvironmentException | BuildEnvironmentError
  | BuildEnvironmentCreationFailed | BuildEnvironmentWarning
  | VersionLockedError | ProjectBuildsSkippedError | YAMLParseError
  | BuildTimeoutError | MkDocsYAMLParseError
  | RepositoryError | ProjectConfigurationError.

Global Instance exc_class_eq_dec : EqDecision exc_class.
Proof. solve_decision. Defined.

(** Modelled from the spec: the direct base classes, see [exc_class]. *)
Definition bases (c : exc_class) : list exc_class :=
  match c with
  | BaseExceptionC => []
  | ExceptionC | KeyboardInterrupt => [BaseExceptionC]
  | OSError | TypeError | AttributeError | KeyError => [ExceptionC]
  | RequestException => [OSError]
  | HTTPError | ConnectionError | Timeout => [RequestException]
  | ReadTimeout => [Timeout]
  | DockerException => [ExceptionC]
  | DockerAPIError => [HTTPError; DockerException]
  | DockerNotFoundError => [DockerAPIError]
  | HttpClientError => [ExceptionC]
  | BuildEnvironmentException => [ExceptionC]
  | BuildEnvironmentError | BuildEnvironmentWarning =>
      [BuildEnvironmentException]
  | BuildEnvironmentCreationFailed | VersionLockedError
  | ProjectBuildsSkippedError | YAMLParseError | BuildTimeoutError
  | MkDocsYAMLParseError | RepositoryError | ProjectConfigurationError =>
      [BuildEnvironmentError]
  end.

Fixpoint issubclass_upto (fuel : nat) (c d : exc_class) : bool :=
  bool_decide (c = d) ||
  match fuel with
  | O => false
  | S fuel' => existsb (fun b => issubclass_upto fuel' b d) (bases c)
  end.

(** The deepest chain of the table has six links. *)
Definition issubclass (c d : exc_class) : bool := issubclass_upto 8 c d.

Record exc := Exc {
  exc_type : exc_class;
  exc_msg : pystr;            (* [str(e)] *)
  status_code : Z             (* meaningful for build-environment exceptions *)
}.

Definition isinstance (e : exc) (c : exc_class) : bool :=
  issubclass (exc_type e) c.

Inductive Res (A : Type) :=
  | Ok (a : A)
  | Raise (e : exc).
Arguments Ok {A} a.
Arguments Raise {A} e.

(** ** Settings and imported constants

    [settings.*], the [DOCKER_*] constants, [BUILD_STATE_FINISHED],
    [BuildEnvironmentError.GENERIC_WITH_BUILD_ID], [slugify] and the host's
    [PATH] and name are defined outside this module; they are parameters. *)

Record Conf := {
  DATA_UPLOAD_MAX_MEMORY_SIZE : Z;
  RTD_DOCKER_WORKDIR : string;
  RTD_DOCKER_USER : string;
  DOCKER_IMAGE : string;
  DOCKER_LIMITS_memory : option string;
  DOCKER_LIMITS_time : option Z;
  DOCKER_OOM_EXIT_CODE : Z;
  DOCKER_TIMEOUT_EXIT_CODE : Z;
  DOCKER_HOSTNAME_MAX_LEN : nat;
  BUILD_STATE_FINISHED : string;
  GENERIC_WITH_BUILD_ID : Z -> pystr;
  default_status_code : Z;
  slugify : string -> string;
  os_environ_PATH : string;
  gethostname : string
}.

(** ** Data model *)

Abbreviation loc := positive (only parsing).
Abbreviation dict := (gmap string string) (only parsing).

Inductive Feature := USE_TESTING_BUILD_IMAGE | API_LARGE_DATA.

Record Project := {
  pk : Z;
  slug : string;
  has_feature : Feature -> bool;
  doc_path : string;
  project_container_image : option string;
  project_container_mem_limit : option string;
  project_container_time_limit : option Z
}.

Record Version := { version_pk : Z; version_slug : string }.

Record Config := { docker_image : option string }.

(** The build record is a dictionary used with a fixed set of keys; a key
    that is absent is [None]. *)
Record Build := {
  build_id : Z;
  build_state : string;
  build_project : option Z;
  build_version : option Z;
  build_builder : option string;
  build_success : option bool;
  build_exit_code : option Z;
  build_setup : option pystr;
  build_setup_error : option pystr;
  build_output : option pystr;
  build_error : option pystr
}.

Inductive command_class := BuildCommand | DockerBuildCommand.

Record Command := {
  cmd_class : command_class;
  command : list string;
  shell : bool;
  cwd : string;
  user : string;
  cmd_environment : loc;          (* [self._environment] *)
  build_env : bool;               (* [self.build_env is not None] *)
  output : option pystr;
  error : option pystr;
  bin_path : option string;
  description : string;
  record_as_success : bool;
  escape_command : bool;
  exit_code : option Z
}.

Definition set_output (o : option pystr) (c : Command) : Command :=
  {| cmd_class := cmd_class c; command := command c; shell := shell c;
     cwd := cwd c; user := user c; cmd_environment := cmd_environment c;
     build_env := build_env c; output := o; error := error c;
     bin_path := bin_path c; description := description c;
     record_as_success := record_as_success c;
     escape_command := escape_command c; exit_code := exit_code c |}.

Definition set_error (o : option pystr) (c : Command) : Command :=
  {| cmd_class := cmd_class c; command := command c; shell := shell c;
     cwd := cwd c; user := user c; cmd_environment := cmd_environment c;
     build_env := build_env c; output := output c; error := o;
     bin_path := bin_path c; description := description c;
     record_as_success := record_as_success c;
     escape_command := escape_command c; exit_code := exit_code c |}.

Definition set_exit_code (x : option Z) (c : Command) : Command :=
  {| cmd_class := cmd_class c; command := command c; shell := shell c;
     cwd := cwd c; user := user c; cmd_environment := cmd_environment c;
     build_env := build_env c; output := output c; error := error c;
     bin_path := bin_path c; description := description c;
     record_as_success := record_as_success c;
     escape_command := escape_command c; exit_code := x |}.

(** [BuildCommandResultMixin] lives in [readthedocs.builds.models].

    Modelled from the spec: the mixin's [successful] and [failed]
    properties.  A command-level failure is a non-zero exit code; a command
    succeeded when its exit code is zero. *)
Definition cmd_successful (c : Command) : bool :=
  bool_decide (exit_code c = Some 0).

Definition cmd_failed (c : Command) : bool :=
  bool_decide (exit_code c ≠ Some 0).

(** [' '.join(self.command)] *)
Definition get_command (c : Command) : string :=
  String.concat " " (command c).

(** ** [BuildCommand.sanitize_output]

    [benv] is what the log call of the truncating branch reads:
    [None] when [self.build_env] is [None], [Some None] when the
    environment has no build record. *)

Definition truncation_notice (allowed_length : Z) : pystr :=
  py (".. (truncated) ..." ++ NL ++ "Output is too big. Truncated at ")
  ++ str_of_int allowed_length ++ py (" bytes." ++ NL ++ NL ++ NL).

Definition attribute_error : exc := Exc AttributeError [] 0.
Definition type_error : exc := Exc TypeError [] 0.

Definition sanitize_output (cf : Conf) (benv : option (option Build))
    (output : option (list byte)) : Res (option pystr) :=
  let sanitized :=
    match output with
    | Some bs => Some (strip_nul (bytes_decode bs))
    | None => None                     (* AttributeError, caught *)
    end in
  let output_length :=
    match output with
    | Some bs => Z.of_nat (length bs)
    | None => 0
    end in
  let threshold := 512 * 1024 in
  let allowed_length := DATA_UPLOAD_MAX_MEMORY_SIZE cf - threshold in
  if output_length >? allowed_length then
    match benv with
    | Some (Some _) =>
      match sanitized with
      | Some s =>
        let truncated_output := py_slice_from (- allowed_length) s in
        Ok (Some (truncation_notice allowed_length ++ truncated_output))
      | None => Raise type_error
      end
    | _ => Raise attribute_error
    end
  else Ok sanitized.

(** ** The environment object and the outside world *)

Inductive env_class :=
  | LocalEnvironment | LocalBuildEnvironment | DockerBuildEnvironment.

Definition command_class_of (k : env_class) : command_class :=
  match k with
  | LocalEnvironment | LocalBuildEnvironment => BuildCommand
  | DockerBuildEnvironment => DockerBuildCommand
  end.

Definition is_build_environment (k : env_class) : bool :=
  match k with
  | LocalEnvironment => false
  | _ => true
  end.

(** The classes with a [container_id]. *)
Definition is_docker_environment (k : env_class) : bool :=
  match k with
  | DockerBuildEnvironment => true
  | _ => false
  end.

(** The ['State'] entry of [inspect_container]; an absent key is [None]. *)
Record CState := {
  Running : option bool;
  ExitCode : option Z;
  OOMKilled : option bool;
  Error : option string
}.

Record CommandData := {
  data_build : Z;
  data_command : string;
  data_description : string;
  data_output : option pystr;
  data_exit_code : option Z
}.

(** Requests to the tracking API, in the order they are sent. *)
Inductive api_call :=
  | POST_command (multipart : bool) (data : CommandData)
  | PUT_build (id : Z) (b : Build).

(** Calls to the container engine, the host and the operating system. *)
Inductive Call :=
  | call_APIClient
  | call_inspect_container (container : option string)
  | call_kill (container : option string)
  | call_remove_container (container : option string)
  | call_create_container (image : string) (cmd : string)
      (name : option string) (mem_limit : option string)
  | call_start (container : option string)
  | call_exec_create (container : option string) (cmd : string)
      (environment : dict) (usr workdir : string)
  | call_exec_start (exec_id : string)
  | call_exec_inspect (exec_id : string)
  | call_Popen (cmd : list string) (sh : bool) (dir : string) (env : dict)
  | call_path_exists (path : string)
  | call_makedirs (path : string)
  | call_uuid4.

(** Every answer may depend on the whole history of calls, the last element
    of which is the call being answered. *)
Record Oracle := {
  on_APIClient : list Call -> Res unit;
  on_inspect_container : list Call -> Res CState;
  on_kill : list Call -> Res unit;
  on_remove_container : list Call -> Res unit;
  on_create_container : list Call -> Res (option string);
  on_start : list Call -> Res unit;
  on_exec_create : list Call -> Res string;
  on_exec_start : list Call -> Res (list byte);
  on_exec_inspect : list Call -> Res Z;
  on_Popen : list Call -> Res (list byte * Z);
  on_path_exists : list Call -> bool;
  on_makedirs : list Call -> Res unit;
  on_uuid4 : list Call -> string;
  (* the tracking API, answering the POST of a command record; it sees the
     requests sent so far, the last of which is the one being answered *)
  on_POST : list api_call -> Res unit
}.

Record Env := {
  (* the store of shared dictionaries *)
  heap : gmap loc dict;
  (* BaseEnvironment *)
  cls : env_class;
  project : Project;
  env_environment : loc;              (* [self._environment] *)
  commands : list Command;
  (* BuildEnvironment *)
  version : Version;
  build : option Build;               (* [None] when [self.build] is [None] *)
  config : option Config;
  record : bool;
  update_on_success : bool;
  failure : option exc;
  (* DockerBuildEnvironment *)
  client : bool;                      (* [self.client is not None] *)
  container : option string;          (* the ['Id'] of [self.container] *)
  container_name : string;
  container_image : string;
  container_mem_limit : option string;
  container_time_limit : option Z;
  (* the outside world *)
  api : list api_call;
  calls : list Call
}.

Definition set_heap (h : gmap loc dict) (s : Env) : Env :=
  {| heap := h; cls := cls s; project := project s;
     env_environment := env_environment s; commands := commands s;
     version := version s; build := build s; config := config s;
     record := record s; update_on_success := update_on_success s;
     failure := failure s; client := client s; container := container s;
     container_name := container_name s;
     container_image := container_image s;
     container_mem_limit := container_mem_limit s;
     container_time_limit := container_time_limit s;
     api := api s; calls := calls s |}.

Definition set_commands (cs : list Command) (s : Env) : Env :=
  {| heap := heap s; cls := cls s; project := project s;
     env_environment := env_environment s; commands := cs;
     version := version s; build := build s; config := config s;
     record := record s; update_on_success := update_on_success s;
     failure := failure s; client := client s; container := container s;
     container_name := container_name s;
     container_image := container_image s;
     container_mem_limit := container_mem_limit s;
     container_time_limit := container_time_limit s;
     api := api s; calls := calls s |}.

Definition set_build (b : option Build) (s : Env) : Env :=
  {| heap := heap s; cls := cls s; project := project s;
     env_environment := env_environment s; commands := commands s;
     version := version s; build := b; config := config s;
     record := record s; update_on_success := update_on_success s;
     failure := failure s; client := client s; container := container s;
     container_name := container_name s;
     container_image := container_image s;
     container_mem_limit := container_mem_limit s;
     container_time_limit := container_time_limit s;
     api := api s; calls := calls s |}.

Definition set_failure (f : option exc) (s : Env) : Env :=
  {| heap := heap s; cls := cls s; project := project s;
     env_environment := env_environment s; commands := commands s;
     version := version s; build := build s; config := config s;
     record := record s; update_on_success := update_on_success s;
     failure := f; client := client s; container := container s;
     container_name := container_name s;
     container_image := container_image s;
     container_mem_limit := container_mem_limit s;
     container_time_limit := container_time_limit s;
     api := api s; calls := calls s |}.

Definition set_client (c : bool) (s : Env) : Env :=
  {| heap := heap s; cls := cls s; project := project s;
     env_environment := env_environment s; commands := commands s;
     version := version s; build := build s; config := config s;
     record := record s; update_on_success := update_on_success s;
     failure := failure s; client := c; container := container s;
     container_name := container_name s;
     container_image := container_image s;
     container_mem_limit := container_mem_limit s;
     container_time_limit := container_time_limit s;
     api := api s; calls := calls s |}.

Definition set_container (c : option string) (s : Env) : Env :=
  {| heap := heap s; cls := cls s; project := project s;
     env_environment := env_environment s; commands := commands s;
     version := version s; build := build s; config := config s;
     record := record s; update_on_success := update_on_success s;
     failure := failure s; client := client s; container := c;
     container_name := container_name s;
     container_image := container_image s;
     container_mem_limit := container_mem_limit s;
     container_time_limit := container_time_limit s;
     api := api s; calls := calls s |}.

Definition set_api (a : list api_call) (s : Env) : Env :=
  {| heap := heap s; cls := cls s; project := project s;
     env_environment := env_environment s; commands := commands s;
     version := version s; build := build s; config := config s;
     record := record s; update_on_success := update_on_success s;
     failure := failure s; client := client s; container := container s;
     container_name := container_name s;
     container_image := container_image s;
     container_mem_limit := container_mem_limit s;
     container_time_limit := container_time_limit s;
     api := a; calls := calls s |}.

Definition set_calls (h : list Call) (s : Env) : Env :=
  {| heap := heap s; cls := cls s; project := project s;
     env_environment := env_environment s; commands := commands s;
     version := version s; build := build s; config := config s;
     record := record s; update_on_success := update_on_success s;
     failure := failure s; client := client s; container := container s;
     container_name := container_name s;
     container_image := container_image s;
     container_mem_limit := container_mem_limit s;
     container_time_limit := container_time_limit s;
     api := api s; calls := h |}.

(** ** The monad of methods: state that survives a raised exception *)

Definition M (A : Type) : Type := Env -> Res A * Env.

Global Instance M_ret : MRet M := fun A (a : A) (s : Env) => (Ok a, s).

Global Instance M_bind : MBind M :=
  fun A B (f : A -> M B) (m : M A) (s : Env) =>
    match m s with
    | (Ok a, s') => f a s'
    | (Raise e, s') => (Raise e, s')
    end.

Definition raise {A} (e : exc) : M A := fun s => (Raise e, s).

Definition lift {A} (r : Res A) : M A := fun s => (r, s).

Definition get : M Env := fun s => (Ok s, s).

Definition modify (f : Env -> Env) : M unit := fun s => (Ok tt, f s).

(** [try: body  except ...: handler]; a handler re-raises what its
    [except] clauses do not match. *)
Definition try_except {A} (body : M A) (handler : exc -> M A) : M A :=
  fun s =>
    match body s with
    | (Ok a, s') => (Ok a, s')
    | (Raise e, s') => handler e s'
    end.

(** A call to the outside world: logged, then answered. *)
Definition ext {A} (c : Call) (answer : list Call -> Res A) : M A :=
  fun s => let h := calls s ++ [c] in (answer h, set_calls h s).

(** The PUT of a build record is recorded.  It sits in a [try] that logs
    and drops every exception, so its outcome cannot be observed. *)
Definition send (r : api_call) : M unit :=
  modify (fun s => set_api (api s ++ [r]) s).

(** The POST of a command record: recorded, then answered.  Nothing
    catches the exception of a request that fails. *)
Definition post (r : api_call) (answer : list api_call -> Res unit) : M unit :=
  fun s => let a := api s ++ [r] in (answer a, set_api a s).

(** Dictionaries in the store. *)
Definition dict_new (d : dict) : M loc :=
  fun s =>
    let l := fresh (dom (heap s)) in
    (Ok l, set_heap (<[l := d]> (heap s)) s).

Definition dict_read (l : loc) : M dict :=
  fun s => (Ok (default ∅ (heap s !! l)), s).

Definition dict_write (l : loc) (d : dict) : M unit :=
  modify (fun s => set_heap (<[l := d]> (heap s)) s).

(** [d.copy()] *)
Definition dict_copy (l : loc) : M loc :=
  d ← dict_read l; dict_new d.

(** [d.pop(k, None)] *)
Definition dict_pop (l : loc) (k : string) : M (option string) :=
  d ← dict_read l; dict_write l (delete k d);; mret (d !! k).

(** [if k in d: del d[k]] *)
Definition dict_discard (l : loc) (k : string) : M unit :=
  d ← dict_read l; dict_write l (delete k d).

(** [d[k] = v] *)
Definition dict_set (l : loc) (k v : string) : M unit :=
  d ← dict_read l; dict_write l (<[k := v]> d).

(** Truthiness of optional strings and numbers. *)
Definition truthy (o : option string) : bool :=
  match o with
  | Some s => negb (String.eqb s EmptyString)
  | None => false
  end.

Definition truthy_time (o : option Z) : bool :=
  match o with
  | Some z => negb (z =? 0)
  | None => false
  end.

Definition truthy_text (o : option pystr) : bool :=
  match o with
  | Some (_ :: _) => true
  | _ => false
  end.

(** The keyword arguments a caller may hand to [run] and
    [run_command_class]; for the keys whose presence is tested, an absent
    key is the outer [None]. *)
Record Kwargs := {
  kw_cwd : option string;
  kw_shell : bool;
  kw_environment : option (option loc);
  kw_user : option string;
  kw_build_env : bool;
  kw_bin_path : option (option string);
  kw_description : option string;
  kw_escape_command : bool
}.

Definition no_kwargs : Kwargs :=
  {| kw_cwd := None; kw_shell := false; kw_environment := None;
     kw_user := None; kw_build_env := false; kw_bin_path := None;
     kw_description := None; kw_escape_command := true |}.

Definition with_build_env (kw : Kwargs) : Kwargs :=
  {| kw_cwd := kw_cwd kw; kw_shell := kw_shell kw;
     kw_environment := kw_environment kw; kw_user := kw_user kw;
     kw_build_env := true; kw_bin_path := kw_bin_path kw;
     kw_description := kw_description kw;
     kw_escape_command := kw_escape_command kw |}.

Definition with_bin_path (p : option string) (kw : Kwargs) : Kwargs :=
  {| kw_cwd := kw_cwd kw; kw_shell := kw_shell kw;
     kw_environment := kw_environment kw; kw_user := kw_user kw;
     kw_build_env := kw_build_env kw; kw_bin_path := Some p;
     kw_description := kw_description kw;
     kw_escape_command := kw_escape_command kw |}.

Definition with_environment (l : loc) (kw : Kwargs) : Kwargs :=
  {| kw_cwd := kw_cwd kw; kw_shell := kw_shell kw;
     kw_environment := Some (Some l); kw_user := kw_user kw;
     kw_build_env := kw_build_env kw; kw_bin_path := kw_bin_path kw;
     kw_description := kw_description kw;
     kw_escape_command := kw_escape_command kw |}.

(** [x or default] for strings. *)
Definition or_else (o : option string) (d : string) : string :=
  match o with
  | Some s => if String.eqb s EmptyString then d else s
  | None => d
  end.

(** [DockerBuildCommand.bash_escape_re]: the characters that get a
    backslash. *)
Definition bash_special : list nat :=
  [9; 32; 33; 34; 35; 36; 38; 39; 40; 41; 42; 58; 59; 60; 62; 63; 64;
   91; 92; 93; 94; 96; 123; 124; 125; 126]%nat.

Fixpoint _escape_command (cmd : string) : string :=
  match cmd with
  | EmptyString => EmptyString
  | String a rest =>
    if bool_decide (nat_of_ascii a ∈ bash_special)
    then String "\"%char (String a (_escape_command rest))
    else String a (_escape_command rest)
  end.

Definition get_wrapped_command (c : Command) : string :=
  let prefix :=
    if truthy (bin_path c)
    then ("PATH=" ++ _escape_command (or_else (bin_path c) EmptyString)
          ++ ":$PATH ")%string
    else EmptyString in
  let parts :=
    map (fun part => if escape_command c then _escape_command part else part)
        (command c) in
  ("/bin/sh -c '" ++ prefix ++ String.concat " " parts ++ "'")%string.

Definition OOM_NOTICE : pystr :=
  py (NL ++ NL ++ "Command killed due to excessive memory consumption" ++ NL).

(** ['Killed' in '\n'.join(output.splitlines()[-15:])] *)
Definition killed_in_output (out : pystr) : bool :=
  contains (py "Killed") (join (py NL) (last_n 15 (splitlines out))).

(** [max([cmd.exit_code for cmd in commands])] for a list that is not
    empty; comparing [None] with a number raises. *)
Definition max_exit_code (cs : list Command) : Res (option Z) :=
  match cs with
  | [c] => Ok (exit_code c)
  | _ =>
    match mapM exit_code cs with
    | Some (z :: zs) => Ok (Some (foldr Z.max z zs))
    | _ => Raise type_error
    end
  end.

Section Methods.

Context (cf : Conf) (O : Oracle).

Definition BuildEnvironmentError_ (msg : pystr) : exc :=
  Exc BuildEnvironmentError msg (default_status_code cf).

Definition BuildEnvironmentWarning_ (msg : pystr) : exc :=
  Exc BuildEnvironmentWarning msg (default_status_code cf).

(** *** Commands *)

(** [BuildCommand.__init__], shared by both command classes. *)
Definition Command_init (k : command_class) (cmd : list string)
    (kw : Kwargs) (record_as_success_ : bool) : M Command :=
  l ← match kw_environment kw with
      | Some (Some src) =>
        d ← dict_read src;
        if bool_decide (d = ∅) then dict_new ∅ else dict_copy src
      | _ => dict_new ∅
      end;
  d ← dict_read l;
  if bool_decide (is_Some (d !! "PATH"%string)) then
    raise (BuildEnvironmentError_ (py "'PATH' can't be set. Use bin_path"))
  else
    mret {| cmd_class := k; command := cmd; shell := kw_shell kw;
            cwd := or_else (kw_cwd kw) (RTD_DOCKER_WORKDIR cf);
            user := or_else (kw_user kw) (RTD_DOCKER_USER cf);
            cmd_environment := l; build_env := kw_build_env kw;
            output := None; error := None;
            bin_path := match kw_bin_path kw with
                        | Some p => p
                        | None => None
                        end;
            description := or_else (kw_description kw) EmptyString;
            record_as_success := record_as_success_;
            escape_command := kw_escape_command kw;
            exit_code := None |}.

(** What [sanitize_output] reads of the owning environment. *)
Definition benv_of (c : Command) (s : Env) : option (option Build) :=
  if build_env c then Some (build s) else None.

(** [BuildCommand.run] *)
Definition BuildCommand_run (c : Command) : M Command :=
  environment ← dict_copy (cmd_environment c);
  dict_discard environment "DJANGO_SETTINGS_MODULE";;
  dict_discard environment "PYTHONPATH";;
  dict_set environment "PATH"
    match bin_path c with
    | Some p => (p ++ ":" ++ os_environ_PATH cf)%string
    | None => os_environ_PATH cf
    end;;
  env ← dict_read environment;
  try_except
    (let command_ := if shell c then [get_command c] else command c in
     r ← ext (call_Popen command_ (shell c) (cwd c) env) (on_Popen O);
     s ← get;
     out ← lift (sanitize_output cf (benv_of c s) (Some r.1));
     err ← lift (sanitize_output cf (benv_of c s) None);
     mret (set_exit_code (Some r.2) (set_error err (set_output out c))))
    (fun e =>
       if isinstance e OSError then mret (set_exit_code (Some (-1)) c)
       else raise e).

(** [DockerBuildEnvironment.container_id] *)
Definition container_id (s : Env) : option string :=
  if negb (String.eqb (container_name s) EmptyString)
  then Some (container_name s)
  else container s.

(** [DockerBuildEnvironment.get_client] *)
Definition get_client : M unit :=
  s ← get;
  if client s then mret tt
  else
    try_except
      (ext call_APIClient (on_APIClient O);; modify (set_client true))
      (fun e =>
         if isinstance e DockerException then
           raise (BuildEnvironmentError_
                    match build s with
                    | Some b => GENERIC_WITH_BUILD_ID cf (build_id b)
                    | None => py "Failed to connect to Docker API client"
                    end)
         else raise e).

(** The [except DockerAPIError] clause of [DockerBuildCommand.run]. *)
Definition exited_abnormally (c : Command) (e : exc) : M Command :=
  if isinstance e DockerAPIError then
    mret (set_output
            (if truthy_text (output c) then output c
             else Some (py "Command exited abnormally"))
            (set_exit_code (Some (-1)) c))
  else raise e.

(** [DockerBuildCommand.run].  Its first log call reads
    [self.build_env.container_id], an attribute that only a Docker build
    environment has. *)
Definition DockerBuildCommand_run (c : Command) : M Command :=
  s ← get;
  (if build_env c && is_docker_environment (cls s)
   then mret tt else raise attribute_error);;
  get_client;;
  s ← get;
  env ← dict_read (cmd_environment c);
  try_except
    (exec_id ← ext (call_exec_create (container_id s)
                      (get_wrapped_command c) env (user c) (cwd c))
                   (on_exec_create O);
     cmd_output ← ext (call_exec_start exec_id) (on_exec_start O);
     out ← lift (sanitize_output cf (benv_of c s) (Some cmd_output));
     let c1 := set_output out c in
     try_except
       (code ← ext (call_exec_inspect exec_id) (on_exec_inspect O);
        let c2 := set_exit_code (Some code) c1 in
        match out with
        | None => raise attribute_error        (* [None.splitlines()] *)
        | Some text =>
          if (code =? DOCKER_OOM_EXIT_CODE cf)
             || ((code =? 1) && killed_in_output text)
          then mret (set_output (Some (text ++ OOM_NOTICE)) c2)
          else mret c2
        end)
       (exited_abnormally c1))
    (exited_abnormally c).

Definition Command_run (c : Command) : M Command :=
  match cmd_class c with
  | BuildCommand => BuildCommand_run c
  | DockerBuildCommand => DockerBuildCommand_run c
  end.

(** [BuildCommand.save] *)
Definition save (c : Command) : M Command :=
  let c := if record_as_success c then set_exit_code (Some 0) c else c in
  s ← get;
  match benv_of c s with
  | Some (Some b) =>
    post (POST_command (has_feature (project s) API_LARGE_DATA)
            {| data_build := build_id b;
               data_command := get_command c;
               data_description := description c;
               data_output := output c;
               data_exit_code := exit_code c |})
         (on_POST O);;
    mret c
  | _ => raise attribute_error
  end.

(** *** [BaseEnvironment] and [BuildEnvironment] *)

(** [BuildEnvironment.done] *)
Definition done (s : Env) : bool :=
  match build s with
  | Some b => String.eqb (build_state b) (BUILD_STATE_FINISHED cf)
  | None => false
  end.

(** [BuildEnvironment.successful] *)
Definition successful (s : Env) : bool :=
  done s && bool_decide (failure s = None)
  && forallb cmd_successful (commands s).

(** [BuildEnvironment.failed] *)
Definition failed (s : Env) : bool :=
  done s && (bool_decide (failure s ≠ None)
             || existsb cmd_failed (commands s)).

(** [record_command]: a no-op in [BaseEnvironment], [command.save()] in
    [BuildEnvironment]. *)
Definition record_command (c : Command) : M Command :=
  s ← get;
  if is_build_environment (cls s) then save c else mret c.

(** [self.version], an attribute that only build environments have. *)
Definition self_version : M Version :=
  s ← get;
  if is_build_environment (cls s) then mret (version s)
  else raise attribute_error.

(** [run_command_class]; [BuildEnvironment] overrides it only to pass
    itself as [build_env]. *)
Definition run_command_class (k : command_class) (cmd : list string)
    (record_ : option bool) (warn_only record_as_success_ : bool)
    (kwargs : Kwargs) : M Command :=
  s ← get;
  let kwargs :=
    if is_build_environment (cls s) then with_build_env kwargs
    else kwargs in
  let record_ :=
    match record_ with
    | Some r => r
    | None => if is_build_environment (cls s) then record s else false
    end in
  let warn_only := if negb record_ then true else warn_only in
  let record_ := if record_as_success_ then true else record_ in
  let warn_only := if record_as_success_ then true else warn_only in
  environment ← dict_copy (env_environment s);
  env_path ← dict_pop environment "BIN_PATH";
  let kwargs :=
    if bool_decide (kw_bin_path kwargs = None) && truthy env_path
    then with_bin_path env_path kwargs
    else kwargs in
  if bool_decide (kw_environment kwargs ≠ None) then
    raise (BuildEnvironmentError_
             (py "environment can't be passed in via commands."))
  else
    build_cmd ← Command_init k cmd (with_environment environment kwargs)
                  record_as_success_;
    build_cmd ← Command_run build_cmd;
    build_cmd ← (if record_ then
                   c ← record_command build_cmd;
                   modify (fun s => set_commands (commands s ++ [c]) s);;
                   mret c
                 else mret build_cmd);
    if cmd_failed build_cmd then
      let msg := py ("Command " ++ get_command build_cmd ++ " failed") in
      let msg :=
        match output build_cmd with
        | Some (_ :: _ as out) => msg ++ py (":" ++ NL) ++ out
        | _ => msg
        end in
      if warn_only then
        self_version;;                 (* read by the log call *)
        mret build_cmd
      else raise (BuildEnvironmentWarning_ msg)
    else mret build_cmd.

(** [run]: [run_command_class] with the command class of the environment. *)
Definition run (cmd : list string) (record_ : option bool)
    (warn_only record_as_success_ : bool) (kwargs : Kwargs) : M Command :=
  s ← get;
  run_command_class (command_class_of (cls s)) cmd record_ warn_only
    record_as_success_ kwargs.

Definition WARNING_EXCEPTIONS : list exc_class :=
  [VersionLockedError; ProjectBuildsSkippedError; YAMLParseError;
   BuildTimeoutError; MkDocsYAMLParseError; RepositoryError;
   ProjectConfigurationError].

(** [handle_exception]: [true] tells the [with] statement to swallow the
    exception; without an exception the method returns [None]. *)
Definition handle_exception (exc_ : option exc) : M bool :=
  match exc_ with
  | Some e =>
    (if issubclass (exc_type e) BuildEnvironmentWarning
     then mret tt                             (* logged as a warning *)
     else if bool_decide (exc_type e ∈ WARNING_EXCEPTIONS)
     then modify (set_failure (Some e))       (* logged as a warning *)
     else modify (set_failure (Some e)));;    (* logged as an error *)
    mret true
  | None => mret false
  end.

(** The value [update_build] stores under ['exit_code'] once the build is
    done, if it stores one. *)
Definition new_exit_code (s : Env) : Res (option (option Z)) :=
  let from_commands :=
    match commands s with
    | [] => Ok None
    | cs => match max_exit_code cs with
            | Ok z => Ok (Some z)
            | Raise e => Raise e
            end
    end in
  match failure s with
  | Some f =>
    if isinstance f BuildEnvironmentException
    then Ok (Some (Some (status_code f)))
    else from_commands
  | None => from_commands
  end.

Definition with_build (f : Build -> Build) : M unit :=
  modify (fun s => set_build (f <$> build s) s).

(** [update_build].  The values of the record are text, numbers and
    booleans, so the loop that decodes [bytes] values has nothing to do; the
    build duration is left out. *)
Definition update_build (state : string) : M unit :=
  s ← get;
  if negb (record s) then mret tt
  else
    match build s with
    | None => raise type_error          (* [self.build['project'] = ...] *)
    | Some _ =>
      with_build (fun b =>
        {| build_id := build_id b; build_state := state;
           build_project := Some (pk (project s));
           build_version := Some (version_pk (version s));
           build_builder := Some (gethostname cf);
           build_success := build_success b;
           build_exit_code := build_exit_code b;
           build_setup := build_setup b;
           build_setup_error := build_setup_error b;
           build_output := build_output b;
           build_error := build_error b |});;
      s ← get;
      (if done s then
         with_build (fun b =>
           {| build_id := build_id b; build_state := build_state b;
              build_project := build_project b;
              build_version := build_version b;
              build_builder := build_builder b;
              build_success := Some (successful s);
              build_exit_code := build_exit_code b;
              build_setup := build_setup b;
              build_setup_error := build_setup_error b;
              build_output := build_output b;
              build_error := build_error b |});;
         code ← lift (new_exit_code s);
         match code with
         | Some c =>
           with_build (fun b =>
             {| build_id := build_id b; build_state := build_state b;
                build_project := build_project b;
                build_version := build_version b;
                build_builder := build_builder b;
                build_success := build_success b;
                build_exit_code := c;
                build_setup := build_setup b;
                build_setup_error := build_setup_error b;
                build_output := build_output b;
                build_error := build_error b |})
         | None => mret tt
         end
       else mret tt);;
      with_build (fun b =>
        {| build_id := build_id b; build_state := build_state b;
           build_project := build_project b;
           build_version := build_version b;
           build_builder := build_builder b;
           build_success := build_success b;
           build_exit_code := build_exit_code b;
           build_setup := Some []; build_setup_error := Some [];
           build_output := Some []; build_error := Some [] |});;
      s ← get;
      match failure s, build s with
      | Some f, Some b0 =>
        let f' :=
          if isinstance f BuildEnvironmentException
             || isinstance f BuildEnvironmentWarning
          then f
          else BuildEnvironmentError_ (GENERIC_WITH_BUILD_ID cf (build_id b0))
        in
        modify (set_failure (Some f'));;
        with_build (fun b =>
          {| build_id := build_id b; build_state := build_state b;
             build_project := build_project b;
             build_version := build_version b;
             build_builder := build_builder b;
             build_success := build_success b;
             build_exit_code := build_exit_code b;
             build_setup := build_setup b;
             build_setup_error := build_setup_error b;
             build_output := build_output b;
             build_error := Some (exc_msg f') |})
      | _, _ => mret tt
      end;;
      s ← get;
      let update_build_ :=
        negb (done s) || (done s && negb (successful s))
        || update_on_success s in
      if update_build_ then
        (* an exception raised by the request is logged and dropped *)
        match build s with
        | Some b => send (PUT_build (build_id b) b)
        | None => mret tt
        end
      else mret tt
    end.

(** [BuildEnvironment.__exit__] *)
Definition BuildEnvironment_exit (exc_ : option exc) : M bool :=
  ret_ ← handle_exception exc_;
  update_build (BUILD_STATE_FINISHED cf);;
  mret ret_.

(** *** [DockerBuildEnvironment] *)

(** [container_state] *)
Definition container_state : M (option CState) :=
  get_client;;
  s ← get;
  try_except
    (st ← ext (call_inspect_container (container_id s))
              (on_inspect_container O);
     mret (Some st))
    (fun e => if isinstance e DockerAPIError then mret None else raise e).

(** [update_build_from_container_state] *)
Definition update_build_from_container_state : M unit :=
  state ← container_state;
  match state with
  | Some st =>
    if bool_decide (Running st = Some false) then
      if bool_decide (ExitCode st = Some (DOCKER_TIMEOUT_EXIT_CODE cf)) then
        modify (set_failure
          (Some (BuildEnvironmentError_ (py "Build exited due to time out"))))
      else if bool_decide (OOMKilled st = Some true) then
        modify (set_failure
          (Some (BuildEnvironmentError_
             (py "Build exited due to excessive memory consumption"))))
      else if truthy (Error st) then
        modify (set_failure
          (Some (BuildEnvironmentError_
             (py ("Build exited due to unknown error: "
                  ++ or_else (Error st) EmptyString)))))
      else mret tt
    else mret tt
  | None => mret tt
  end.

Definition sleep_command (s : Env) : string :=
  ("/bin/sh -c " ++ String "034"%char ("sleep "
   ++ match container_time_limit s with
      | Some t => pretty t
      | None => "None"
      end
   ++ "; exit " ++ pretty (DOCKER_TIMEOUT_EXIT_CODE cf)
   ++ String "034"%char EmptyString))%string.

(** [create_container]; the bind table of the host configuration is not
    modelled. *)
Definition create_container : M unit :=
  get_client;;
  try_except
    (s ← get;
     c ← ext (call_create_container (container_image s) (sleep_command s)
                (container_id s) (container_mem_limit s))
             (on_create_container O);
     modify (set_container c);;
     s ← get;
     ext (call_start (container_id s)) (on_start O))
    (fun e =>
       if isinstance e ConnectionError then
         s ← get;
         match build s with
         | Some b =>
           raise (BuildEnvironmentError_
                    (GENERIC_WITH_BUILD_ID cf (build_id b)))
         | None => raise type_error
         end
       else if isinstance e DockerAPIError then
         (* the class is raised bare and carries its default message *)
         raise (Exc BuildEnvironmentCreationFailed
                  (py "Build environment creation failed")
                  (default_status_code cf))
       else raise e).

(** [DockerBuildEnvironment.__exit__] *)
Definition DockerBuildEnvironment_exit (exc_ : option exc) : M bool :=
  exc_ ← try_except
    (update_build_from_container_state;;
     get_client;;
     s ← get;
     try_except
       (ext (call_kill (container_id s)) (on_kill O))
       (fun e =>
          if isinstance e DockerNotFoundError then mret tt
          else if isinstance e DockerAPIError then mret tt
          else raise e);;
     try_except
       (ext (call_remove_container (container_id s)) (on_remove_container O))
       (fun e =>
          if isinstance e DockerNotFoundError then mret tt
          else if isinstance e DockerAPIError || isinstance e ConnectionError
                  || isinstance e ReadTimeout
          then mret tt
          else raise e);;
     modify (set_container None);;
     mret exc_)
    (fun e =>
       if isinstance e BuildEnvironmentError then
         match exc_ with
         | Some _ => mret exc_
         | None => mret (Some e)
         end
       else raise e);
  BuildEnvironment_exit exc_.

(** [DockerBuildEnvironment.__enter__] *)
Definition DockerBuildEnvironment_enter : M unit :=
  try_except
    (state ← container_state;
     match state with
     | Some st =>
       if bool_decide (Running st = Some true) then
         let exc_ := BuildEnvironmentError_
           (py "A build environment is currently running for this version") in
         modify (set_failure (Some exc_));;
         with_build (fun b =>
           {| build_id := build_id b;
              build_state := BUILD_STATE_FINISHED cf;
              build_project := build_project b;
              build_version := build_version b;
              build_builder := build_builder b;
              build_success := build_success b;
              build_exit_code := build_exit_code b;
              build_setup := build_setup b;
              build_setup_error := build_setup_error b;
              build_output := build_output b;
              build_error := build_error b |});;
         raise exc_
       else
         get_client;;
         s ← get;
         ext (call_remove_container (container_id s)) (on_remove_container O)
     | None => mret tt
     end)
    (fun e =>
       if isinstance e DockerAPIError || isinstance e ConnectionError
       then mret tt
       else if isinstance e BuildEnvironmentError then
         DockerBuildEnvironment_exit (Some e);; raise e
       else raise e);;
  s ← get;
  exists_ ← ext (call_path_exists (doc_path (project s)))
                (fun h => Ok (on_path_exists O h));
  (if negb exists_
   then ext (call_makedirs (doc_path (project s))) (on_makedirs O)
   else mret tt);;
  try_except create_container
    (fun e => DockerBuildEnvironment_exit (Some e);; raise e).

(** [__enter__] and [__exit__] by class; a plain [BuildEnvironment] enters
    without doing anything. *)
Definition enter : M unit :=
  s ← get;
  match cls s with
  | DockerBuildEnvironment => DockerBuildEnvironment_enter
  | _ => mret tt
  end.

Definition exit (exc_ : option exc) : M bool :=
  s ← get;
  match cls s with
  | DockerBuildEnvironment => DockerBuildEnvironment_exit exc_
  | _ => BuildEnvironment_exit exc_
  end.

(** [with env: body]: the body's exception goes to [__exit__], which
    decides whether it is swallowed; an exception of [__enter__] or of
    [__exit__] itself propagates. *)
Definition body_then_exit {A} (body : M A) : M (option A) :=
  fun s =>
    match body s with
    | (Ok a, s1) =>
      match exit None s1 with
      | (Ok _, s2) => (Ok (Some a), s2)
      | (Raise e, s2) => (Raise e, s2)
      end
    | (Raise e, s1) =>
      match exit (Some e) s1 with
      | (Ok true, s2) => (Ok None, s2)
      | (Ok false, s2) => (Raise e, s2)
      | (Raise e', s2) => (Raise e', s2)
      end
    end.

Definition with_env {A} (body : M A) : M (option A) :=
  enter;; body_then_exit body.

(** *** Constructors

    [h] is the store at the time of construction; the logs of requests
    and calls start empty. *)

(** [BaseEnvironment.__init__]: [self._environment = environment or {}]
    keeps the caller's dictionary itself when it is not empty. *)
Definition BaseEnvironment_init (h : gmap loc dict) (k : env_class)
    (project_ : Project) (environment : option loc) : Env :=
  let given :=
    match environment with
    | Some l => if bool_decide (default ∅ (h !! l) = ∅) then None else Some l
    | None => None
    end in
  {| heap := match given with
             | Some _ => h
             | None => <[fresh (dom h) := ∅]> h
             end;
     cls := k; project := project_;
     env_environment := match given with
                        | Some l => l
                        | None => fresh (dom h)
                        end;
     commands := [];
     version := {| version_pk := 0; version_slug := EmptyString |};
     build := None; config := None; record := false;
     update_on_success := false; failure := None;
     client := false; container := None; container_name := EmptyString;
     container_image := DOCKER_IMAGE cf;
     container_mem_limit := DOCKER_LIMITS_memory cf;
     container_time_limit := DOCKER_LIMITS_time cf;
     api := []; calls := [] |}.

(** [BuildEnvironment.__init__] *)
Definition BuildEnvironment_init (h : gmap loc dict) (k : env_class)
    (project_ : Project) (version_ : Version) (build_ : option Build)
    (config_ : option Config) (record_ : bool) (environment : option loc)
    (update_on_success_ : bool) : Env :=
  let s := BaseEnvironment_init h k project_ environment in
  {| heap := heap s; cls := cls s; project := project s;
     env_environment := env_environment s; commands := commands s;
     version := version_; build := build_; config := config_;
     record := record_; update_on_success := update_on_success_;
     failure := None;
     client := client s; container := container s;
     container_name := container_name s;
     container_image := container_image s;
     container_mem_limit := container_mem_limit s;
     container_time_limit := container_time_limit s;
     api := api s; calls := calls s |}.

(** [get_container_name] *)
Definition get_container_name (s : Env) : string * Env :=
  let suffix :=
    ("-project-" ++ pretty (pk (project s)) ++ "-" ++ slug (project s))%string
  in
  match build s with
  | Some b =>
    (slugify cf (String.substring 0 (DOCKER_HOSTNAME_MAX_LEN cf)
       ("build-" ++ pretty (build_id b) ++ suffix)%string), s)
  | None =>
    (* a random part makes the name unique per sync *)
    let h := calls s ++ [call_uuid4] in
    (slugify cf (String.substring 0 (DOCKER_HOSTNAME_MAX_LEN cf)
       ("sync-" ++ String.substring 0 8 (on_uuid4 O h) ++ suffix)%string),
     set_calls h s)
  end.

(** The image chosen by [DockerBuildEnvironment.__init__]: three
    assignments in a row, each under its own condition. *)
Definition resolve_container_image (project_ : Project)
    (config_ : option Config) : string :=
  let image := DOCKER_IMAGE cf in
  let image :=
    if has_feature project_ USE_TESTING_BUILD_IMAGE
    then "readthedocs/build:testing"%string else image in
  let image :=
    match config_ with
    | Some c => if truthy (docker_image c)
                then or_else (docker_image c) image else image
    | None => image
    end in
  let image :=
    if truthy (project_container_image project_)
    then or_else (project_container_image project_) image else image in
  image.

(** [DockerBuildEnvironment.__init__] *)
Definition DockerBuildEnvironment_init (h : gmap loc dict)
    (project_ : Project) (version_ : Version) (build_ : option Build)
    (config_ : option Config) (record_ : bool) (environment : option loc)
    (update_on_success_ : bool) : Env :=
  let s0 := BuildEnvironment_init h DockerBuildEnvironment project_ version_
              build_ config_ record_ environment update_on_success_ in
  let (name, s) := get_container_name s0 in
  {| heap := heap s; cls := cls s; project := project s;
     env_environment := env_environment s; commands := commands s;
     version := version s; build := build s; config := config s;
     record := record s; update_on_success := update_on_success s;
     failure := failure s;
     client := false; container := None; container_name := name;
     container_image := resolve_container_image project_ config_;
     container_mem_limit :=
       if truthy (project_container_mem_limit project_)
       then project_container_mem_limit project_
       else DOCKER_LIMITS_memory cf;
     container_time_limit :=
       if truthy_time (project_container_time_limit project_)
       then project_container_time_limit project_
       else DOCKER_LIMITS_time cf;
     api := api s; calls := calls s |}.

End Methods.

(** ** Sample values

    Settings in the style of a development installation, and small objects
    used to run the definitions on concrete inputs. *)

Definition sample_conf : Conf :=
  {| DATA_UPLOAD_MAX_MEMORY_SIZE := 2621440;
     RTD_DOCKER_WORKDIR := "/home/docs/";
     RTD_DOCKER_USER := "docs:docs";
     DOCKER_IMAGE := "readthedocs/build:latest";
     DOCKER_LIMITS_memory := Some "200m"%string;
     DOCKER_LIMITS_time := Some 600;
     DOCKER_OOM_EXIT_CODE := 137;
     DOCKER_TIMEOUT_EXIT_CODE := 42;
     DOCKER_HOSTNAME_MAX_LEN := 64;
     BUILD_STATE_FINISHED := "finished";
     GENERIC_WITH_BUILD_ID := fun id =>
       py ("There was a problem with Read the Docs while building your "
           ++ "documentation. Please try again later. If this problem "
           ++ "persists, report this error to us with your build id ("
           ++ pretty id ++ ").");
     default_status_code := 1;
     slugify := fun s => s;
     os_environ_PATH := "/usr/bin:/bin";
     gethostname := "build01" |}.

(** The same settings with an upload limit four bytes above the reserved
    margin, so that the ceiling on a command's output is 4. *)
Definition small_upload_conf : Conf :=
  {| DATA_UPLOAD_MAX_MEMORY_SIZE := 512 * 1024 + 4;
     RTD_DOCKER_WORKDIR := RTD_DOCKER_WORKDIR sample_conf;
     RTD_DOCKER_USER := RTD_DOCKER_USER sample_conf;
     DOCKER_IMAGE := DOCKER_IMAGE sample_conf;
     DOCKER_LIMITS_memory := DOCKER_LIMITS_memory sample_conf;
     DOCKER_LIMITS_time := DOCKER_LIMITS_time sample_conf;
     DOCKER_OOM_EXIT_CODE := DOCKER_OOM_EXIT_CODE sample_conf;
     DOCKER_TIMEOUT_EXIT_CODE := DOCKER_TIMEOUT_EXIT_CODE sample_conf;
     DOCKER_HOSTNAME_MAX_LEN := DOCKER_HOSTNAME_MAX_LEN sample_conf;
     BUILD_STATE_FINISHED := BUILD_STATE_FINISHED sample_conf;
     GENERIC_WITH_BUILD_ID := GENERIC_WITH_BUILD_ID sample_conf;
     default_status_code := default_status_code sample_conf;
     slugify := slugify sample_conf;
     os_environ_PATH := os_environ_PATH sample_conf;
     gethostname := gethostname sample_conf |}.

Definition sample_project : Project :=
  {| pk := 7; slug := "pip";
     has_feature := fun _ => false;
     doc_path := "/home/docs/checkouts/pip";
     project_container_image := None;
     project_container_mem_limit := None;
     project_container_time_limit := None |}.

Definition sample_version : Version :=
  {| version_pk := 11; version_slug := "latest" |}.

Definition sample_build : Build :=
  {| build_id := 123; build_state := "building";
     build_project := None; build_version := None; build_builder := None;
     build_success := None; build_exit_code := None; build_setup := None;
     build_setup_error := None; build_output := None;
     build_error := None |}.

(** The bytes of an ASCII literal. *)
Definition bytes_of (s : string) : list byte := list_byte_of_string s.

Definition running_state : CState :=
  {| Running := Some true; ExitCode := Some 0; OOMKilled := Some false;
     Error := Some EmptyString |}.

(** A container that stopped on the time-out sentinel of [sample_conf]. *)
Definition timed_out_state : CState :=
  {| Running := Some false; ExitCode := Some 42; OOMKilled := Some false;
     Error := Some EmptyString |}.

(** An outside world in which every call succeeds, apart from the answers
    given as arguments. *)
Definition oracle_with (inspect : list Call -> Res CState)
    (kill_ : list Call -> Res unit)
    (exec_output : list byte) (exec_code : Z)
    (popen : list Call -> Res (list byte * Z)) : Oracle :=
  {| on_APIClient := fun _ => Ok tt;
     on_inspect_container := inspect;
     on_kill := kill_;
     on_remove_container := fun _ => Ok tt;
     on_create_container := fun _ => Ok (Some "c0ffee"%string);
     on_start := fun _ => Ok tt;
     on_exec_create := fun _ => Ok "exec1"%string;
     on_exec_start := fun _ => Ok exec_output;
     on_exec_inspect := fun _ => Ok exec_code;
     on_Popen := popen;
     on_path_exists := fun _ => true;
     on_makedirs := fun _ => Ok tt;
     on_uuid4 := fun _ => "0123456789abcdef"%string;
     on_POST := fun _ => Ok tt |}.

Definition not_found : exc := Exc DockerNotFoundError (py "No such container") 0.

Definition is_create (c : Call) : bool :=
  match c with
  | call_create_container _ _ _ _ => true
  | _ => false
  end.

(** No container under the name until one is created; running afterwards. *)
Definition inspect_fresh (h : list Call) : Res CState :=
  if existsb is_create h then Ok running_state else Raise not_found.

Definition quiet_oracle : Oracle :=
  oracle_with inspect_fresh (fun _ => Ok tt) [] 0 (fun _ => Ok ([], 0)).

Definition connection_error : exc := Exc ConnectionError (py "connection aborted") 0.

(** A recording local build environment with an empty store. *)
Definition sample_local_env : Env :=
  BuildEnvironment_init sample_conf ∅ LocalBuildEnvironment sample_project
    sample_version (Some sample_build) None true None true.

Definition sample_docker_env (O : Oracle) : Env :=
  DockerBuildEnvironment_init sample_conf O ∅ sample_project sample_version
    (Some sample_build) None true None true.

(** A project with the testing-image flag and an image set by an admin. *)
Definition flagged_project : Project :=
  {| pk := 7; slug := "pip";
     has_feature := fun f => match f with
                             | USE_TESTING_BUILD_IMAGE => true
                             | API_LARGE_DATA => false
                             end;
     doc_path := "/home/docs/checkouts/pip";
     project_container_image := Some "readthedocs/build:7.0"%string;
     project_container_mem_limit := Some "1g"%string;
     project_container_time_limit := Some 900 |}.

(** ** The phases of [run_command_class]

    The method builds a command, runs it and settles the outcome.  The
    phases are named here so that a property can be stated about one of
    them given the outcome of another; [run_command_class_phases] shows
    that they compose to the method. *)

Definition effective_record (s : Env) (record_ : option bool)
    (record_as_success_ : bool) : bool :=
  let r := match record_ with
           | Some r => r
           | None => if is_build_environment (cls s) then record s else false
           end in
  if record_as_success_ then true else r.

Definition effective_warn_only (s : Env) (record_ : option bool)
    (warn_only record_as_success_ : bool) : bool :=
  let r := match record_ with
           | Some r => r
           | None => if is_build_environment (cls s) then record s else false
           end in
  let w := if negb r then true else warn_only in
  if record_as_success_ then true else w.

Definition construct_command (cf : Conf) (k : command_class)
    (cmd : list string) (record_as_success_ : bool) (kwargs : Kwargs)
    : M Command :=
  s ← get;
  let kwargs :=
    if is_build_environment (cls s) then with_build_env kwargs
    else kwargs in
  environment ← dict_copy (env_environment s);
  env_path ← dict_pop environment "BIN_PATH";
  let kwargs :=
    if bool_decide (kw_bin_path kwargs = None) && truthy env_path
    then with_bin_path env_path kwargs
    else kwargs in
  if bool_decide (kw_environment kwargs ≠ None) then
    raise (BuildEnvironmentError_ cf
             (py "environment can't be passed in via commands."))
  else
    Command_init cf k cmd (with_environment environment kwargs)
      record_as_success_.

Definition failure_message (c : Command) : pystr :=
  let msg := py ("Command " ++ get_command c ++ " failed") in
  match output c with
  | Some (_ :: _ as out) => msg ++ py (":" ++ NL) ++ out
  | _ => msg
  end.

Definition settle_command (cf : Conf) (O : Oracle)
    (record_ warn_only : bool) (build_cmd : Command) : M Command :=
  build_cmd ← (if record_ then
                 c ← record_command O build_cmd;
                 modify (fun s => set_commands (commands s ++ [c]) s);;
                 mret c
               else mret build_cmd);
  if cmd_failed build_cmd then
    if warn_only then self_version;; mret build_cmd
    else raise (BuildEnvironmentWarning_ cf (failure_message build_cmd))
  else mret build_cmd.

(** The request [save] sends for a command. *)
Definition post_of (s : Env) (b : Build) (c : Command) : api_call :=
  POST_command (has_feature (project s) API_LARGE_DATA)
    {| data_build := build_id b;
       data_command := get_command c;
       data_description := description c;
       data_output := output c;
       data_exit_code := exit_code c |}.

Definition is_PUT (r : api_call) : bool :=
  match r with
  | PUT_build _ _ => true
  | POST_command _ _ => false
  end.

(** The failures [update_build_from_container_state] can store. *)
Definition timeout_failure (cf : Conf) : exc :=
  BuildEnvironmentError_ cf (py "Build exited due to time out").

Definition oom_failure (cf : Conf) : exc :=
  BuildEnvironmentError_ cf
    (py "Build exited due to excessive memory consumption").

Definition engine_failure (cf : Conf) (err : string) : exc :=
  BuildEnvironmentError_ cf
    (py ("Build exited due to unknown error: " ++ err)).

(** ** Notions used in the statements and proofs *)

(** No character of the literal is NUL. *)
Definition nonzero_chars (s : string) : Prop :=
  Forall (fun a => N_of_ascii a ≠ 0%N) (list_ascii_of_string s).

(** [preserves h0 m Q]: run from a store that extends [h0], the computation
    [m] ends in a store that extends [h0], and a returned value satisfies
    [Q].  A dictionary of [h0] is thus left untouched, whatever else is
    allocated or rewritten. *)
Definition preserves (h0 : gmap loc dict) {A} (m : M A) (Q : A -> Prop)
    : Prop :=
  forall s, h0 ⊆ heap s ->
    h0 ⊆ heap (m s).2 /\ forall a, (m s).1 = Ok a -> Q a.

Definition any {A} (_ : A) : Prop := True.

(** The environment without the store, the log of calls and the cached
    client: what running a command must not change. *)
Definition forget_store (s : Env) : Env :=
  set_heap ∅ (set_calls [] (set_client false s)).

(** [stable m Q]: the computation [m] changes at most the store, the log of
    calls and the cached client, and a returned value satisfies [Q]. *)
Definition stable {A} (m : M A) (Q : A -> Prop) : Prop :=
  forall s,
    forget_store (m s).2 = forget_store s /\
    forall a, (m s).1 = Ok a -> Q a.

(** A command without the result of its run. *)
Definition forget_result (c : Command) : Command :=
  set_output None (set_error None (set_exit_code None c)).

Definition same_command (c : Command) (c' : Command) : Prop :=
  forget_result c' = forget_result c.

(** A host on which every process prints [boom] and exits with 2. *)
Definition failing_host : Oracle :=
  oracle_with inspect_fresh (fun _ => Ok tt) [] 0
    (fun _ => Ok (bytes_of "boom", 2)).

(** The same outside world with another answer of the tracking API. *)
Definition with_POST (answer : list api_call -> Res unit) (O : Oracle)
    : Oracle :=
  {| on_APIClient := on_APIClient O;
     on_inspect_container := on_inspect_container O;
     on_kill := on_kill O;
     on_remove_container := on_remove_container O;
     on_create_container := on_create_container O;
     on_start := on_start O;
     on_exec_create := on_exec_create O;
     on_exec_start := on_exec_start O;
     on_exec_inspect := on_exec_inspect O;
     on_Popen := on_Popen O;
     on_path_exists := on_path_exists O;
     on_makedirs := on_makedirs O;
     on_uuid4 := on_uuid4 O;
     on_POST := answer |}.

Definition http_client_error : exc :=
  Exc HttpClientError (py "Client Error 400") 0.

(** A [LocalEnvironment]: no version, no build record, no recording. *)
Definition sample_plain_env : Env :=
  BaseEnvironment_init sample_conf ∅ LocalEnvironment sample_project None.

(** A recording local build environment without a build record. *)
Definition sample_env_without_build : Env :=
  BuildEnvironment_init sample_conf ∅ LocalBuildEnvironment sample_project
    sample_version None None true None true.

(** An engine whose exec sessions print a compiler log that ends with the
    kernel's [Killed] and report exit code 1. *)
Definition killed_engine : Oracle :=
  oracle_with inspect_fresh (fun _ => Ok tt)
    (bytes_of ("cc1plus: out of memory" ++ NL ++ "Killed" ++ NL)) 1
    (fun _ => Ok ([], 0)).

(** A command as [DockerBuildEnvironment.run] builds it, before it runs. *)
Definition docker_command (cmd : list string) : Command :=
  {| cmd_class := DockerBuildCommand; command := cmd; shell := false;
     cwd := "/home/docs/"; user := "docs:docs";
     cmd_environment := 1%positive; build_env := true;
     output := None; error := None; bin_path := None;
     description := EmptyString; record_as_success := false;
     escape_command := true; exit_code := None |}.

(** A host whose first process prints nothing and exits with 0, and whose
    later processes print [boom] and exit with 2. *)
Definition second_fails_host : Oracle :=
  oracle_with inspect_fresh (fun _ => Ok tt) [] 0
    (fun h => if (length h <=? 1)%nat then Ok ([], 0)
              else Ok (bytes_of "boom", 2)).

(** An engine whose first exec session exits with 0 and whose later ones
    print [boom] and exit with 2. *)
Definition is_exec_inspect (c : Call) : bool :=
  match c with
  | call_exec_inspect _ => true
  | _ => false
  end.

Definition second_fails_engine : Oracle :=
  {| on_APIClient := fun _ => Ok tt;
     on_inspect_container := inspect_fresh;
     on_kill := fun _ => Ok tt;
     on_remove_container := fun _ => Ok tt;
     on_create_container := fun _ => Ok (Some "c0ffee"%string);
     on_start := fun _ => Ok tt;
     on_exec_create := fun _ => Ok "exec1"%string;
     on_exec_start := fun _ => Ok (bytes_of "boom");
     on_exec_inspect := fun h =>
       if (length (List.filter is_exec_inspect h) <=? 1)%nat
       then Ok 0 else Ok 2;
     on_Popen := fun _ => Ok ([], 0);
     on_path_exists := fun _ => true;
     on_makedirs := fun _ => Ok tt;
     on_uuid4 := fun _ => "0123456789abcdef"%string;
     on_POST := fun _ => Ok tt |}.

(** The two-command build of the scenario, under the default policy. *)
Definition two_command_build (cf : Conf) (O : Oracle)
    (cmd1 cmd2 : list string) (kw1 kw2 : Kwargs) : M (option Command) :=
  with_env cf O
    (run cf O cmd1 None false false kw1;;
     run cf O cmd2 None false false kw2).

(** An engine that loses the connection when asked to kill a container. *)
Definition kill_disconnects (inspect : list Call -> Res CState) : Oracle :=
  oracle_with inspect (fun _ => Raise connection_error) [] 0
    (fun _ => Ok ([], 0)).

(** An engine that loses the connection when asked to remove a container. *)
Definition remove_disconnects : Oracle :=
  {| on_APIClient := fun _ => Ok tt;
     on_inspect_container := inspect_fresh;
     on_kill := fun _ => Ok tt;
     on_remove_container := fun _ => Raise connection_error;
     on_create_container := fun _ => Ok (Some "c0ffee"%string);
     on_start := fun _ => Ok tt;
     on_exec_create := fun _ => Ok "exec1"%string;
     on_exec_start := fun _ => Ok [];
     on_exec_inspect := fun _ => Ok 0;
     on_Popen := fun _ => Ok ([], 0);
     on_path_exists := fun _ => true;
     on_makedirs := fun _ => Ok tt;
     on_uuid4 := fun _ => "0123456789abcdef"%string;
     on_POST := fun _ => Ok tt |}.

(** An engine that already runs a container under the derived name. *)
Definition busy_engine : Oracle :=
  oracle_with (fun _ => Ok running_state) (fun _ => Ok tt) [] 0
    (fun _ => Ok ([], 0)).

(** An engine that holds a stopped container under the derived name and
    loses the connection when asked to remove one. *)
Definition stale_engine : Oracle :=
  {| on_APIClient := fun _ => Ok tt;
     on_inspect_container := fun _ =>
       Ok {| Running := Some false; ExitCode := Some 0;
             OOMKilled := Some false; Error := Some EmptyString |};
     on_kill := fun _ => Ok tt;
     on_remove_container := fun _ => Raise connection_error;
     on_create_container := fun _ => Ok (Some "c0ffee"%string);
     on_start := fun _ => Ok tt;
     on_exec_create := fun _ => Ok "exec1"%string;
     on_exec_start := fun _ => Ok [];
     on_exec_inspect := fun _ => Ok 0;
     on_Popen := fun _ => Ok ([], 0);
     on_path_exists := fun _ => true;
     on_makedirs := fun _ => Ok tt;
     on_uuid4 := fun _ => "0123456789abcdef"%string;
     on_POST := fun _ => Ok tt |}.

Definition key_error : exc := Exc KeyError (py "'version'") 0.

Definition lock_error (cf : Conf) : exc :=
  BuildEnvironmentError_ cf
    (py "A build environment is currently running for this version").

(** What the finalization of a build reads of the environment and a
    teardown must leave alone. *)
Definition teardown_core (s : Env)
    : list Command * option Build * bool * list Call :=
  (commands s, build s, record s, List.filter is_create (calls s)).

(** [keeps f m]: the computation [m] leaves the part [f] of the
    environment as it is. *)
Definition keeps {X A} (f : Env -> X) (m : M A) : Prop :=
  forall s, f (m s).2 = f s.

(** [raises_only P m]: the computation [m] leaves [teardown_core] as it is,
    and an exception that leaves it satisfies [P]. *)
Definition raises_only (P : exc -> Prop) {A} (m : M A) : Prop :=
  forall s,
    teardown_core (m s).2 = teardown_core s /\
    forall e, (m s).1 = Raise e -> P e.

Definition is_a (c : exc_class) (e : exc) : Prop := isinstance e c = true.

Definition never (_ : exc) : Prop := False.

(** The engine faults that the teardown of [__exit__] is prepared for. *)
Record tolerable (O : Oracle) : Prop := {
  tolerable_client : forall h e,
    on_APIClient O h = Raise e -> is_a DockerException e;
  tolerable_inspect : forall h e,
    on_inspect_container O h = Raise e -> is_a DockerAPIError e;
  tolerable_kill : forall h e,
    on_kill O h = Raise e -> is_a DockerAPIError e;
  tolerable_remove : forall h e,
    on_remove_container O h = Raise e ->
    is_a DockerAPIError e \/ is_a ConnectionError e \/ is_a ReadTimeout e
}.

(** A Docker build environment that has not entered its scope yet, a host
    that makes the checkout directory if it is asked to, and an engine that
    answers every call: it does not know the container until it is created
    and reports the state [st] for it afterwards; the first exec session
    exits with 0 and the second with 2. *)
Record engine_exits_0_then_2 (O : Oracle) (s : Env) (st : CState) : Prop := {
  not_connected_yet : client s = false;
  nothing_created_yet : existsb is_create (calls s) = false;
  nothing_executed_yet : List.filter is_exec_inspect (calls s) = [];
  engine_connects : forall h, on_APIClient O h = Ok tt;
  container_unknown : forall h,
    existsb is_create h = false ->
    exists e, on_inspect_container O h = Raise e /\
              isinstance e DockerAPIError = true;
  container_reported : forall h,
    existsb is_create h = true -> on_inspect_container O h = Ok st;
  checkout_made : forall h, on_makedirs O h = Ok tt;
  container_created : forall h, exists c, on_create_container O h = Ok c;
  container_started : forall h, on_start O h = Ok tt;
  container_killed : forall h, on_kill O h = Ok tt;
  container_removed : forall h, on_remove_container O h = Ok tt;
  exec_created : forall h, exists id, on_exec_create O h = Ok id;
  exec_started : forall h, exists raw, on_exec_start O h = Ok raw;
  first_exec_exits_0 : forall h,
    length (List.filter is_exec_inspect h) = 1%nat ->
    on_exec_inspect O h = Ok 0;
  second_exec_exits_2 : forall h,
    length (List.filter is_exec_inspect h) = 2%nat ->
    on_exec_inspect O h = Ok 2
}.

(** The next two processes of the host exit with 0 and with 2. *)
Definition host_exits_0_then_2 (O : Oracle) (s : Env) : Prop :=
  exists raw1 raw2,
    (forall c, on_Popen O (calls s ++ [c]) = Ok (raw1, 0)) /\
    (forall c c', on_Popen O ((calls s ++ [c]) ++ [c']) = Ok (raw2, 2)).

(** The first command of the scope exits with 0 and the second with 2,
    whichever way the environment runs its commands; [st] is the state a
    container engine reports for the container. *)
Definition first_exits_0_second_exits_2 (O : Oracle) (s : Env)
    (st : CState) : Prop :=
  match command_class_of (cls s) with
  | BuildCommand => host_exits_0_then_2 O s
  | DockerBuildCommand => engine_exits_0_then_2 O s st
  end.

(** The failure that the state of a container names, if it names one: the
    container is reported as stopped, on the time-out sentinel, by an OOM
    kill or with an engine error. *)
Definition container_failure (cf : Conf) (st : CState) : option exc :=
  if bool_decide (Running st = Some false) then
    if bool_decide (ExitCode st = Some (DOCKER_TIMEOUT_EXIT_CODE cf))
    then Some (timeout_failure cf)
    else if bool_decide (OOMKilled st = Some true)
    then Some (oom_failure cf)
    else if truthy (Error st)
    then Some (engine_failure cf (or_else (Error st) EmptyString))
    else None
  else None.

(** The failure that the exit of the scope finds stored when the body has
    stored none: a Docker build environment looks at its container first,
    the others at nothing. *)
Definition failure_at_exit (cf : Conf) (s : Env) (st : CState) : option exc :=
  if is_docker_environment (cls s) then container_failure cf st else None.

(** An engine like [second_fails_engine] whose container is found stopped
    by an OOM kill when the scope is left. *)
Definition oom_stopped_state : CState :=
  {| Running := Some false; ExitCode := Some 137; OOMKilled := Some true;
     Error := Some EmptyString |}.

Definition second_fails_oom_engine : Oracle :=
  {| on_APIClient := fun _ => Ok tt;
     on_inspect_container := fun h =>
       if existsb is_create h then Ok oom_stopped_state else Raise not_found;
     on_kill := fun _ => Ok tt;
     on_remove_container := fun _ => Ok tt;
     on_create_container := fun _ => Ok (Some "c0ffee"%string);
     on_start := fun _ => Ok tt;
     on_exec_create := fun _ => Ok "exec1"%string;
     on_exec_start := fun _ => Ok (bytes_of "boom");
     on_exec_inspect := fun h =>
       if (length (List.filter is_exec_inspect h) <=? 1)%nat
       then Ok 0 else Ok 2;
     on_Popen := fun _ => Ok ([], 0);
     on_path_exists := fun _ => true;
     on_makedirs := fun _ => Ok tt;
     on_uuid4 := fun _ => "0123456789abcdef"%string;
     on_POST := fun _ => Ok tt |}.

(** A character that [bash_escape_re] matches. *)
Definition is_bash_special (a : ascii) : bool :=
  bool_decide (nat_of_ascii a ∈ bash_special).

(** No character of the text is matched by [bash_escape_re]. *)
Fixpoint bash_safe (s : string) : bool :=
  match s with
  | EmptyString => true
  | String a rest => negb (is_bash_special a) && bash_safe rest
  end.

(** The texts in which every matched character directly follows a
    backslash that is not itself escaped. *)
Fixpoint all_escaped (s : string) : bool :=
  match s with
  | EmptyString => true
  | String a rest =>
    if is_bash_special a then
      match rest with
      | String b rest' =>
        Ascii.eqb a "\"%char && is_bash_special b && all_escaped rest'
      | EmptyString => false
      end
    else all_escaped rest
  end.

(** A Unicode scalar value: a code point that is not a surrogate, which is
    what [str.encode('utf-8')] accepts. *)
Definition is_scalar_value (c : Z) : Prop :=
  0 <= c <= 1114111 /\ ~ (55296 <= c <= 57343).

(** The [bin_path] a command of [run_command_class] gets: the caller's,
    when the caller passes one, and otherwise a non-empty [BIN_PATH] of the
    environment mapping. *)
Definition effective_bin_path (kw : Kwargs) (d : dict) : option string :=
  match kw_bin_path kw with
  | Some p => p
  | None => if truthy (d !! "BIN_PATH"%string)
            then d !! "BIN_PATH"%string else None
  end.

(** The [PATH] a host process is started with. *)
Definition process_PATH (cf : Conf) (bin : option string) : string :=
  match bin with
  | Some p => (p ++ ":" ++ os_environ_PATH cf)%string
  | None => os_environ_PATH cf
  end.




(** * Properties *)

Ltac unfold_monad :=
  unfold mbind, M_bind, mret, M_ret, try_except, raise, lift, get, modify,
    ext, send, post in *.

Ltac close_cases := repeat split; intros; try done.

(** ** Output sanitization *)

Lemma pretty_N_char_nonzero x : N_of_ascii (pretty_N_char x) ≠ 0%N.
Proof. unfold pretty_N_char. repeat case_match; discriminate. Qed.

Lemma pretty_N_go_nonzero x s :
  nonzero_chars s -> nonzero_chars (pretty_N_go x s).
Proof.
  revert s. induction (N.lt_wf_0 x) as [x _ IH]; intros s Hs.
  destruct (decide (x = 0%N)) as [->|Hx].
  - by rewrite pretty_N_go_0.
  - rewrite pretty_N_go_step by lia.
    apply IH.
    + apply N.div_lt; lia.
    + constructor; [apply pretty_N_char_nonzero | exact Hs].
Qed.

Lemma pretty_Z_nonzero (n : Z) : nonzero_chars (pretty n).
Proof.
  assert (Hpos : forall p : positive, nonzero_chars (pretty p)).
  { intros p. unfold pretty, pretty_positive, pretty, pretty_N.
    case_decide; [discriminate|]. apply pretty_N_go_nonzero. constructor. }
  destruct n as [|p|p]; unfold pretty, pretty_Z.
  - repeat constructor; discriminate.
  - apply Hpos.
  - constructor; [discriminate | apply Hpos].
Qed.

Lemma py_nonzero s : nonzero_chars s -> 0 ∉ py s.
Proof.
  unfold nonzero_chars, py. induction 1 as [|a l Ha _ IH]; simpl.
  - apply not_elem_of_nil.
  - apply not_elem_of_cons. split; [lia | exact IH].
Qed.

Lemma truncation_notice_no_nul n : 0 ∉ truncation_notice n.
Proof.
  unfold truncation_notice, str_of_int.
  rewrite !elem_of_app. intros [H|[H|H]]; revert H.
  - apply py_nonzero. repeat constructor; discriminate.
  - apply py_nonzero, pretty_Z_nonzero.
  - apply py_nonzero. repeat constructor; discriminate.
Qed.

Lemma strip_nul_no_nul s : 0 ∉ strip_nul s.
Proof. unfold strip_nul. rewrite list_elem_of_filter. tauto. Qed.

Lemma py_slice_from_suffix {A} i (s : list A) : py_slice_from i s `suffix_of` s.
Proof. unfold py_slice_from. apply suffix_drop. Qed.

Lemma py_slice_from_tail_length {A} k (s : list A) :
  0 < k ->
  Z.of_nat (length (py_slice_from (- k) s)) = Z.min k (Z.of_nat (length s)).
Proof.
  intros Hk. unfold py_slice_from.
  destruct (Z.ltb_spec (- k) 0); [|lia].
  rewrite length_drop. lia.
Qed.

(** C4 (amended). Sanitizing a byte sequence never leaves a NUL character in
    the text.  An output no longer than the ceiling is returned decoded and
    stripped.  A longer one, for a command of an environment with a build
    record, comes back as the truncation notice naming the ceiling followed
    by a tail of the decoded text; for a positive ceiling that tail has
    [min ceiling (length text)] characters, so the whole result is the
    notice plus up to [ceiling] characters. *)
Theorem sanitize_output_truncates_to_tail (cf : Conf) (bs : list byte) :
  let allowed := DATA_UPLOAD_MAX_MEMORY_SIZE cf - 512 * 1024 in
  let text := strip_nul (bytes_decode bs) in
  (forall benv r, sanitize_output cf benv (Some bs) = Ok (Some r) -> 0 ∉ r) /\
  (Z.of_nat (length bs) <= allowed ->
   forall benv, sanitize_output cf benv (Some bs) = Ok (Some text)) /\
  (Z.of_nat (length bs) > allowed ->
   forall b, exists tail,
     sanitize_output cf (Some (Some b)) (Some bs)
       = Ok (Some (truncation_notice allowed ++ tail)) /\
     tail `suffix_of` text /\
     (0 < allowed ->
      Z.of_nat (length tail) = Z.min allowed (Z.of_nat (length text)))).
Proof.
  intros allowed text. split; [|split].
  - intros benv r. unfold sanitize_output. fold allowed. fold text.
    destruct (Z.gtb_spec (Z.of_nat (length bs)) allowed).
    + destruct benv as [[b|]|]; try discriminate.
      intros Heq.
      assert (r = truncation_notice allowed ++ py_slice_from (- allowed) text)
        as -> by congruence.
      intros [Hin|Hin]%elem_of_app.
      * by apply truncation_notice_no_nul in Hin.
      * destruct (py_slice_from_suffix (- allowed) text) as [pre Hpre].
        apply (strip_nul_no_nul (bytes_decode bs)). fold text.
        rewrite Hpre, elem_of_app. by right.
    + intros Heq. assert (r = text) as -> by congruence.
      apply strip_nul_no_nul.
  - intros Hle benv. unfold sanitize_output. fold allowed. fold text.
    destruct (Z.gtb_spec (Z.of_nat (length bs)) allowed); [lia|done].
  - intros Hgt b. exists (py_slice_from (- allowed) text).
    split; [|split].
    + unfold sanitize_output. fold allowed. fold text.
      destruct (Z.gtb_spec (Z.of_nat (length bs)) allowed); [done|lia].
    + apply py_slice_from_suffix.
    + apply py_slice_from_tail_length.
Qed.

Lemma sanitize_output_truncates_to_tail_witness :
  exists tail,
    sanitize_output small_upload_conf (Some (Some sample_build))
      (Some (bytes_of "abcde"))
    = Ok (Some (truncation_notice 4 ++ tail)) /\
    tail `suffix_of` py "abcde" /\ Z.of_nat (length tail) = 4.
Proof.
  destruct (sanitize_output_truncates_to_tail small_upload_conf
              (bytes_of "abcde")) as (_ & _ & H).
  destruct (H ltac:(vm_compute; reflexivity) sample_build)
    as (tail & H1 & H2 & H3).
  exists tail. split; [exact H1|]. split; [exact H2|].
  apply H3. vm_compute. reflexivity.
Defined.

(** C4, counterexample.  With a ceiling of 4 bytes, the five bytes [abcde]
    come back as the notice followed by [bcde]: far more than 4 bytes. *)
Lemma sanitize_output_exceeds_ceiling :
  let allowed := DATA_UPLOAD_MAX_MEMORY_SIZE small_upload_conf - 512 * 1024 in
  Z.of_nat (length (bytes_of "abcde")) > allowed /\
  sanitize_output small_upload_conf (Some (Some sample_build))
    (Some (bytes_of "abcde"))
  = Ok (Some (truncation_notice 4 ++ py "bcde")) /\
  ~ (Z.of_nat (length (truncation_notice 4 ++ py "bcde")) <= allowed).
Proof. vm_compute. split; [reflexivity|]. split; [reflexivity|]. intros H. apply H. reflexivity. Qed.

(** ** The verdict of a build environment *)

Lemma cmd_failed_negb c : cmd_failed c = negb (cmd_successful c).
Proof.
  unfold cmd_failed, cmd_successful.
  destruct (decide (exit_code c = Some 0)) as [E|E].
  - rewrite bool_decide_eq_false_2, bool_decide_eq_true_2; auto.
  - rewrite bool_decide_eq_true_2, bool_decide_eq_false_2; auto.
Qed.

Lemma existsb_failed_negb cs :
  existsb cmd_failed cs = negb (forallb cmd_successful cs).
Proof.
  induction cs as [|c cs IH]; simpl; [done|].
  rewrite IH, cmd_failed_negb. by destruct (cmd_successful c).
Qed.

Lemma failed_unfold cf s :
  failed cf s = done cf s && negb (successful cf s).
Proof.
  unfold failed, successful. rewrite existsb_failed_negb.
  destruct (done cf s); simpl; [|done].
  repeat case_bool_decide; simpl; congruence.
Qed.

(** C6. [successful] and [failed] are never both true; both are false while
    the build record is not in the terminal state, exactly one is true once
    it is; [successful] holds exactly when the record is terminal, no
    failure was captured and every recorded command succeeded. *)
Theorem successful_failed_partition (cf : Conf) (s : Env) :
  (successful cf s && failed cf s = false) /\
  (done cf s = false -> successful cf s = false /\ failed cf s = false) /\
  (done cf s = true -> xorb (successful cf s) (failed cf s) = true) /\
  (successful cf s = true <->
   done cf s = true /\ failure s = None /\
   Forall (fun c => exit_code c = Some 0) (commands s)).
Proof.
  rewrite failed_unfold. split; [|split; [|split]].
  - destruct (successful cf s), (done cf s); done.
  - intros Hd. unfold successful. rewrite Hd. done.
  - intros Hd. rewrite Hd. by destruct (successful cf s).
  - unfold successful. rewrite !andb_true_iff, bool_decide_eq_true.
    rewrite forallb_forall, Forall_forall.
    unfold cmd_successful.
    split.
    + intros [[Hd Hf] Hc]. repeat split; auto.
      intros c Hin. eapply bool_decide_eq_true_1, Hc.
      by apply list_elem_of_In.
    + intros (Hd & Hf & Hc). repeat split; auto.
      intros c Hin. apply bool_decide_eq_true_2, Hc.
      by apply list_elem_of_In.
Qed.

Lemma successful_failed_partition_witness :
  let s := set_build (Some
    {| build_id := 123; build_state := "finished";
       build_project := None; build_version := None; build_builder := None;
       build_success := None; build_exit_code := None; build_setup := None;
       build_setup_error := None; build_output := None;
       build_error := None |}) sample_local_env in
  xorb (successful sample_conf s) (failed sample_conf s) = true /\
  (successful sample_conf sample_local_env = false /\
   failed sample_conf sample_local_env = false).
Proof.
  intros s. split.
  - destruct (successful_failed_partition sample_conf s) as (_ & _ & H & _).
    apply H. reflexivity.
  - destruct (successful_failed_partition sample_conf sample_local_env)
      as (_ & H & _).
    apply H. reflexivity.
Defined.

(** ** Image and limits of a Docker build environment *)

Lemma truthy_or_else o d : truthy o = true -> Some (or_else o d) = o.
Proof.
  destruct o as [x|]; simpl; [|done].
  destruct (String.eqb x EmptyString); simpl; done.
Qed.

Lemma DockerBuildEnvironment_init_image cf O h p v b c r e u :
  container_image (DockerBuildEnvironment_init cf O h p v b c r e u)
  = resolve_container_image cf p c.
Proof.
  unfold DockerBuildEnvironment_init.
  by destruct (get_container_name cf O _).
Qed.

Lemma DockerBuildEnvironment_init_mem_limit cf O h p v b c r e u :
  container_mem_limit (DockerBuildEnvironment_init cf O h p v b c r e u)
  = if truthy (project_container_mem_limit p)
    then project_container_mem_limit p else DOCKER_LIMITS_memory cf.
Proof.
  unfold DockerBuildEnvironment_init.
  by destruct (get_container_name cf O _).
Qed.

Lemma DockerBuildEnvironment_init_time_limit cf O h p v b c r e u :
  container_time_limit (DockerBuildEnvironment_init cf O h p v b c r e u)
  = if truthy_time (project_container_time_limit p)
    then project_container_time_limit p else DOCKER_LIMITS_time cf.
Proof.
  unfold DockerBuildEnvironment_init.
  by destruct (get_container_name cf O _).
Qed.

(** C2 (amended). The image of a new Docker build environment is, highest
    first: the project's manual override, then the per-build configuration
    override, then the testing image when the project has the feature flag,
    then the default.  A memory or time limit set on the project replaces the
    default limit. *)
Theorem container_image_precedence cf O h p v b c r e u :
  let s := DockerBuildEnvironment_init cf O h p v b c r e u in
  let config_image := c ≫= docker_image in
  (truthy (project_container_image p) = true ->
   Some (container_image s) = project_container_image p) /\
  (truthy (project_container_image p) = false ->
   truthy config_image = true ->
   Some (container_image s) = config_image) /\
  (truthy (project_container_image p) = false ->
   truthy config_image = false ->
   has_feature p USE_TESTING_BUILD_IMAGE = true ->
   container_image s = "readthedocs/build:testing"%string) /\
  (truthy (project_container_image p) = false ->
   truthy config_image = false ->
   has_feature p USE_TESTING_BUILD_IMAGE = false ->
   container_image s = DOCKER_IMAGE cf) /\
  (truthy (project_container_mem_limit p) = true ->
   container_mem_limit s = project_container_mem_limit p) /\
  (truthy (project_container_mem_limit p) = false ->
   container_mem_limit s = DOCKER_LIMITS_memory cf) /\
  (truthy_time (project_container_time_limit p) = true ->
   container_time_limit s = project_container_time_limit p) /\
  (truthy_time (project_container_time_limit p) = false ->
   container_time_limit s = DOCKER_LIMITS_time cf).
Proof.
  intros s config_image. subst s.
  rewrite DockerBuildEnvironment_init_image,
    DockerBuildEnvironment_init_mem_limit,
    DockerBuildEnvironment_init_time_limit.
  unfold resolve_container_image.
  repeat split.
  - intros Hp. rewrite Hp. by apply truthy_or_else.
  - intros Hp Hc. rewrite Hp. subst config_image.
    destruct c as [c|]; simpl in *; [|done].
    rewrite Hc. by apply truthy_or_else.
  - intros Hp Hc Hf. rewrite Hp, Hf. subst config_image.
    destruct c as [c|]; simpl in *; [|done]. by rewrite Hc.
  - intros Hp Hc Hf. rewrite Hp, Hf. subst config_image.
    destruct c as [c|]; simpl in *; [|done]. by rewrite Hc.
  - by intros ->.
  - by intros ->.
  - by intros ->.
  - by intros ->.
Qed.

Lemma container_image_precedence_witness :
  let s := DockerBuildEnvironment_init sample_conf quiet_oracle ∅
             flagged_project sample_version (Some sample_build)
             (Some {| docker_image := Some "readthedocs/build:6.0"%string |})
             true None true in
  container_image s = "readthedocs/build:7.0"%string /\
  container_mem_limit s = Some "1g"%string /\
  container_time_limit s = Some 900 /\
  container_image (sample_docker_env quiet_oracle)
  = "readthedocs/build:latest"%string /\
  container_mem_limit (sample_docker_env quiet_oracle) = Some "200m"%string /\
  container_time_limit (sample_docker_env quiet_oracle) = Some 600.
Proof.
  intros s.
  destruct (container_image_precedence sample_conf quiet_oracle ∅
              flagged_project sample_version (Some sample_build)
              (Some {| docker_image := Some "readthedocs/build:6.0"%string |})
              true None true) as (H1 & _ & _ & _ & H5 & _ & H7 & _).
  destruct (container_image_precedence sample_conf quiet_oracle ∅
              sample_project sample_version (Some sample_build)
              None true None true) as (_ & _ & _ & H4 & _ & H6 & _ & H8).
  refine (conj _ (conj (H5 eq_refl) (conj (H7 eq_refl)
            (conj (H4 eq_refl eq_refl eq_refl)
               (conj (H6 eq_refl) (H8 eq_refl)))))).
  apply (inj Some). exact (H1 eq_refl).
Defined.

(** C2, counterexample.  A project with the testing-image flag and a manual
    image override gets the manual override, not the testing image. *)
Lemma testing_flag_is_overridden :
  has_feature flagged_project USE_TESTING_BUILD_IMAGE = true /\
  container_image
    (DockerBuildEnvironment_init sample_conf quiet_oracle ∅ flagged_project
       sample_version (Some sample_build) None true None true)
  <> "readthedocs/build:testing"%string.
Proof. split; [reflexivity|]. vm_compute. discriminate. Qed.

(** ** Reconciliation with the container state *)

Lemma get_client_failure cf O s : failure (get_client cf O s).2 = failure s.
Proof.
  unfold get_client. unfold_monad.
  destruct (client s); simpl; [done|].
  destruct (on_APIClient O _); simpl; [done|].
  destruct (isinstance e DockerException); done.
Qed.

Lemma get_client_raises cf O s e s' :
  get_client cf O s = (Raise e, s') -> failure s' = failure s.
Proof. intros H. by rewrite <- (get_client_failure cf O s), H. Qed.

Lemma container_state_failure cf O s :
  failure (container_state cf O s).2 = failure s.
Proof.
  unfold container_state. unfold_monad.
  pose proof (get_client_failure cf O s) as Hc.
  destruct (get_client cf O s) as [[[]|e] s1]; simpl in *; [|done].
  destruct (on_inspect_container O _); simpl; [done|].
  destruct (isinstance e DockerAPIError); done.
Qed.

(** C1 (amended). When the container is reported as not running, the
    reconciliation step stores the failure named by the container state
    (time-out sentinel first, then the OOM flag, then a non-empty engine
    error), whether or not a failure was stored before.  In every other
    case the stored failure is left as it was: when the state names no
    failure, when the container is not reported as stopped, when the engine
    does not know the container, and when the step raises. *)
Theorem reconciliation_overwrites_failure cf O s :
  let r := update_build_from_container_state cf O s in
  (forall st s1,
     container_state cf O s = (Ok (Some st), s1) ->
     r.1 = Ok tt /\
     (Running st = Some false ->
      (ExitCode st = Some (DOCKER_TIMEOUT_EXIT_CODE cf) ->
       failure r.2 = Some (timeout_failure cf)) /\
      (ExitCode st <> Some (DOCKER_TIMEOUT_EXIT_CODE cf) ->
       OOMKilled st = Some true ->
       failure r.2 = Some (oom_failure cf)) /\
      (ExitCode st <> Some (DOCKER_TIMEOUT_EXIT_CODE cf) ->
       OOMKilled st <> Some true ->
       forall err, Error st = Some err -> err <> EmptyString ->
       failure r.2 = Some (engine_failure cf err)) /\
      (ExitCode st <> Some (DOCKER_TIMEOUT_EXIT_CODE cf) ->
       OOMKilled st <> Some true ->
       truthy (Error st) = false ->
       failure r.2 = failure s)) /\
     (Running st <> Some false -> failure r.2 = failure s)) /\
  (forall s1,
     container_state cf O s = (Ok None, s1) ->
     r.1 = Ok tt /\ failure r.2 = failure s) /\
  (forall e s1,
     container_state cf O s = (Raise e, s1) ->
     r.1 = Raise e /\ failure r.2 = failure s).
Proof.
  intros r.
  pose proof (container_state_failure cf O s) as Hf.
  subst r. unfold update_build_from_container_state.
  unfold mbind, M_bind.
  split; [|split]; [intros st s1 Hcs|intros s1 Hcs|intros e s1 Hcs];
    rewrite Hcs in *; simpl in Hf; [|done..].
  destruct (decide (Running st = Some false)) as [HR|HR];
    [rewrite (bool_decide_eq_true_2 _ HR)
    |rewrite (bool_decide_eq_false_2 _ HR); simpl; close_cases].
  destruct (decide (ExitCode st = Some (DOCKER_TIMEOUT_EXIT_CODE cf)))
    as [HE|HE];
    [rewrite (bool_decide_eq_true_2 _ HE); simpl; close_cases
    |rewrite (bool_decide_eq_false_2 _ HE)].
  destruct (decide (OOMKilled st = Some true)) as [HO|HO];
    [rewrite (bool_decide_eq_true_2 _ HO); simpl; close_cases
    |rewrite (bool_decide_eq_false_2 _ HO)].
  destruct (truthy (Error st)) eqn:Ht; simpl.
  - split; [done|]. split; [|done]. intros _.
    split; [done|]. split; [done|]. split; [|congruence].
    intros _ _ err Herr Hne. unfold engine_failure. rewrite Herr. simpl.
    by destruct (String.eqb_spec err EmptyString).
  - split; [done|]. split; [|done]. intros _.
    split; [done|]. split; [done|]. split; [|done].
    intros _ _ err Herr Hne. rewrite Herr in Ht. simpl in Ht.
    destruct (String.eqb_spec err EmptyString); simpl in Ht; congruence.
Qed.

Lemma reconciliation_overwrites_failure_witness :
  let O := oracle_with (fun _ => Ok timed_out_state) (fun _ => Ok tt) [] 0
             (fun _ => Ok ([], 0)) in
  failure (update_build_from_container_state sample_conf O
             (sample_docker_env O)).2
  = Some (timeout_failure sample_conf).
Proof.
  intros O.
  destruct (reconciliation_overwrites_failure sample_conf O
              (sample_docker_env O)) as (H & _ & _).
  edestruct H as (_ & H' & _).
  - vm_compute. reflexivity.
  - destruct (H' eq_refl) as (H1 & _). apply H1. reflexivity.
Defined.

(** C1, counterexample.  A failure stored before the reconciliation step is
    replaced by the time-out failure when the container is reported as
    stopped on the time-out sentinel. *)
Lemma reconciliation_replaces_stored_failure :
  let O := oracle_with (fun _ => Ok timed_out_state) (fun _ => Ok tt) [] 0
             (fun _ => Ok ([], 0)) in
  let earlier := BuildEnvironmentError_ sample_conf (py "checkout failed") in
  let s := set_failure (Some earlier) (sample_docker_env O) in
  failure s = Some earlier /\
  failure (update_build_from_container_state sample_conf O s).2
  = Some (timeout_failure sample_conf) /\
  timeout_failure sample_conf <> earlier.
Proof.
  intros O earlier s. split; [reflexivity|]. split.
  - vm_compute. reflexivity.
  - vm_compute. discriminate.
Qed.

(** ** The phases of [run_command_class] *)

Lemma run_command_class_phases cf O k cmd record_ warn_only ras kw s :
  run_command_class cf O k cmd record_ warn_only ras kw s
  = (c0 ← construct_command cf k cmd ras kw;
     c1 ← Command_run cf O c0;
     settle_command cf O (effective_record s record_ ras)
       (effective_warn_only s record_ warn_only ras) c1) s.
Proof.
  unfold run_command_class, construct_command, settle_command,
    effective_record, effective_warn_only, failure_message.
  unfold mbind, M_bind, get. simpl.
  destruct (bool_decide (kw_environment _ ≠ None)); [done|].
  destruct (Command_init _ _ _ _ _ _) as [[c0|e] s3]; [|done].
  destruct (Command_run cf O c0 s3) as [[c1|e] s4]; [|done].
  done.
Qed.

(** ** The store: what a run leaves untouched *)

Section Preserves.

Context (h0 : gmap loc dict).

Lemma preserves_ret {A} (a : A) (Q : A -> Prop) :
  Q a -> preserves h0 (mret a) Q.
Proof. intros HQ s Hs. split; [done|]. by intros ? [= <-]. Qed.

Lemma preserves_bind {A B} (m : M A) (f : A -> M B) P Q :
  preserves h0 m P -> (forall a, P a -> preserves h0 (f a) Q) ->
  preserves h0 (m ≫= f) Q.
Proof.
  intros Hm Hf s Hs. destruct (Hm s Hs) as [H1 H2].
  unfold mbind, M_bind. destruct (m s) as [[a|e] s1]; simpl in *.
  - apply (Hf a); auto.
  - split; [done|]. intros ? [=].
Qed.

Lemma preserves_weaken {A} (m : M A) (P Q : A -> Prop) :
  preserves h0 m P -> (forall a, P a -> Q a) -> preserves h0 m Q.
Proof. intros Hm HPQ s Hs. destruct (Hm s Hs). split; auto. Qed.

Lemma preserves_raise {A} e (Q : A -> Prop) : preserves h0 (raise e) Q.
Proof. intros s Hs. split; [done|]. intros ? [=]. Qed.

Lemma preserves_lift {A} (r : Res A) : preserves h0 (lift r) any.
Proof. intros s Hs. split; done. Qed.

Lemma preserves_get : preserves h0 get any.
Proof. intros s Hs. split; done. Qed.

Lemma preserves_modify f :
  (forall s, heap (f s) = heap s) -> preserves h0 (modify f) any.
Proof. intros Hf s Hs. split; [|done]. simpl. by rewrite Hf. Qed.

Lemma preserves_ext {A} c (answer : list Call -> Res A) :
  preserves h0 (ext c answer) any.
Proof. intros s Hs. split; done. Qed.

Lemma preserves_send r : preserves h0 (send r) any.
Proof. apply preserves_modify. done. Qed.

Lemma preserves_post r answer : preserves h0 (post r answer) any.
Proof. intros s Hs. split; done. Qed.

Lemma preserves_try_except {A} (body : M A) handler (Q : A -> Prop) :
  preserves h0 body Q -> (forall e, preserves h0 (handler e) Q) ->
  preserves h0 (try_except body handler) Q.
Proof.
  intros Hb Hh s Hs. destruct (Hb s Hs) as [H1 H2].
  unfold try_except. destruct (body s) as [[a|e] s1]; simpl in *.
  - split; [done|]. intros ? [= <-]. by apply H2.
  - by apply Hh.
Qed.

Lemma preserves_if {A} (b : bool) (m1 m2 : M A) Q :
  preserves h0 m1 Q -> preserves h0 m2 Q ->
  preserves h0 (if b then m1 else m2) Q.
Proof. by destruct b. Qed.

Lemma fresh_outside s : h0 ⊆ heap s -> fresh (dom (heap s)) ∉ dom h0.
Proof.
  intros Hs Hin. apply (is_fresh (dom (heap s))).
  by apply (subseteq_dom _ _ Hs).
Qed.

Lemma preserves_dict_new d : preserves h0 (dict_new d) (fun l => l ∉ dom h0).
Proof.
  intros s Hs. pose proof (fresh_outside s Hs) as Hf. simpl. split.
  - apply insert_subseteq_r; [|done]. by apply not_elem_of_dom.
  - by intros ? [= <-].
Qed.

Lemma preserves_dict_read l : preserves h0 (dict_read l) any.
Proof. intros s Hs. split; done. Qed.

Lemma preserves_dict_write l d :
  l ∉ dom h0 -> preserves h0 (dict_write l d) any.
Proof.
  intros Hl s Hs. split; [|done]. simpl.
  apply insert_subseteq_r; [|done]. by apply not_elem_of_dom.
Qed.

Lemma preserves_dict_copy l : preserves h0 (dict_copy l) (fun l => l ∉ dom h0).
Proof.
  eapply preserves_bind; [apply preserves_dict_read|].
  intros d _. apply preserves_dict_new.
Qed.

Lemma preserves_dict_pop l k :
  l ∉ dom h0 -> preserves h0 (dict_pop l k) any.
Proof.
  intros Hl. eapply preserves_bind; [apply preserves_dict_read|].
  intros d _. eapply preserves_bind; [by apply preserves_dict_write|].
  intros _ _. by apply preserves_ret.
Qed.

Lemma preserves_dict_discard l k :
  l ∉ dom h0 -> preserves h0 (dict_discard l k) any.
Proof.
  intros Hl. eapply preserves_bind; [apply preserves_dict_read|].
  intros d _. by apply preserves_dict_write.
Qed.

Lemma preserves_dict_set l k v :
  l ∉ dom h0 -> preserves h0 (dict_set l k v) any.
Proof.
  intros Hl. eapply preserves_bind; [apply preserves_dict_read|].
  intros d _. by apply preserves_dict_write.
Qed.

End Preserves.

(** Chains [preserves] through a computation, leaving the side conditions
    that need a property of an earlier result. *)
Ltac frame_step :=
  match goal with
  | |- preserves _ (dict_copy _ ≫= _) _ =>
      eapply preserves_bind; [apply preserves_dict_copy|intros ? ?]
  | |- preserves _ (dict_new _ ≫= _) _ =>
      eapply preserves_bind; [apply preserves_dict_new|intros ? ?]
  | |- preserves _ (_ ≫= _) _ =>
      eapply preserves_bind with (P := any); [|intros ? _]
  | |- preserves _ (try_except _ _) _ =>
      apply preserves_try_except; [|intros ?]
  | |- preserves _ (if _ then _ else _) _ => apply preserves_if
  | |- preserves _ (match ?x with _ => _ end) _ => destruct x
  | |- preserves _ (mret _) _ => apply preserves_ret; first [exact I|done|idtac]
  | |- preserves _ (raise _) _ => apply preserves_raise
  | |- preserves _ (lift _) _ => eapply preserves_weaken; [apply preserves_lift|done]
  | |- preserves _ get _ => eapply preserves_weaken; [apply preserves_get|done]
  | |- preserves _ (ext _ _) _ => eapply preserves_weaken; [apply preserves_ext|done]
  | |- preserves _ (send _) _ => eapply preserves_weaken; [apply preserves_send|done]
  | |- preserves _ (post _ _) _ => eapply preserves_weaken; [apply preserves_post|done]
  | |- preserves _ (modify _) _ =>
      eapply preserves_weaken; [apply preserves_modify; done|done]
  | |- preserves _ (dict_read _) _ =>
      eapply preserves_weaken; [apply preserves_dict_read|done]
  | |- preserves _ (dict_new _) _ => apply preserves_dict_new
  | |- preserves _ (dict_copy _) _ => apply preserves_dict_copy
  | |- preserves _ (dict_pop _ _) _ =>
      eapply preserves_weaken; [apply preserves_dict_pop; done|done]
  | |- preserves _ (dict_discard _ _) _ =>
      eapply preserves_weaken; [apply preserves_dict_discard; done|done]
  | |- preserves _ (dict_set _ _ _) _ =>
      eapply preserves_weaken; [apply preserves_dict_set; done|done]
  end.

Lemma preserves_Command_init h0 cf k cmd kw ras :
  preserves h0 (Command_init cf k cmd kw ras)
    (fun c => cmd_environment c ∉ dom h0).
Proof.
  unfold Command_init.
  eapply preserves_bind with (P := fun l => l ∉ dom h0).
  - destruct (kw_environment kw) as [[src|]|]; repeat frame_step.
  - intros l Hl. repeat frame_step.
Qed.

Lemma preserves_get_client h0 cf O : preserves h0 (get_client cf O) any.
Proof. unfold get_client. repeat frame_step. Qed.

Lemma preserves_BuildCommand_run h0 cf O c :
  preserves h0 (BuildCommand_run cf O c) any.
Proof.
  unfold BuildCommand_run.
  eapply preserves_bind; [apply preserves_dict_copy|].
  intros l Hl. repeat frame_step.
Qed.

Lemma preserves_DockerBuildCommand_run h0 cf O c :
  preserves h0 (DockerBuildCommand_run cf O c) any.
Proof.
  unfold DockerBuildCommand_run, exited_abnormally.
  eapply preserves_bind with (P := any);
    [eapply preserves_weaken; [apply preserves_get|done]|].
  intros s _.
  eapply preserves_bind with (P := any); [repeat frame_step|].
  intros _ _.
  eapply preserves_bind; [apply preserves_get_client|].
  intros _ _. repeat frame_step.
Qed.

Lemma preserves_Command_run h0 cf O c :
  preserves h0 (Command_run cf O c) any.
Proof.
  unfold Command_run. destruct (cmd_class c).
  - apply preserves_BuildCommand_run.
  - apply preserves_DockerBuildCommand_run.
Qed.

Lemma preserves_settle_command h0 cf O r w c :
  preserves h0 (settle_command cf O r w c) any.
Proof.
  unfold settle_command, record_command, save, self_version.
  repeat frame_step.
Qed.

Lemma preserves_construct_command h0 cf k cmd ras kw :
  preserves h0 (construct_command cf k cmd ras kw) any.
Proof.
  unfold construct_command.
  eapply preserves_bind; [apply preserves_get|]. intros s _.
  eapply preserves_bind; [apply preserves_dict_copy|]. intros l Hl.
  eapply preserves_bind; [by apply preserves_dict_pop|]. intros p _.
  apply preserves_if; [apply preserves_raise|].
  eapply preserves_weaken; [apply preserves_Command_init|done].
Qed.

Lemma preserves_run_command_class h0 cf O k cmd record_ warn_only ras kw :
  preserves h0 (run_command_class cf O k cmd record_ warn_only ras kw) any.
Proof.
  intros s Hs. rewrite run_command_class_phases.
  assert (preserves h0
            (c0 ← construct_command cf k cmd ras kw;
             c1 ← Command_run cf O c0;
             settle_command cf O (effective_record s record_ ras)
               (effective_warn_only s record_ warn_only ras) c1) any) as H.
  { eapply preserves_bind; [apply preserves_construct_command|].
    intros c0 _.
    eapply preserves_bind; [apply preserves_Command_run|]. intros c1 _.
    apply preserves_settle_command. }
  by apply H.
Qed.

Lemma preserves_lookup {A} (m : M A) Q s l d :
  preserves (heap s) m Q -> heap s !! l = Some d -> heap (m s).2 !! l = Some d.
Proof.
  intros Hm Hl. destruct (Hm s) as [Hsub _]; [done|].
  by apply (lookup_weaken _ _ _ _ Hl Hsub).
Qed.

Lemma Command_init_copies cf k cmd kw ras src s d c s' :
  kw_environment kw = Some (Some src) ->
  heap s !! src = Some d ->
  Command_init cf k cmd kw ras s = (Ok c, s') ->
  heap s' !! cmd_environment c = Some d.
Proof.
  intros Hkw Hsrc. unfold Command_init. rewrite Hkw.
  unfold_monad. unfold dict_copy, dict_read, dict_new. unfold_monad.
  rewrite Hsrc. simpl.
  destruct (bool_decide (d = ∅)) eqn:Hd; simpl;
    rewrite lookup_insert_eq; simpl;
    destruct (bool_decide (is_Some _)); intros Heq; simplify_eq; simpl;
    rewrite lookup_insert_eq;
    [apply bool_decide_eq_true_1 in Hd; by subst|by rewrite Hsrc].
Qed.

(** C10. The command machinery leaves every existing dictionary as it is.
    The constructor stores a new dictionary, distinct from every existing
    one and with the contents of the caller's; running a command and
    [run_command_class] change no dictionary that existed before, so the
    caller's mapping and the environment's shared mapping are as before. *)
Theorem environment_mappings_not_mutated (cf : Conf) (O : Oracle)
    (s : Env) (l : loc) (d : dict) :
  heap s !! l = Some d ->
  (forall k cmd kw ras,
     let r := Command_init cf k cmd kw ras s in
     heap (r.2) !! l = Some d /\
     forall c, r.1 = Ok c ->
       cmd_environment c <> l /\
       (kw_environment kw = Some (Some l) ->
        heap (r.2) !! cmd_environment c = Some d)) /\
  (forall c, heap (Command_run cf O c s).2 !! l = Some d) /\
  (forall k cmd record_ warn_only ras kw,
     heap (run_command_class cf O k cmd record_ warn_only ras kw s).2 !! l
     = Some d).
Proof.
  intros Hl. split; [|split].
  - intros k cmd kw ras r. subst r.
    pose proof (preserves_Command_init (heap s) cf k cmd kw ras) as Hp.
    split; [by eapply preserves_lookup|].
    intros c Hc. destruct (Hp s) as [_ Hfresh]; [done|].
    split.
    + intros Heq. apply (Hfresh c Hc). rewrite Heq. by apply elem_of_dom.
    + intros Hkw. destruct (Command_init cf k cmd kw ras s) as [r s'] eqn:E.
      simpl in *. subst r. by eapply Command_init_copies.
  - intros c.
    exact (preserves_lookup _ _ s l d
             (preserves_Command_run (heap s) cf O c) Hl).
  - intros k cmd record_ warn_only ras kw.
    exact (preserves_lookup _ _ s l d
             (preserves_run_command_class (heap s) cf O k cmd record_
                warn_only ras kw) Hl).
Qed.

Lemma environment_mappings_not_mutated_witness :
  let caller : dict :=
    {[ "BIN_PATH" := "/venv/bin"; "PYTHONPATH" := "/src" ]}%string in
  let s := BuildEnvironment_init sample_conf {[ 1%positive := caller ]}
             LocalBuildEnvironment sample_project sample_version
             (Some sample_build) None true (Some 1%positive) true in
  env_environment s = 1%positive /\
  heap (run sample_conf quiet_oracle ["make"; "html"]%string None false false
          no_kwargs s).2 !! 1%positive = Some caller.
Proof.
  intros caller s. split; [reflexivity|].
  assert (heap s !! 1%positive = Some caller) as Hl by (vm_compute; reflexivity).
  destruct (environment_mappings_not_mutated sample_conf quiet_oracle s
              1%positive caller Hl) as (_ & _ & H).
  apply H.
Defined.

(** ** What running a command leaves as it is *)

Lemma stable_ret {A} (a : A) (Q : A -> Prop) : Q a -> stable (mret a) Q.
Proof. intros HQ s. split; [done|]. by intros ? [= <-]. Qed.

Lemma stable_bind {A B} (m : M A) (f : A -> M B) P Q :
  stable m P -> (forall a, P a -> stable (f a) Q) -> stable (m ≫= f) Q.
Proof.
  intros Hm Hf s. destruct (Hm s) as [H1 H2].
  unfold mbind, M_bind. destruct (m s) as [[a|e] s1]; simpl in *.
  - destruct (Hf a (H2 a eq_refl) s1) as [H3 H4]. split; [congruence|done].
  - split; [done|]. intros ? [=].
Qed.

Lemma stable_weaken {A} (m : M A) (P Q : A -> Prop) :
  stable m P -> (forall a, P a -> Q a) -> stable m Q.
Proof. intros Hm HPQ s. destruct (Hm s). split; auto. Qed.

Lemma stable_raise {A} e (Q : A -> Prop) : stable (raise e) Q.
Proof. intros s. split; [done|]. intros ? [=]. Qed.

Lemma stable_lift {A} (r : Res A) : stable (lift r) any.
Proof. intros s. split; done. Qed.

Lemma stable_get : stable get any.
Proof. intros s. split; done. Qed.

Lemma stable_modify f :
  (forall s, forget_store (f s) = forget_store s) -> stable (modify f) any.
Proof. intros Hf s. split; [|done]. simpl. by rewrite Hf. Qed.

Lemma stable_ext {A} c (answer : list Call -> Res A) : stable (ext c answer) any.
Proof. intros s. split; done. Qed.

Lemma stable_try_except {A} (body : M A) handler (Q : A -> Prop) :
  stable body Q -> (forall e, stable (handler e) Q) ->
  stable (try_except body handler) Q.
Proof.
  intros Hb Hh s. destruct (Hb s) as [H1 H2].
  unfold try_except. destruct (body s) as [[a|e] s1]; simpl in *.
  - split; [done|]. intros ? [= <-]. by apply H2.
  - destruct (Hh e s1) as [H3 H4]. split; [congruence|done].
Qed.

Lemma stable_if {A} (b : bool) (m1 m2 : M A) Q :
  stable m1 Q -> stable m2 Q -> stable (if b then m1 else m2) Q.
Proof. by destruct b. Qed.

Lemma stable_dict_new d : stable (dict_new d) any.
Proof. intros s. split; done. Qed.

Lemma stable_dict_read l : stable (dict_read l) any.
Proof. intros s. split; done. Qed.

Lemma stable_dict_write l d : stable (dict_write l d) any.
Proof. intros s. split; done. Qed.

Ltac stable_step :=
  match goal with
  | |- stable (_ ≫= _) _ => eapply stable_bind with (P := any); [|intros ? _]
  | |- stable (try_except _ _) _ => apply stable_try_except; [|intros ?]
  | |- stable (if _ then _ else _) _ => apply stable_if
  | |- stable (match ?x with _ => _ end) _ => destruct x
  | |- stable (mret _) _ => apply stable_ret; first [exact I|done|idtac]
  | |- stable (raise _) _ => apply stable_raise
  | |- stable (lift _) _ => eapply stable_weaken; [apply stable_lift|done]
  | |- stable get _ => eapply stable_weaken; [apply stable_get|done]
  | |- stable (ext _ _) _ => eapply stable_weaken; [apply stable_ext|done]
  | |- stable (modify _) _ =>
      eapply stable_weaken; [apply stable_modify; done|done]
  | |- stable (dict_read _) _ =>
      eapply stable_weaken; [apply stable_dict_read|done]
  | |- stable (dict_write _ _) _ =>
      eapply stable_weaken; [apply stable_dict_write|done]
  | |- stable (dict_new _) _ =>
      eapply stable_weaken; [apply stable_dict_new|done]
  | |- stable (dict_copy _) _ => unfold dict_copy
  | |- stable (dict_pop _ _) _ => unfold dict_pop
  | |- stable (dict_discard _ _) _ => unfold dict_discard
  | |- stable (dict_set _ _ _) _ => unfold dict_set
  end.

Lemma stable_get_client cf O : stable (get_client cf O) any.
Proof. unfold get_client. repeat stable_step. Qed.

Lemma same_command_refl c : same_command c c.
Proof. done. Qed.

Lemma stable_BuildCommand_run cf O c :
  stable (BuildCommand_run cf O c) (same_command c).
Proof.
  unfold BuildCommand_run. repeat stable_step.
Qed.

Lemma stable_DockerBuildCommand_run cf O c :
  stable (DockerBuildCommand_run cf O c) (same_command c).
Proof.
  unfold DockerBuildCommand_run, exited_abnormally.
  eapply stable_bind with (P := any);
    [eapply stable_weaken; [apply stable_get|done]|]. intros s _.
  eapply stable_bind with (P := any); [repeat stable_step|]. intros _ _.
  eapply stable_bind; [apply stable_get_client|]. intros _ _.
  repeat stable_step.
Qed.

Lemma stable_Command_run cf O c :
  stable (Command_run cf O c) (same_command c).
Proof.
  unfold Command_run. destruct (cmd_class c).
  - apply stable_BuildCommand_run.
  - apply stable_DockerBuildCommand_run.
Qed.

Lemma forget_store_fields s s' :
  forget_store s' = forget_store s ->
  cls s' = cls s /\ project s' = project s /\ version s' = version s /\
  build s' = build s /\ record s' = record s /\
  update_on_success s' = update_on_success s /\
  failure s' = failure s /\ commands s' = commands s /\ api s' = api s /\
  env_environment s' = env_environment s /\ config s' = config s.
Proof.
  intros H.
  repeat split;
    [apply (f_equal cls) in H | apply (f_equal project) in H
    |apply (f_equal version) in H | apply (f_equal build) in H
    |apply (f_equal record) in H | apply (f_equal update_on_success) in H
    |apply (f_equal failure) in H | apply (f_equal commands) in H
    |apply (f_equal api) in H | apply (f_equal env_environment) in H
    |apply (f_equal config) in H]; exact H.
Qed.

Lemma same_command_fields c c' :
  same_command c c' ->
  cmd_class c' = cmd_class c /\ command c' = command c /\
  build_env c' = build_env c /\
  record_as_success c' = record_as_success c /\
  description c' = description c.
Proof.
  intros H.
  repeat split;
    [apply (f_equal cmd_class) in H | apply (f_equal command) in H
    |apply (f_equal build_env) in H
    |apply (f_equal record_as_success) in H
    |apply (f_equal description) in H]; exact H.
Qed.

Lemma stable_Command_init cf k cmd kw ras :
  stable (Command_init cf k cmd kw ras)
    (fun c => cmd_class c = k /\ command c = cmd /\
              build_env c = kw_build_env kw /\ record_as_success c = ras /\
              output c = None /\ exit_code c = None).
Proof.
  unfold Command_init.
  eapply stable_bind with (P := any).
  - destruct (kw_environment kw) as [[src|]|]; repeat stable_step.
  - intros l _. repeat stable_step.
Qed.

Lemma stable_construct_command cf k cmd ras kw s :
  forget_store (construct_command cf k cmd ras kw s).2 = forget_store s /\
  forall c, (construct_command cf k cmd ras kw s).1 = Ok c ->
    cmd_class c = k /\ command c = cmd /\
    (is_build_environment (cls s) = true -> build_env c = true) /\
    record_as_success c = ras /\ output c = None /\ exit_code c = None.
Proof.
  unfold construct_command. unfold mbind at 1. unfold M_bind at 1.
  unfold get at 1.
  match goal with
  | |- context [(?m ≫= ?f) s] =>
      assert (stable (m ≫= f)
        (fun c => cmd_class c = k /\ command c = cmd /\
           (is_build_environment (cls s) = true -> build_env c = true) /\
           record_as_success c = ras /\ output c = None /\
           exit_code c = None)) as H
  end.
  { eapply stable_bind with (P := any).
    { repeat stable_step. }
    intros l _.
    eapply stable_bind with (P := any).
    { repeat stable_step. }
    intros p _. destruct (bool_decide (kw_environment _ ≠ None)).
    { apply stable_raise. }
    eapply stable_weaken; [apply stable_Command_init|].
    intros c (H1 & H2 & H3 & H4 & H5 & H6). repeat split; try done.
    intros Hb. rewrite H3. simpl. rewrite Hb.
    destruct (bool_decide (kw_bin_path (with_build_env kw) = None)
              && truthy p); reflexivity. }
  apply H.
Qed.

(** Settling a command in a build environment with a build record: one
    request for the command, the command joins the list, and a failure
    raises unless [warn_only]. *)
Lemma settle_recorded cf O w c s b :
  is_build_environment (cls s) = true ->
  build s = Some b ->
  build_env c = true ->
  let c' := if record_as_success c then set_exit_code (Some 0) c else c in
  on_POST O (api s ++ [post_of s b c']) = Ok tt ->
  settle_command cf O true w c s
  = (if cmd_failed c'
     then if w then Ok c'
          else Raise (BuildEnvironmentWarning_ cf (failure_message c'))
     else Ok c',
     set_commands (commands s ++ [c'])
       (set_api (api s ++ [post_of s b c']) s)).
Proof.
  intros Hk Hb He c' HP.
  unfold settle_command, record_command, save, benv_of, self_version.
  unfold_monad. simpl. rewrite Hk. fold c'.
  assert (build_env c' = true) as ->.
  { subst c'. by destruct (record_as_success c). }
  rewrite Hb. simpl. unfold post_of in HP. rewrite HP. simpl.
  destruct (cmd_failed c'); [destruct w|]; simpl; rewrite ?Hk; done.
Qed.


(** ** Commands recorded as successful *)

(** C8 (amended). In a build environment with a build record, take a
    command built with [record_as_success] that ran to an exit code and
    whose record the tracking API accepts.  Whatever [record] and
    [warn_only] the caller passed, both are in force, the run returns
    without raising, one request is sent for the command and it carries exit
    code 0, and the command joins the list with exit code 0.  When the exit
    code was not zero the command had failed, and what is persisted has
    not. *)
Theorem record_as_success_persists_zero cf O k cmd record_ warn_only kw
    s b c0 s0 c1 s1 :
  is_build_environment (cls s) = true ->
  build s = Some b ->
  construct_command cf k cmd true kw s = (Ok c0, s0) ->
  Command_run cf O c0 s0 = (Ok c1, s1) ->
  let r := run_command_class cf O k cmd record_ warn_only true kw s in
  let saved := set_exit_code (Some 0) c1 in
  on_POST O (api s ++ [post_of s b saved]) = Ok tt ->
  effective_record s record_ true = true /\
  effective_warn_only s record_ warn_only true = true /\
  r.1 = Ok saved /\
  api r.2 = api s ++ [post_of s b saved] /\
  (forall mp data, post_of s b saved = POST_command mp data ->
                   data_exit_code data = Some 0) /\
  commands r.2 = commands s ++ [saved] /\
  failure r.2 = failure s /\
  (exit_code c1 <> Some 0 ->
   cmd_failed c1 = true /\ cmd_failed saved = false).
Proof.
  intros Hk Hb Hc Hr r saved HP.
  destruct (stable_construct_command cf k cmd true kw s) as [Hs0 Hc0].
  rewrite Hc in Hs0, Hc0. simpl in Hs0, Hc0.
  destruct (Hc0 c0 eq_refl) as (_ & _ & Hbe & Hras & _).
  destruct (stable_Command_run cf O c0 s0) as [Hs1 Hc1].
  rewrite Hr in Hs1, Hc1. simpl in Hs1, Hc1.
  destruct (same_command_fields _ _ (Hc1 c1 eq_refl))
    as (_ & _ & Hbe1 & Hras1 & _).
  assert (forget_store s1 = forget_store s) as Hs by congruence.
  destruct (forget_store_fields _ _ Hs)
    as (Hcls & Hproj & _ & Hbuild & _ & _ & Hfail & Hcmds & Hapi & _).
  assert (post_of s1 b saved = post_of s b saved) as Hpost.
  { unfold post_of. by rewrite Hproj. }
  assert (r = (Ok saved,
               set_commands (commands s1 ++ [saved])
                 (set_api (api s1 ++ [post_of s1 b saved]) s1))) as Hrun.
  { subst r. rewrite run_command_class_phases.
    unfold mbind, M_bind. rewrite Hc, Hr.
    unfold effective_record, effective_warn_only.
    rewrite (settle_recorded cf O true c1 s1 b);
      [|congruence|congruence|rewrite Hbe1; auto
       |rewrite Hras1, Hras, Hapi; unfold post_of in *; rewrite Hproj;
        exact HP].
    rewrite Hras1, Hras. done. }
  rewrite Hrun. simpl.
  repeat split; try done.
  - by rewrite Hapi, Hpost.
  - unfold post_of. intros mp data [= _ <-]. done.
  - by rewrite Hcmds.
  - unfold cmd_failed. by apply bool_decide_eq_true_2.
Qed.

Lemma record_as_success_persists_zero_witness :
  let r := run_command_class sample_conf failing_host BuildCommand
             ["false"%string] (Some false) false true no_kwargs
             sample_local_env in
  (exists c, r.1 = Ok c /\ exit_code c = Some 0) /\
  (exists mp data, api r.2 = [POST_command mp data] /\
                   data_exit_code data = Some 0).
Proof.
  intros r.
  edestruct (record_as_success_persists_zero sample_conf failing_host
               BuildCommand ["false"%string] (Some false) false no_kwargs
               sample_local_env sample_build)
    as (_ & _ & H1 & H2 & H3 & _).
  - reflexivity.
  - reflexivity.
  - vm_compute. reflexivity.
  - vm_compute. reflexivity.
  - reflexivity.
  - split.
    + eexists. split; [exact H1|reflexivity].
    + eexists _, _. split; [exact H2|]. eapply H3. reflexivity.
Defined.

(** C8, counterexample.  A command that exits with 2 is run with
    [record_as_success].  In a [LocalEnvironment] the command joins the list
    with exit code 2, nothing is sent, and the run raises [AttributeError]
    at the log call of the warning.  In a build environment without a build
    record, and in one whose request the tracking API refuses, the run
    raises and no command joins the list. *)
Lemma record_as_success_outside_a_recorded_build :
  let run_in O s :=
    run_command_class sample_conf O BuildCommand ["false"%string] None false
      true no_kwargs s in
  let r1 := run_in failing_host sample_plain_env in
  let r2 := run_in failing_host sample_env_without_build in
  let r3 := run_in (with_POST (fun _ => Raise http_client_error) failing_host)
              sample_local_env in
  (r1.1 = Raise attribute_error /\
   map exit_code (commands r1.2) = [Some 2] /\ api r1.2 = []) /\
  (r2.1 = Raise attribute_error /\ commands r2.2 = [] /\ api r2.2 = []) /\
  (r3.1 = Raise http_client_error /\ commands r3.2 = []).
Proof. vm_compute. repeat split. Qed.

(** ** Memory exhaustion in a container command *)

(** A container command needs its Docker build environment: without one
    the run raises at its first log call, before any call to the engine. *)
Lemma DockerBuildCommand_run_needs_docker_environment cf O c s :
  build_env c && is_docker_environment (cls s) = false ->
  DockerBuildCommand_run cf O c s = (Raise attribute_error, s).
Proof.
  intros H. unfold DockerBuildCommand_run.
  unfold mbind, M_bind, get. by rewrite H.
Qed.

(** C9. A container command runs in its Docker build environment.  When
    its exec session is created, started and inspected without an engine
    error, and the reported exit code is the OOM sentinel, or is 1 with
    [Killed] in the last 15 lines of the sanitized output, the command ends
    with the memory-exhaustion notice appended to its output and with the
    exit code exactly as reported. *)
Theorem oom_notice_appended cf O c s s1 exec_id raw text code :
  build_env c = true ->
  is_docker_environment (cls s) = true ->
  get_client cf O s = (Ok tt, s1) ->
  let h1 := calls s1 ++ [call_exec_create (container_id s1)
                           (get_wrapped_command c)
                           (default ∅ (heap s1 !! cmd_environment c))
                           (user c) (cwd c)] in
  on_exec_create O h1 = Ok exec_id ->
  on_exec_start O (h1 ++ [call_exec_start exec_id]) = Ok raw ->
  sanitize_output cf (benv_of c s1) (Some raw) = Ok (Some text) ->
  on_exec_inspect O ((h1 ++ [call_exec_start exec_id])
                     ++ [call_exec_inspect exec_id]) = Ok code ->
  code = DOCKER_OOM_EXIT_CODE cf \/
  (code = 1 /\ killed_in_output text = true) ->
  exists c',
    (DockerBuildCommand_run cf O c s).1 = Ok c' /\
    output c' = Some (text ++ OOM_NOTICE) /\
    exit_code c' = Some code.
Proof.
  intros Hbe Hdocker Hcl h1 Hcreate Hstart Hsan Hinspect Hoom.
  unfold DockerBuildCommand_run.
  unfold mbind at 1. unfold M_bind at 1. unfold get at 1.
  rewrite Hbe, Hdocker. simpl.
  unfold mbind at 1. unfold M_bind at 1. unfold mret at 1. unfold M_ret at 1.
  unfold mbind at 1. unfold M_bind at 1. rewrite Hcl.
  unfold_monad. unfold dict_read. simpl.
  fold h1. rewrite Hcreate. simpl. rewrite Hstart. simpl.
  unfold benv_of in *. simpl. rewrite Hsan. simpl.
  rewrite Hinspect. simpl.
  assert ((code =? DOCKER_OOM_EXIT_CODE cf)
          || (code =? 1) && killed_in_output text = true) as ->.
  { destruct Hoom as [->|[-> ->]].
    - by rewrite Z.eqb_refl.
    - by rewrite orb_true_r. }
  eexists. repeat split.
Qed.

Lemma oom_notice_appended_witness :
  let s := sample_docker_env killed_engine in
  exists c',
    (DockerBuildCommand_run sample_conf killed_engine
       (docker_command ["make"; "html"]%string) s).1 = Ok c' /\
    output c'
    = Some (py ("cc1plus: out of memory" ++ NL ++ "Killed" ++ NL)
            ++ OOM_NOTICE) /\
    exit_code c' = Some 1.
Proof.
  intros s.
  eapply (oom_notice_appended sample_conf killed_engine
            (docker_command ["make"; "html"]%string) s).
  - reflexivity.
  - reflexivity.
  - vm_compute. reflexivity.
  - vm_compute. reflexivity.
  - vm_compute. reflexivity.
  - vm_compute. reflexivity.
  - vm_compute. reflexivity.
  - right. split; [reflexivity|]. vm_compute. reflexivity.
Defined.

(** ** A recorded build with a failing command *)

Lemma fresh_insert_ne (h : gmap loc dict) l d :
  fresh (dom (<[l := d]> h)) <> l.
Proof.
  intros Heq. apply (is_fresh (dom (<[l := d]> h))).
  rewrite Heq at 1. apply elem_of_dom. rewrite lookup_insert_eq. eauto.
Qed.

(** A command is built unless the caller passes [environment] or the
    shared mapping sets [PATH]. *)
Lemma construct_command_returns cf k cmd ras kw s d :
  kw_environment kw = None ->
  heap s !! env_environment s = Some d ->
  d !! "PATH"%string = None ->
  exists c0 h1,
    construct_command cf k cmd ras kw s = (Ok c0, set_heap h1 s) /\
    heap s ⊆ h1.
Proof.
  intros Hkw Hd Hpath.
  assert (exists c0 h1,
            construct_command cf k cmd ras kw s = (Ok c0, set_heap h1 s))
    as (c0 & h1 & Heq).
  { unfold construct_command, Command_init, dict_copy, dict_pop, dict_read,
      dict_new, dict_write.
    unfold_monad. simpl. rewrite Hd. simpl.
    rewrite !lookup_insert_eq. simpl.
    assert (kw_environment
              (if bool_decide
                    (kw_bin_path
                       (if is_build_environment (cls s)
                        then with_build_env kw else kw) = None)
                  && truthy (d !! "BIN_PATH"%string)
               then with_bin_path (d !! "BIN_PATH"%string)
                      (if is_build_environment (cls s)
                       then with_build_env kw else kw)
               else if is_build_environment (cls s)
                    then with_build_env kw else kw) = None) as Hnone.
    { destruct (_ && _), (is_build_environment (cls s)); simpl; done. }
    rewrite (bool_decide_eq_false_2 _ (fun H => H Hnone)). simpl.
    rewrite !lookup_insert_eq. simpl.
    destruct (bool_decide (delete "BIN_PATH"%string d = ∅)) eqn:He; simpl;
      rewrite ?lookup_insert_eq; simpl.
    - rewrite ?lookup_empty.
      rewrite bool_decide_eq_false_2 by (intros [? [=]]).
      eexists _, _. reflexivity.
    - rewrite ?lookup_insert_ne by apply fresh_insert_ne.
      rewrite ?lookup_insert_eq. simpl. rewrite ?lookup_insert_eq. simpl.
      rewrite lookup_delete_ne by done. rewrite Hpath.
      rewrite bool_decide_eq_false_2 by (intros [? [=]]).
      eexists _, _. reflexivity. }
  exists c0, h1. split; [done|].
  destruct (preserves_construct_command (heap s) cf k cmd ras kw s)
    as [Hsub _]; [done|].
  by rewrite Heq in Hsub.
Qed.

Lemma sanitize_output_returns cf b raw :
  exists text, sanitize_output cf (Some (Some b)) (Some raw) = Ok (Some text).
Proof. unfold sanitize_output. destruct (_ >? _); eauto. Qed.

Lemma sanitize_output_None cf b :
  512 * 1024 <= DATA_UPLOAD_MAX_MEMORY_SIZE cf ->
  sanitize_output cf (Some (Some b)) None = Ok None.
Proof.
  intros H. unfold sanitize_output.
  destruct (Z.gtb_spec 0 (DATA_UPLOAD_MAX_MEMORY_SIZE cf - 512 * 1024));
    [lia|done].
Qed.

(** The next answer of [Popen] decides the outcome of [BuildCommand.run]. *)
Lemma BuildCommand_run_returns cf O c s b raw rc :
  build_env c = true ->
  build s = Some b ->
  512 * 1024 <= DATA_UPLOAD_MAX_MEMORY_SIZE cf ->
  (forall call, on_Popen O (calls s ++ [call]) = Ok (raw, rc)) ->
  exists text h1 call,
    BuildCommand_run cf O c s
    = (Ok (set_exit_code (Some rc)
             (set_error None (set_output (Some text) c))),
       set_calls (calls s ++ [call]) (set_heap h1 s)) /\
    heap s ⊆ h1.
Proof.
  intros He Hb Hcf HO.
  destruct (sanitize_output_returns cf b raw) as [text Htext].
  assert (exists h1 call,
            BuildCommand_run cf O c s
            = (Ok (set_exit_code (Some rc)
                     (set_error None (set_output (Some text) c))),
               set_calls (calls s ++ [call]) (set_heap h1 s)))
    as (h1 & call & Heq).
  { unfold BuildCommand_run, dict_copy, dict_discard, dict_set, dict_read,
      dict_new, dict_write, benv_of.
    unfold_monad. simpl. rewrite HO. simpl. rewrite He, Hb, Htext. simpl.
    rewrite (sanitize_output_None cf b Hcf). simpl.
    eexists _, _. reflexivity. }
  exists text, h1, call. split; [done|].
  destruct (preserves_BuildCommand_run (heap s) cf O c s) as [Hsub _];
    [done|].
  by rewrite Heq in Hsub.
Qed.

(** One run in a recording local build environment. *)
Lemma run_recorded cf O cmd kw w s b d raw rc :
  cls s = LocalBuildEnvironment ->
  build s = Some b ->
  record s = true ->
  kw_environment kw = None ->
  heap s !! env_environment s = Some d ->
  d !! "PATH"%string = None ->
  512 * 1024 <= DATA_UPLOAD_MAX_MEMORY_SIZE cf ->
  (forall call, on_Popen O (calls s ++ [call]) = Ok (raw, rc)) ->
  (forall a, on_POST O a = Ok tt) ->
  exists c h1 call,
    command c = cmd /\ exit_code c = Some rc /\
    run cf O cmd None w false kw s
    = (if cmd_failed c
       then if w then Ok c
            else Raise (BuildEnvironmentWarning_ cf (failure_message c))
       else Ok c,
       set_commands (commands s ++ [c])
         (set_api (api s ++ [post_of s b c])
            (set_calls (calls s ++ [call]) (set_heap h1 s)))) /\
    heap s ⊆ h1.
Proof.
  intros Hcls Hb Hrec Hkw Hd Hpath Hcf HO HP.
  destruct (construct_command_returns cf BuildCommand cmd false kw s d)
    as (c0 & h1 & Hc & Hsub1); [done..|].
  destruct (stable_construct_command cf BuildCommand cmd false kw s)
    as [_ Hc0].
  rewrite Hc in Hc0. simpl in Hc0.
  destruct (Hc0 c0 eq_refl) as (Hk0 & Hcmd0 & Hbe0 & Hras0 & _).
  rewrite Hcls in Hbe0. specialize (Hbe0 eq_refl).
  destruct (BuildCommand_run_returns cf O c0 (set_heap h1 s) b raw rc)
    as (text & h2 & call & Hr & Hsub2); [done..|].
  set (c1 := set_exit_code (Some rc)
               (set_error None (set_output (Some text) c0))) in *.
  exists c1, h2, call.
  split; [exact Hcmd0|]. split; [reflexivity|]. split.
  - unfold run. unfold mbind at 1. unfold M_bind at 1. unfold get at 1.
    rewrite Hcls. simpl command_class_of.
    rewrite run_command_class_phases.
    unfold mbind, M_bind. rewrite Hc.
    unfold Command_run. rewrite Hk0, Hr.
    unfold effective_record, effective_warn_only. rewrite Hcls, Hrec. simpl.
    rewrite (settle_recorded cf O w c1 _ b);
      [|simpl; by rewrite Hcls|done|done|apply HP].
    simpl. rewrite Hras0. reflexivity.
  - simpl in Hsub2. by etrans.
Qed.

(** Finalizing after the second of two commands failed, with or without
    a failure stored on the environment. *)
Lemma BuildEnvironment_exit_after_warning cf s b e c1 c2 :
  record s = true ->
  build s = Some b ->
  (forall f, failure s = Some f ->
             isinstance f BuildEnvironmentException = true) ->
  commands s = [c1; c2] ->
  exit_code c1 = Some 0 ->
  exit_code c2 = Some 2 ->
  exc_type e = BuildEnvironmentWarning ->
  exists b' s',
    BuildEnvironment_exit cf (Some e) s = (Ok true, s') /\
    build s' = Some b' /\
    commands s' = commands s /\
    failure s' = failure s /\
    api s' = api s ++ [PUT_build (build_id b) b'] /\
    build_error b' = Some (from_option exc_msg [] (failure s)) /\
    build_success b' = Some false /\
    build_exit_code b' = Some (from_option status_code 2 (failure s)) /\
    build_state b' = BUILD_STATE_FINISHED cf.
Proof.
  intros Hrec Hb Hf Hcs H1 H2 He.
  unfold BuildEnvironment_exit, handle_exception, update_build,
    with_build, new_exit_code, max_exit_code, successful, done,
    cmd_successful.
  unfold_monad.
  destruct (failure s) as [f|] eqn:Ef.
  - specialize (Hf f eq_refl).
    repeat (progress (simpl;
              rewrite ?He, ?Hrec, ?Hb, ?Ef, ?Hf, ?Hcs, ?H1, ?H2,
                ?String.eqb_refl)).
    eexists _, _. split; [reflexivity|].
    repeat split; simpl; rewrite ?Ef; done.
  - repeat (progress (simpl;
              rewrite ?He, ?Hrec, ?Hb, ?Ef, ?Hcs, ?H1, ?H2,
                ?String.eqb_refl)).
    eexists _, _. split; [reflexivity|].
    repeat split; simpl; rewrite ?Ef; done.
Qed.

Lemma exit_after_warning cf O s b e c1 c2 :
  cls s = LocalBuildEnvironment ->
  record s = true ->
  build s = Some b ->
  failure s = None ->
  commands s = [c1; c2] ->
  exit_code c1 = Some 0 ->
  exit_code c2 = Some 2 ->
  exc_type e = BuildEnvironmentWarning ->
  exists b' s',
    exit cf O (Some e) s = (Ok true, s') /\
    build s' = Some b' /\
    commands s' = commands s /\
    failure s' = None /\
    api s' = api s ++ [PUT_build (build_id b) b'] /\
    build_error b' = Some [] /\ build_success b' = Some false /\
    build_exit_code b' = Some 2 /\
    build_state b' = BUILD_STATE_FINISHED cf.
Proof.
  intros Hcls Hrec Hb Hf Hcs H1 H2 He.
  destruct (BuildEnvironment_exit_after_warning cf s b e c1 c2)
    as (b' & s' & Heq & Hrest); [done|done|by rewrite Hf|done..|].
  rewrite Hf in Hrest. simpl in Hrest.
  exists b', s'. split; [|done].
  unfold exit. unfold mbind, M_bind, get. by rewrite Hcls.
Qed.

Lemma cmd_failed_zero c : exit_code c = Some 0 -> cmd_failed c = false.
Proof.
  intros H. unfold cmd_failed. rewrite H.
  apply bool_decide_eq_false_2. intros Hne. by apply Hne.
Qed.

Lemma cmd_failed_nonzero c z :
  exit_code c = Some z -> z <> 0 -> cmd_failed c = true.
Proof.
  intros H Hz. unfold cmd_failed. rewrite H.
  apply bool_decide_eq_true_2. congruence.
Qed.

(** The scenario in a local build environment. *)
Lemma two_command_local_build cf O s b d kw1 kw2 cmd1 cmd2 raw1 raw2 :
  cls s = LocalBuildEnvironment ->
  record s = true ->
  build s = Some b ->
  commands s = [] ->
  failure s = None ->
  api s = [] ->
  heap s !! env_environment s = Some d ->
  d !! "PATH"%string = None ->
  kw_environment kw1 = None ->
  kw_environment kw2 = None ->
  512 * 1024 <= DATA_UPLOAD_MAX_MEMORY_SIZE cf ->
  (forall c, on_Popen O (calls s ++ [c]) = Ok (raw1, 0)) ->
  (forall c c', on_Popen O ((calls s ++ [c]) ++ [c']) = Ok (raw2, 2)) ->
  (forall a, on_POST O a = Ok tt) ->
  let r := two_command_build cf O cmd1 cmd2 kw1 kw2 s in
  r.1 = Ok None /\
  failed cf r.2 = true /\
  exists c1 c2 b',
    commands r.2 = [c1; c2] /\
    command c1 = cmd1 /\ exit_code c1 = Some 0 /\
    command c2 = cmd2 /\ exit_code c2 = Some 2 /\
    api r.2 = [post_of s b c1; post_of s b c2; PUT_build (build_id b) b'] /\
    build_state b' = BUILD_STATE_FINISHED cf /\
    build_success b' = Some false /\
    build_exit_code b' = Some 2 /\
    build_error b' = Some [].
Proof.
  intros Hcls Hrec Hb Hcs Hf Hapi Hd Hpath Hkw1 Hkw2 Hcf HO1 HO2 HP r.
  destruct (run_recorded cf O cmd1 kw1 false s b d raw1 0)
    as (c1 & h1 & call1 & Hcmd1 & Hx1 & Hrun1 & Hsub1); [done..|].
  rewrite (cmd_failed_zero c1 Hx1) in Hrun1.
  set (s1 := set_commands (commands s ++ [c1])
               (set_api (api s ++ [post_of s b c1])
                  (set_calls (calls s ++ [call1]) (set_heap h1 s)))) in *.
  destruct (run_recorded cf O cmd2 kw2 false s1 b d raw2 2)
    as (c2 & h2 & call2 & Hcmd2 & Hx2 & Hrun2 & Hsub2); try done.
  { simpl. by apply (lookup_weaken _ _ _ _ Hd Hsub1). }
  { intros call. simpl. apply HO2. }
  rewrite (cmd_failed_nonzero c2 2 Hx2) in Hrun2 by done.
  set (s2 := set_commands (commands s1 ++ [c2])
               (set_api (api s1 ++ [post_of s1 b c2])
                  (set_calls (calls s1 ++ [call2]) (set_heap h2 s1)))) in *.
  destruct (exit_after_warning cf O s2 b
              (BuildEnvironmentWarning_ cf (failure_message c2)) c1 c2)
    as (b' & s3 & Hexit & Hb3 & Hcs3 & Hf3 & Hapi3 & He & Hs & Hx & Hst);
    try done.
  { simpl. by rewrite Hcs. }
  assert (r = (Ok None, s3)) as ->.
  { subst r. unfold two_command_build, with_env, enter, body_then_exit.
    unfold mbind, M_bind, get. rewrite Hcls. unfold mret, M_ret.
    rewrite Hrun1, Hrun2, Hexit. reflexivity. }
  split; [reflexivity|]. split.
  - unfold failed, done. simpl. rewrite Hb3, Hst, String.eqb_refl, Hcs3.
    simpl. rewrite Hcs. simpl.
    rewrite (cmd_failed_nonzero c2 2 Hx2) by done.
    by rewrite !orb_true_r.
  - exists c1, c2, b'. simpl. rewrite Hcs3, Hapi3. simpl.
    rewrite Hcs, Hapi. simpl. repeat split; done.
Qed.

(** ** Leaving and entering a Docker build environment *)

(** What the scope does when the engine answers every call: an exception of
    the body is swallowed, stored as the failure and reported. *)
Lemma docker_scope_swallows_exception :
  let r := with_env sample_conf quiet_oracle (raise key_error)
             (sample_docker_env quiet_oracle) in
  r.1 = Ok (None : option unit) /\
  failed sample_conf r.2 = true /\
  length (List.filter is_PUT (api r.2)) = 1%nat.
Proof. vm_compute. repeat split. Qed.

(** A connection error while removing the container is logged and dropped,
    as the comment on that handler says. *)
Lemma docker_exit_survives_remove_error :
  let r := with_env sample_conf remove_disconnects (raise key_error)
             (sample_docker_env remove_disconnects) in
  r.1 = Ok (None : option unit) /\
  length (List.filter is_PUT (api r.2)) = 1%nat.
Proof. vm_compute. repeat split. Qed.

(** C5, at the failing input.  The body of a Docker scope raises; while the
    scope exits the engine drops the connection on [kill].  The connection
    error leaves [__exit__]: the caller sees an exception, the exception of
    the body is not stored and no build record is sent. *)
Theorem docker_exit_lets_connection_error_escape :
  let O := kill_disconnects inspect_fresh in
  let r := with_env sample_conf O (raise key_error) (sample_docker_env O) in
  r.1 = (Raise connection_error : Res (option unit)) /\
  failure r.2 = None /\
  api r.2 = [] /\
  last (calls r.2) = Some (call_kill (Some "build-123-project-7-pip"%string)).
Proof. vm_compute. repeat split. Qed.

(** The same defect without any exception in the body. *)
Lemma docker_exit_raises_on_clean_body :
  let O := kill_disconnects inspect_fresh in
  (with_env sample_conf O (mret tt) (sample_docker_env O)).1
  = Raise connection_error.
Proof. vm_compute. reflexivity. Qed.

(** Entry against a running container when the engine answers every call:
    the lock-contention error is raised and nothing is created. *)
Lemma docker_enter_refuses_running_container :
  let r := DockerBuildEnvironment_enter sample_conf busy_engine
             (sample_docker_env busy_engine) in
  r.1 = Raise (lock_error sample_conf) /\
  existsb is_create (calls r.2) = false.
Proof. vm_compute. repeat split. Qed.

(** Entry against a stopped container: it is removed before a new one is
    created, and a connection error of that removal is dropped. *)
Lemma docker_enter_removes_stale_container :
  let r := DockerBuildEnvironment_enter sample_conf stale_engine
             (sample_docker_env stale_engine) in
  r.1 = Ok tt /\
  List.filter (fun c => match c with
                        | call_remove_container _
                        | call_create_container _ _ _ _ => true
                        | _ => false
                        end) (calls r.2)
  = [call_remove_container (Some "build-123-project-7-pip"%string);
     call_create_container "readthedocs/build:latest"
       (sleep_command sample_conf (sample_docker_env stale_engine))
       (Some "build-123-project-7-pip"%string) (Some "200m"%string)].
Proof. vm_compute. repeat split. Qed.

(** C7, at the failing input.  A container under the derived name reports
    [Running=true]; the teardown that entry runs before re-raising loses the
    connection on [kill].  Entry raises the connection error instead of the
    lock-contention error (no container is created). *)
Theorem docker_enter_loses_lock_error :
  let O := kill_disconnects (fun _ => Ok running_state) in
  let r := DockerBuildEnvironment_enter sample_conf O (sample_docker_env O) in
  r.1 = Raise connection_error /\
  connection_error <> lock_error sample_conf /\
  failure r.2 = Some (lock_error sample_conf) /\
  api r.2 = [] /\
  existsb is_create (calls r.2) = false.
Proof. vm_compute. repeat split. discriminate. Qed.

(** The exit handler of the base class does swallow every exception: with a
    build record to report to (or nothing to record) and exit codes on all
    listed commands, [__exit__] returns, and returns [True] exactly when it
    was given an exception. *)
Lemma max_exit_code_returns cs :
  cs <> [] -> Forall (fun c => is_Some (exit_code c)) cs ->
  exists z, max_exit_code cs = Ok z.
Proof.
  intros Hne Hall. unfold max_exit_code.
  destruct cs as [|c [|c' cs]]; [done|eauto|].
  assert (exists zs, mapM exit_code (c :: c' :: cs) = Some zs /\ zs <> [])
    as (zs & -> & Hzs).
  { revert Hall. generalize (c' :: cs). intros l Hall.
    inversion Hall as [|? ? [z Hz] Hl]; subst.
    assert (exists ks, mapM exit_code l = Some ks) as [ks Hks].
    { clear Hall. induction Hl as [|x l [k Hk] _ [ks IH]].
      - by exists [].
      - exists (k :: ks). simpl. rewrite Hk. simpl. by rewrite IH. }
    exists (z :: ks). simpl. rewrite Hz. simpl. rewrite Hks. done. }
  destruct zs; [done|eauto].
Qed.

Lemma update_build_returns cf st s :
  (record s = true -> build s <> None) ->
  Forall (fun c => is_Some (exit_code c)) (commands s) ->
  (update_build cf st s).1 = Ok tt.
Proof.
  intros Hb Hall. unfold update_build.
  unfold mbind at 1. unfold M_bind at 1. unfold get at 1.
  destruct (record s); simpl; [|done].
  destruct (build s) as [b|] eqn:Eb; [|by destruct Hb].
  assert (exists o, new_exit_code
                      (set_build (Some
                         {| build_id := build_id b; build_state := st;
                            build_project := Some (pk (project s));
                            build_version := Some (version_pk (version s));
                            build_builder := Some (gethostname cf);
                            build_success := build_success b;
                            build_exit_code := build_exit_code b;
                            build_setup := build_setup b;
                            build_setup_error := build_setup_error b;
                            build_output := build_output b;
                            build_error := build_error b |}) s) = Ok o)
    as [o Ho].
  { unfold new_exit_code.
    change (commands (set_build _ s)) with (commands s).
    change (failure (set_build _ s)) with (failure s).
    destruct (commands s) as [|c cs] eqn:Ec.
    - destruct (failure s); [destruct (isinstance _ _)|]; eauto.
    - destruct (max_exit_code_returns (c :: cs)) as [z ->]; [done..|].
      destruct (failure s); [destruct (isinstance _ _)|]; eauto. }
  unfold with_build. unfold_monad. simpl. rewrite Eb. simpl.
  destruct (done cf _); simpl.
  - rewrite Ho. simpl.
    destruct o; simpl; destruct (failure s); simpl;
      repeat (destruct (_ || _); simpl); done.
  - destruct (failure s); simpl;
      repeat (destruct (_ || _); simpl); done.
Qed.

Lemma BuildEnvironment_exit_swallows cf exc_ s :
  (record s = true -> build s <> None) ->
  Forall (fun c => is_Some (exit_code c)) (commands s) ->
  (BuildEnvironment_exit cf exc_ s).1 = Ok (bool_decide (exc_ <> None)).
Proof.
  intros Hb Hall. unfold BuildEnvironment_exit, handle_exception.
  destruct exc_ as [e|].
  - unfold mbind at 1. unfold M_bind at 1.
    destruct (issubclass _ _); [|destruct (bool_decide _)]; unfold_monad;
      simpl;
      match goal with
      | |- context [update_build cf ?st ?s'] =>
          pose proof (update_build_returns cf st s' Hb Hall) as H;
          destruct (update_build cf st s') as [[[]|?] ?]; simpl in *;
          congruence
      end.
  - unfold_monad. simpl.
    pose proof (update_build_returns cf (BUILD_STATE_FINISHED cf) s Hb Hall)
      as H.
    destruct (update_build cf _ s) as [[[]|?] ?]; simpl in *; congruence.
Qed.

(** ** Parts of the environment a method leaves alone *)

Section Keeps.

Context {X : Type} (f : Env -> X).

Lemma keeps_ret {A} (a : A) : keeps f (mret a).
Proof. done. Qed.

Lemma keeps_raise {A} e : keeps f (raise e : M A).
Proof. done. Qed.

Lemma keeps_lift {A} (r : Res A) : keeps f (lift r).
Proof. done. Qed.

Lemma keeps_get : keeps f get.
Proof. done. Qed.

Lemma keeps_modify g : (forall s, f (g s) = f s) -> keeps f (modify g).
Proof. intros H s. apply H. Qed.

Lemma keeps_bind {A B} (m : M A) (k : A -> M B) :
  keeps f m -> (forall a, keeps f (k a)) -> keeps f (m ≫= k).
Proof.
  intros Hm Hk s. specialize (Hm s). unfold mbind, M_bind.
  destruct (m s) as [[a|e] s1]; simpl in *; [|done].
  by rewrite (Hk a s1).
Qed.

Lemma keeps_if {A} (b : bool) (m1 m2 : M A) :
  keeps f m1 -> keeps f m2 -> keeps f (if b then m1 else m2).
Proof. by destruct b. Qed.

End Keeps.

Ltac keeps_step :=
  match goal with
  | |- keeps _ (_ ≫= _) => apply keeps_bind; [|intros ?]
  | |- keeps _ (if _ then _ else _) => apply keeps_if
  | |- keeps _ (match ?x with _ => _ end) => destruct x
  | |- keeps _ (mret _) => apply keeps_ret
  | |- keeps _ (raise _) => apply keeps_raise
  | |- keeps _ (lift _) => apply keeps_lift
  | |- keeps _ get => apply keeps_get
  | |- keeps _ (modify _) => apply keeps_modify; done
  | |- keeps _ (send _) => apply keeps_modify; done
  end.

Lemma update_build_keeps_calls cf st : keeps calls (update_build cf st).
Proof. unfold update_build, with_build. repeat keeps_step. Qed.

Lemma BuildEnvironment_exit_keeps_calls cf exc_ :
  keeps calls (BuildEnvironment_exit cf exc_).
Proof.
  unfold BuildEnvironment_exit, handle_exception.
  apply keeps_bind; [|intros ?].
  - repeat keeps_step.
  - apply keeps_bind; [apply update_build_keeps_calls|].
    intros _. apply keeps_ret.
Qed.

(** ** Which exceptions leave a teardown *)

Section RaisesOnly.

Context {A : Type} (P : exc -> Prop).

Lemma raises_only_ret (a : A) : raises_only P (mret a).
Proof. intros s. split; [done|]. intros ? [=]. Qed.

Lemma raises_only_raise e : P e -> raises_only P (raise e : M A).
Proof. intros He s. split; [done|]. by intros ? [= <-]. Qed.

Lemma raises_only_ext c (answer : list Call -> Res A) :
  is_create c = false ->
  (forall h e, answer h = Raise e -> P e) -> raises_only P (ext c answer).
Proof.
  intros Hc H s. split.
  - unfold teardown_core. simpl. rewrite List.filter_app. simpl.
    by rewrite Hc, app_nil_r.
  - simpl. intros e. apply H.
Qed.

Lemma raises_only_if (b : bool) (m1 m2 : M A) :
  raises_only P m1 -> raises_only P m2 ->
  raises_only P (if b then m1 else m2).
Proof. by destruct b. Qed.

Lemma raises_only_weaken (Q : exc -> Prop) (m : M A) :
  raises_only Q m -> (forall e, Q e -> P e) -> raises_only P m.
Proof. intros Hm HQP s. destruct (Hm s). split; auto. Qed.

Lemma raises_only_try_except (Q : exc -> Prop) (body : M A) handler :
  raises_only Q body -> (forall e, Q e -> raises_only P (handler e)) ->
  raises_only P (try_except body handler).
Proof.
  intros Hb Hh s. destruct (Hb s) as [H1 H2].
  unfold try_except. destruct (body s) as [[a|e] s1]; simpl in *.
  - split; [done|]. intros ? [=].
  - destruct (Hh e (H2 e eq_refl) s1) as [H3 H4]. split; [congruence|done].
Qed.

End RaisesOnly.

Lemma raises_only_bind {A B} P (m : M A) (f : A -> M B) :
  raises_only P m -> (forall a, raises_only P (f a)) ->
  raises_only P (m ≫= f).
Proof.
  intros Hm Hf s. destruct (Hm s) as [H1 H2].
  unfold mbind, M_bind. destruct (m s) as [[a|e] s1]; simpl in *.
  - destruct (Hf a s1) as [H3 H4]. split; [congruence|done].
  - split; [done|]. intros ? [= <-]. by apply H2.
Qed.

Lemma raises_only_get P : raises_only P get.
Proof. intros s. split; [done|]. intros ? [=]. Qed.

Lemma raises_only_modify P f :
  (forall s, teardown_core (f s) = teardown_core s) ->
  raises_only P (modify f).
Proof. intros Hf s. split; [apply Hf|]. intros ? [=]. Qed.

Ltac raises_step :=
  match goal with
  | |- raises_only _ (_ ≫= _) => apply raises_only_bind; [|intros ?]
  | |- raises_only _ (if _ then _ else _) => apply raises_only_if
  | |- raises_only _ (match ?x with _ => _ end) => destruct x
  | |- raises_only _ (mret _) => apply raises_only_ret
  | |- raises_only _ get => apply raises_only_get
  | |- raises_only _ (modify _) => apply raises_only_modify; done
  end.

Section Tolerable.

Context (cf : Conf) (O : Oracle) (HO : tolerable O).

Lemma get_client_raises_only :
  raises_only (is_a BuildEnvironmentError) (get_client cf O).
Proof.
  unfold get_client. apply raises_only_bind; [apply raises_only_get|].
  intros s. apply raises_only_if; [apply raises_only_ret|].
  eapply raises_only_try_except with (Q := is_a DockerException).
  - apply raises_only_bind.
    + apply raises_only_ext; [done|]. apply (tolerable_client O HO).
    + intros _. by apply raises_only_modify.
  - intros e He. unfold is_a in He. rewrite He.
    by apply raises_only_raise.
Qed.

Lemma container_state_raises_only :
  raises_only (is_a BuildEnvironmentError) (container_state cf O).
Proof.
  unfold container_state.
  apply raises_only_bind; [apply get_client_raises_only|]. intros _.
  apply raises_only_bind; [apply raises_only_get|]. intros s.
  eapply raises_only_try_except with (Q := is_a DockerAPIError).
  - apply raises_only_bind.
    + apply raises_only_ext; [done|]. apply (tolerable_inspect O HO).
    + intros st. apply raises_only_ret.
  - intros e He. unfold is_a in He. rewrite He. apply raises_only_ret.
Qed.

Lemma update_build_from_container_state_raises_only :
  raises_only (is_a BuildEnvironmentError)
    (update_build_from_container_state cf O).
Proof.
  unfold update_build_from_container_state.
  apply raises_only_bind; [apply container_state_raises_only|].
  intros st. repeat raises_step.
Qed.

(** With an engine that fails only in the tolerated ways, the teardown of
    [__exit__] raises nothing. *)
Lemma teardown_never_raises exc_ :
  raises_only never
    (try_except
       (update_build_from_container_state cf O;;
        get_client cf O;;
        s ← get;
        try_except
          (ext (call_kill (container_id s)) (on_kill O))
          (fun e =>
             if isinstance e DockerNotFoundError then mret tt
             else if isinstance e DockerAPIError then mret tt
             else raise e);;
        try_except
          (ext (call_remove_container (container_id s))
             (on_remove_container O))
          (fun e =>
             if isinstance e DockerNotFoundError then mret tt
             else if isinstance e DockerAPIError
                     || isinstance e ConnectionError
                     || isinstance e ReadTimeout
             then mret tt
             else raise e);;
        modify (set_container None);;
        mret exc_)
       (fun e =>
          if isinstance e BuildEnvironmentError then
            match exc_ with
            | Some _ => mret exc_
            | None => mret (Some e)
            end
          else raise e)).
Proof.
  eapply raises_only_try_except with (Q := is_a BuildEnvironmentError).
  - apply raises_only_bind;
      [apply update_build_from_container_state_raises_only|]. intros _.
    apply raises_only_bind; [apply get_client_raises_only|]. intros _.
    apply raises_only_bind; [apply raises_only_get|]. intros s.
    apply raises_only_bind.
    { eapply raises_only_try_except with (Q := is_a DockerAPIError).
      - apply raises_only_ext; [done|]. apply (tolerable_kill O HO).
      - intros e He. unfold is_a in He. rewrite He.
        destruct (isinstance e DockerNotFoundError); apply raises_only_ret. }
    intros _. apply raises_only_bind.
    { eapply raises_only_try_except
        with (Q := fun e => is_a DockerAPIError e \/ is_a ConnectionError e
                            \/ is_a ReadTimeout e).
      - apply raises_only_ext; [done|]. apply (tolerable_remove O HO).
      - intros e He.
        assert (isinstance e DockerAPIError || isinstance e ConnectionError
                || isinstance e ReadTimeout = true) as ->.
        { unfold is_a in He. destruct He as [-> | [-> | ->]];
            rewrite ?orb_true_r; done. }
        destruct (isinstance e DockerNotFoundError); apply raises_only_ret. }
    intros _. apply raises_only_bind; [by apply raises_only_modify|].
    intros _. apply raises_only_ret.
  - intros e He. unfold is_a in He. rewrite He.
    destruct exc_; apply raises_only_ret.
Qed.

(** The Docker exit handler swallows every exception of the body as long
    as the engine fails only in the tolerated ways: [kill] and
    [inspect_container] with an engine API error, [remove_container] also
    with a connection error or a read time-out. *)
Lemma DockerBuildEnvironment_exit_swallows exc_ s :
  (record s = true -> build s <> None) ->
  Forall (fun c => is_Some (exit_code c)) (commands s) ->
  let r := DockerBuildEnvironment_exit cf O exc_ s in
  (exists v, r.1 = Ok v) /\
  List.filter is_create (calls r.2) = List.filter is_create (calls s).
Proof.
  intros Hb Hall r.
  assert (exists x s', r = BuildEnvironment_exit cf x s' /\
            teardown_core s' = teardown_core s) as (x & s' & -> & Hcore).
  { subst r. unfold DockerBuildEnvironment_exit.
    unfold mbind at 1. unfold M_bind at 1.
    match goal with
    | |- context [try_except ?body ?handler s] =>
        destruct (teardown_never_raises exc_ s) as [Hcore Hnever];
        destruct (try_except body handler s) as [[x|e] s'] eqn:E
    end; simpl in *.
    - by exists x, s'.
    - destruct (Hnever e eq_refl). }
  injection Hcore as Hc Hbd Hr Hcalls. split.
  - eexists. apply BuildEnvironment_exit_swallows.
    + by rewrite Hr, Hbd.
    + by rewrite Hc.
  - pose proof (BuildEnvironment_exit_keeps_calls cf x s') as Hk.
    simpl in Hk. by rewrite Hk.
Qed.

(** Entry against a running container, with an engine that fails only in
    the tolerated ways: the lock-contention error is raised and no
    container is created. *)
Lemma DockerBuildEnvironment_enter_running s st s1 :
  (record s = true -> build s <> None) ->
  Forall (fun c => is_Some (exit_code c)) (commands s) ->
  container_state cf O s = (Ok (Some st), s1) ->
  Running st = Some true ->
  let r := DockerBuildEnvironment_enter cf O s in
  r.1 = Raise (lock_error cf) /\
  List.filter is_create (calls r.2) = List.filter is_create (calls s).
Proof.
  intros Hb Hall Hcs Hrun r.
  destruct (container_state_raises_only s) as [Hcore _].
  rewrite Hcs in Hcore. simpl in Hcore.
  injection Hcore as Hc Hbd Hr Hcalls.
  set (s2 := set_build
               ((fun b =>
                   {| build_id := build_id b;
                      build_state := BUILD_STATE_FINISHED cf;
                      build_project := build_project b;
                      build_version := build_version b;
                      build_builder := build_builder b;
                      build_success := build_success b;
                      build_exit_code := build_exit_code b;
                      build_setup := build_setup b;
                      build_setup_error := build_setup_error b;
                      build_output := build_output b;
                      build_error := build_error b |}) <$> build s1)
               (set_failure (Some (lock_error cf)) s1)).
  destruct (DockerBuildEnvironment_exit_swallows (Some (lock_error cf)) s2)
    as [[v Hv] Hcreate].
  { simpl. rewrite Hr, Hbd. intros H. specialize (Hb H).
    destruct (build s); [done|by destruct Hb]. }
  { simpl. by rewrite Hc. }
  assert (r = (Raise (lock_error cf),
               (DockerBuildEnvironment_exit cf O (Some (lock_error cf))
                  s2).2)) as ->.
  { subst r. unfold DockerBuildEnvironment_enter.
    unfold mbind at 1. unfold M_bind at 1.
    unfold try_except at 1.
    unfold mbind at 1. unfold M_bind at 1. rewrite Hcs.
    rewrite (bool_decide_eq_true_2 _ Hrun).
    unfold with_build. unfold_monad. simpl.
    change (DockerBuildEnvironment_exit cf O (Some _) (set_build _ _))
      with (DockerBuildEnvironment_exit cf O (Some (lock_error cf)) s2).
    destruct (DockerBuildEnvironment_exit cf O (Some (lock_error cf)) s2)
      as [[v'|e'] s3]; simpl in *; [done|discriminate]. }
  split; [done|]. simpl. rewrite Hcreate. simpl. done.
Qed.

End Tolerable.

(** ** The scenario in a Docker build environment *)

Lemma filter_snoc_exec_inspect h c :
  List.filter is_exec_inspect (h ++ [c])
  = List.filter is_exec_inspect h ++ (if is_exec_inspect c then [c] else []).
Proof. rewrite List.filter_app. simpl. by destruct (is_exec_inspect c). Qed.

Lemma existsb_snoc_is_create h c :
  existsb is_create (h ++ [c]) = existsb is_create h || is_create c.
Proof. rewrite existsb_app. simpl. by rewrite orb_false_r. Qed.

(** With a connected client, the answers of the engine to the three exec
    calls decide the outcome of [DockerBuildCommand.run]. *)
Lemma DockerBuildCommand_run_returns cf O c s b code :
  is_docker_environment (cls s) = true ->
  client s = true ->
  build_env c = true ->
  build s = Some b ->
  (forall h, exists id, on_exec_create O h = Ok id) ->
  (forall h, exists raw, on_exec_start O h = Ok raw) ->
  (forall h,
     length (List.filter is_exec_inspect h)
     = S (length (List.filter is_exec_inspect (calls s))) ->
     on_exec_inspect O h = Ok code) ->
  exists c' h',
    DockerBuildCommand_run cf O c s = (Ok c', set_calls (calls s ++ h') s) /\
    exit_code c' = Some code /\
    existsb is_create h' = false /\
    length (List.filter is_exec_inspect h') = 1%nat.
Proof.
  intros Hdocker Hcl He Hb Hcreate Hstart Hinspect.
  unfold DockerBuildCommand_run, get_client, dict_read, benv_of,
    exited_abnormally.
  unfold_monad. simpl. rewrite He, Hdocker. simpl. rewrite Hcl. simpl.
  set (call1 := call_exec_create _ _ _ _ _).
  destruct (Hcreate (calls s ++ [call1])) as [id ->]. simpl.
  destruct (Hstart ((calls s ++ [call1]) ++ [call_exec_start id]))
    as [raw ->]. simpl.
  rewrite Hb.
  destruct (sanitize_output_returns cf b raw) as [text ->]. simpl.
  rewrite Hinspect.
  2:{ rewrite !filter_snoc_exec_inspect. simpl.
      rewrite !app_nil_r, length_app. simpl. lia. }
  simpl.
  destruct (_ || _); simpl;
    (eexists _, [call1; call_exec_start id; call_exec_inspect id];
     split; [rewrite <- !app_assoc; reflexivity|done]).
Qed.

(** One run in a recording Docker build environment. *)
Lemma run_recorded_docker cf O cmd kw w s b d code :
  cls s = DockerBuildEnvironment ->
  client s = true ->
  build s = Some b ->
  record s = true ->
  kw_environment kw = None ->
  heap s !! env_environment s = Some d ->
  d !! "PATH"%string = None ->
  (forall h, exists id, on_exec_create O h = Ok id) ->
  (forall h, exists raw, on_exec_start O h = Ok raw) ->
  (forall h,
     length (List.filter is_exec_inspect h)
     = S (length (List.filter is_exec_inspect (calls s))) ->
     on_exec_inspect O h = Ok code) ->
  (forall a, on_POST O a = Ok tt) ->
  exists c h1 h',
    command c = cmd /\ exit_code c = Some code /\
    run cf O cmd None w false kw s
    = (if cmd_failed c
       then if w then Ok c
            else Raise (BuildEnvironmentWarning_ cf (failure_message c))
       else Ok c,
       set_commands (commands s ++ [c])
         (set_api (api s ++ [post_of s b c])
            (set_calls (calls s ++ h') (set_heap h1 s)))) /\
    heap s ⊆ h1 /\
    existsb is_create h' = false /\
    length (List.filter is_exec_inspect h') = 1%nat.
Proof.
  intros Hcls Hcl Hb Hrec Hkw Hd Hpath Hcreate Hstart Hinspect HP.
  destruct (construct_command_returns cf DockerBuildCommand cmd false kw s d)
    as (c0 & h1 & Hc & Hsub1); [done..|].
  destruct (stable_construct_command cf DockerBuildCommand cmd false kw s)
    as [_ Hc0].
  rewrite Hc in Hc0. simpl in Hc0.
  destruct (Hc0 c0 eq_refl) as (Hk0 & Hcmd0 & Hbe0 & Hras0 & _).
  rewrite Hcls in Hbe0. specialize (Hbe0 eq_refl).
  destruct (DockerBuildCommand_run_returns cf O c0 (set_heap h1 s) b code)
    as (c1 & h' & Hr & Hx & Hnc & Hni); [simpl; by rewrite Hcls|done..|].
  destruct (stable_DockerBuildCommand_run cf O c0 (set_heap h1 s))
    as [_ Hsame].
  rewrite Hr in Hsame. simpl in Hsame.
  destruct (same_command_fields c0 c1 (Hsame c1 eq_refl))
    as (_ & Hcmd1 & Hbe1 & Hras1 & _).
  exists c1, h1, h'.
  split; [congruence|]. split; [done|]. split; [|done].
  unfold run. unfold mbind at 1. unfold M_bind at 1. unfold get at 1.
  rewrite Hcls. simpl command_class_of.
  rewrite run_command_class_phases.
  unfold mbind, M_bind. rewrite Hc.
  unfold Command_run. rewrite Hk0, Hr.
  unfold effective_record, effective_warn_only. rewrite Hcls, Hrec. simpl.
  rewrite (settle_recorded cf O w c1 _ b);
    [|simpl; by rewrite Hcls|done|congruence|apply HP].
  simpl. rewrite Hras1, Hras0. reflexivity.
Qed.

(** Entering the scope when the engine does not know the container yet. *)
Lemma DockerBuildEnvironment_enter_fresh cf O s :
  client s = false ->
  existsb is_create (calls s) = false ->
  (forall h, on_APIClient O h = Ok tt) ->
  (forall h, existsb is_create h = false ->
     exists e, on_inspect_container O h = Raise e /\
               isinstance e DockerAPIError = true) ->
  (forall h, on_makedirs O h = Ok tt) ->
  (forall h, exists c, on_create_container O h = Ok c) ->
  (forall h, on_start O h = Ok tt) ->
  exists c h',
    DockerBuildEnvironment_enter cf O s
    = (Ok tt, set_calls (calls s ++ h') (set_container c (set_client true s)))
    /\ existsb is_create h' = true
    /\ List.filter is_exec_inspect h' = [].
Proof.
  intros Hcl Hnc Hclient Hunknown Hmake Hcreate Hstart.
  unfold DockerBuildEnvironment_enter, container_state, create_container,
    get_client.
  unfold_monad. simpl. rewrite Hcl, Hclient. simpl.
  set (call1 := call_inspect_container _).
  destruct (Hunknown ((calls s ++ [call_APIClient]) ++ [call1]))
    as (e & -> & He).
  { rewrite !existsb_snoc_is_create, Hnc. done. }
  simpl. rewrite He. simpl.
  set (call2 := call_path_exists _).
  destruct (on_path_exists O _); simpl.
  - set (call3 := call_create_container _ _ _ _).
    destruct (Hcreate ((((calls s ++ [call_APIClient]) ++ [call1])
                          ++ [call2]) ++ [call3])) as [c ->].
    simpl. rewrite Hstart. simpl.
    eexists c, [call_APIClient; call1; call2; call3; call_start _].
    split; [rewrite <- !app_assoc; reflexivity|done].
  - rewrite Hmake. simpl.
    set (call2' := call_makedirs _).
    set (call3 := call_create_container _ _ _ _).
    destruct (Hcreate (((((calls s ++ [call_APIClient]) ++ [call1])
                           ++ [call2]) ++ [call2']) ++ [call3])) as [c ->].
    simpl. rewrite Hstart. simpl.
    eexists c, [call_APIClient; call1; call2; call2'; call3; call_start _].
    split; [rewrite <- !app_assoc; reflexivity|done].
Qed.

Lemma container_failure_is_handled cf st f :
  container_failure cf st = Some f ->
  isinstance f BuildEnvironmentException = true.
Proof.
  unfold container_failure. intros H.
  repeat case_match; simplify_eq; done.
Qed.

(** Leaving the scope when the engine reports the state [st] for the
    container and answers the teardown: the failure that the state names
    is stored, the container is killed and removed, and the build is
    finalized with the exception of the body. *)
Lemma DockerBuildEnvironment_exit_reported cf O exc_ s st :
  client s = true ->
  existsb is_create (calls s) = true ->
  (forall h, existsb is_create h = true ->
     on_inspect_container O h = Ok st) ->
  (forall h, on_kill O h = Ok tt) ->
  (forall h, on_remove_container O h = Ok tt) ->
  exists h',
    DockerBuildEnvironment_exit cf O exc_ s
    = BuildEnvironment_exit cf exc_
        (set_calls (calls s ++ h')
           (set_container None
              (set_failure
                 (match container_failure cf st with
                  | Some f => Some f
                  | None => failure s
                  end) s))) /\
    List.filter is_exec_inspect h' = [].
Proof.
  intros Hcl Hc Hreport Hkill Hremove.
  unfold DockerBuildEnvironment_exit, update_build_from_container_state,
    container_state, get_client, container_failure, timeout_failure,
    oom_failure, engine_failure.
  unfold mbind at 1. unfold M_bind at 1.
  unfold_monad. simpl. rewrite Hcl. simpl.
  set (call1 := call_inspect_container _).
  rewrite (Hreport (calls s ++ [call1]))
    by (rewrite existsb_snoc_is_create, Hc; done).
  simpl.
  exists [call1; call_kill (container_id s);
          call_remove_container (container_id s)].
  split; [|done].
  destruct (bool_decide (Running st = Some false)); simpl;
    [destruct (bool_decide (ExitCode st = _)); simpl;
      [|destruct (bool_decide (OOMKilled st = _)); simpl;
        [|destruct (truthy (Error st)); simpl]]|];
    rewrite Hcl; simpl; rewrite Hkill; simpl; rewrite Hremove; simpl;
    rewrite <- !app_assoc; reflexivity.
Qed.

(** The scenario in a Docker build environment. *)
Lemma two_command_docker_build cf O s b d st kw1 kw2 cmd1 cmd2 :
  cls s = DockerBuildEnvironment ->
  record s = true ->
  build s = Some b ->
  commands s = [] ->
  failure s = None ->
  api s = [] ->
  heap s !! env_environment s = Some d ->
  d !! "PATH"%string = None ->
  kw_environment kw1 = None ->
  kw_environment kw2 = None ->
  engine_exits_0_then_2 O s st ->
  (forall a, on_POST O a = Ok tt) ->
  let r := two_command_build cf O cmd1 cmd2 kw1 kw2 s in
  r.1 = Ok None /\
  failed cf r.2 = true /\
  exists c1 c2 b',
    commands r.2 = [c1; c2] /\
    command c1 = cmd1 /\ exit_code c1 = Some 0 /\
    command c2 = cmd2 /\ exit_code c2 = Some 2 /\
    api r.2 = [post_of s b c1; post_of s b c2; PUT_build (build_id b) b'] /\
    build_state b' = BUILD_STATE_FINISHED cf /\
    build_success b' = Some false /\
    build_exit_code b'
    = Some (from_option status_code 2 (container_failure cf st)) /\
    build_error b' = Some (from_option exc_msg [] (container_failure cf st)).
Proof.
  intros Hcls Hrec Hb Hcs Hf Hapi Hd Hpath Hkw1 Hkw2 HO HP r.
  destruct HO as [Hcl Hnc Hne Hclient Hunknown Hreport Hmake Hcreated
                  Hstarted Hkilled Hremoved Hxc Hxs Hx0 Hx2].
  destruct (DockerBuildEnvironment_enter_fresh cf O s)
    as (c & h0 & Henter & Hc0 & He0); [done..|].
  set (s0 := set_calls (calls s ++ h0)
               (set_container c (set_client true s))) in *.
  assert (List.filter is_exec_inspect (calls s0) = []) as Hn0.
  { simpl. by rewrite List.filter_app, Hne, He0. }
  destruct (run_recorded_docker cf O cmd1 kw1 false s0 b d 0)
    as (c1 & h1 & h1' & Hcmd1 & Hx1 & Hrun1 & Hsub1 & Hc1 & He1); try done.
  { intros h Hh. apply Hx0. by rewrite Hh, Hn0. }
  rewrite (cmd_failed_zero c1 Hx1) in Hrun1.
  set (s1 := set_commands (commands s0 ++ [c1])
               (set_api (api s0 ++ [post_of s0 b c1])
                  (set_calls (calls s0 ++ h1') (set_heap h1 s0)))) in *.
  assert (length (List.filter is_exec_inspect (calls s1)) = 1%nat) as Hn1.
  { simpl. rewrite !List.filter_app, Hne, He0. simpl. done. }
  destruct (run_recorded_docker cf O cmd2 kw2 false s1 b d 2)
    as (c2 & h2 & h2' & Hcmd2 & Hxc2 & Hrun2 & Hsub2 & Hc2 & He2); try done.
  { simpl. by apply (lookup_weaken _ _ _ _ Hd Hsub1). }
  { intros h Hh. apply Hx2. by rewrite Hh, Hn1. }
  rewrite (cmd_failed_nonzero c2 2 Hxc2) in Hrun2 by done.
  set (s2 := set_commands (commands s1 ++ [c2])
               (set_api (api s1 ++ [post_of s1 b c2])
                  (set_calls (calls s1 ++ h2') (set_heap h2 s1)))) in *.
  set (e := BuildEnvironmentWarning_ cf (failure_message c2)) in *.
  destruct (DockerBuildEnvironment_exit_reported cf O (Some e) s2 st)
    as (h3 & Hexit & _); try done.
  { simpl. rewrite !existsb_app, Hc0. by rewrite orb_true_r. }
  change (failure s2) with (failure s) in Hexit. rewrite Hf in Hexit.
  set (s3 := set_calls (calls s2 ++ h3)
               (set_container None
                  (set_failure
                     (match container_failure cf st with
                      | Some f => Some f
                      | None => None
                      end) s2))) in *.
  assert (failure s3 = container_failure cf st) as Hf3.
  { simpl. by destruct (container_failure cf st). }
  destruct (BuildEnvironment_exit_after_warning cf s3 b e c1 c2)
    as (b' & s4 & Hfin & Hb4 & Hcs4 & Hf4 & Hapi4 & Herr & Hs & Hx & Hst);
    try done.
  { intros f Hf'. rewrite Hf3 in Hf'.
    by apply (container_failure_is_handled cf st). }
  { simpl. by rewrite Hcs. }
  rewrite Hf3 in Herr, Hx.
  assert (r = (Ok None, s4)) as ->.
  { subst r. unfold two_command_build, with_env, enter, body_then_exit, exit.
    unfold mbind, M_bind, get. rewrite Hcls, Henter.
    rewrite Hrun1, Hrun2.
    change (cls s2) with (cls s). rewrite Hcls, Hexit, Hfin.
    reflexivity. }
  split; [reflexivity|]. split.
  - unfold failed, done. simpl. rewrite Hb4, Hst, String.eqb_refl, Hcs4.
    simpl. rewrite Hcs. simpl.
    rewrite (cmd_failed_nonzero c2 2 Hxc2) by done.
    by rewrite !orb_true_r.
  - exists c1, c2, b'. simpl. rewrite Hcs4, Hapi4. simpl.
    rewrite Hcs, Hapi. simpl. repeat split; done.
Qed.

(** ** A recorded build with a failing command, in either environment *)

(** C3 (amended).  In a recording build environment that has run nothing
    yet, two commands are run under the default policy; the first exits
    with 0 and the second with 2, the host and the engine answer every call
    (the engine knows no container of the environment's name before it
    creates one) and the tracking API accepts every command record.  The
    scope exits without an exception, [failed] is true, the command list
    holds exactly
    those two commands, and the tracking API receives the two command
    records followed by exactly one PUT of the build record, which is
    marked unsuccessful.  Its error text is empty and its exit code is 2,
    unless the environment is a Docker one whose container is reported as
    stopped on the time-out sentinel, by an OOM kill or with an engine
    error when the scope is left: then the error text is the message of
    that failure and the exit code its status code. *)
Theorem two_command_build_fails cf O s b d st kw1 kw2 cmd1 cmd2 :
  is_build_environment (cls s) = true ->
  record s = true ->
  build s = Some b ->
  commands s = [] ->
  failure s = None ->
  api s = [] ->
  heap s !! env_environment s = Some d ->
  d !! "PATH"%string = None ->
  kw_environment kw1 = None ->
  kw_environment kw2 = None ->
  512 * 1024 <= DATA_UPLOAD_MAX_MEMORY_SIZE cf ->
  first_exits_0_second_exits_2 O s st ->
  (forall a, on_POST O a = Ok tt) ->
  let r := two_command_build cf O cmd1 cmd2 kw1 kw2 s in
  r.1 = Ok None /\
  failed cf r.2 = true /\
  exists c1 c2 b',
    commands r.2 = [c1; c2] /\
    command c1 = cmd1 /\ exit_code c1 = Some 0 /\
    command c2 = cmd2 /\ exit_code c2 = Some 2 /\
    api r.2 = [post_of s b c1; post_of s b c2; PUT_build (build_id b) b'] /\
    build_state b' = BUILD_STATE_FINISHED cf /\
    build_success b' = Some false /\
    build_exit_code b'
    = Some (from_option status_code 2 (failure_at_exit cf s st)) /\
    build_error b' = Some (from_option exc_msg [] (failure_at_exit cf s st)).
Proof.
  intros Hk Hrec Hb Hcs Hf Hapi Hd Hpath Hkw1 Hkw2 Hcf HO HP.
  unfold first_exits_0_second_exits_2 in HO. unfold failure_at_exit.
  destruct (cls s) eqn:Hcls; simpl in Hk, HO.
  - discriminate.
  - destruct HO as (raw1 & raw2 & HO1 & HO2).
    by apply (two_command_local_build cf O s b d kw1 kw2 cmd1 cmd2 raw1 raw2).
  - by apply (two_command_docker_build cf O s b d).
Qed.

Lemma two_command_build_fails_witness :
  let r := two_command_build sample_conf second_fails_host
             ["true"%string] ["false"%string] no_kwargs no_kwargs
             sample_local_env in
  r.1 = Ok None /\ failed sample_conf r.2 = true /\
  length (commands r.2) = 2%nat /\
  exists p1 p2 b',
    api r.2 = [p1; p2; PUT_build 123 b'] /\ build_error b' = Some [].
Proof.
  intros r.
  edestruct (two_command_build_fails sample_conf second_fails_host
               sample_local_env sample_build ∅ running_state
               no_kwargs no_kwargs ["true"%string] ["false"%string])
    as (H1 & H2 & c1 & c2 & b' & H3 & _ & _ & _ & _ & H4 & _ & _ & _ & H5).
  - reflexivity.
  - reflexivity.
  - reflexivity.
  - reflexivity.
  - reflexivity.
  - reflexivity.
  - vm_compute. reflexivity.
  - reflexivity.
  - reflexivity.
  - reflexivity.
  - vm_compute. discriminate.
  - exists [], (bytes_of "boom"). split; intros; reflexivity.
  - intros a. reflexivity.
  - split; [exact H1|]. split; [exact H2|]. split.
    + fold r in H3. by rewrite H3.
    + eexists _, _, b'. split; [exact H4|exact H5].
Defined.

(** The sample engines and a freshly constructed Docker build environment
    meet the assumptions of the scenario: one reports the container as
    running, the other as stopped by an OOM kill. *)
Lemma second_fails_engine_exits_0_then_2 :
  engine_exits_0_then_2 second_fails_engine
    (sample_docker_env second_fails_engine) running_state /\
  engine_exits_0_then_2 second_fails_oom_engine
    (sample_docker_env second_fails_oom_engine) oom_stopped_state.
Proof.
  split; (split; try reflexivity;
    [intros h Hh; exists not_found; simpl; unfold inspect_fresh;
     rewrite Hh; done
    |intros h Hh; simpl; unfold inspect_fresh; rewrite Hh; done
    |intros h; eexists; reflexivity
    |intros h; eexists; reflexivity
    |intros h; eexists; reflexivity
    |intros h Hh; simpl; by rewrite Hh
    |intros h Hh; simpl; by rewrite Hh]).
Qed.

(** The same scenario in a Docker build environment whose container is
    still running when the scope is left. *)
Lemma two_command_docker_build_fails :
  let r := two_command_build sample_conf second_fails_engine
             ["true"%string] ["false"%string] no_kwargs no_kwargs
             (sample_docker_env second_fails_engine) in
  r.1 = Ok None /\ failed sample_conf r.2 = true /\
  map exit_code (commands r.2) = [Some 0; Some 2] /\
  exists b',
    List.filter is_PUT (api r.2) = [PUT_build 123 b'] /\
    build_success b' = Some false /\ build_error b' = Some [].
Proof.
  vm_compute. split; [reflexivity|]. split; [reflexivity|].
  split; [reflexivity|]. eexists. repeat split.
Qed.

(** The same scenario in a Docker build environment whose container is
    found stopped by an OOM kill: the one PUT carries the message of that
    failure and its status code. *)
Lemma two_command_docker_build_stopped :
  let r := two_command_build sample_conf second_fails_oom_engine
             ["true"%string] ["false"%string] no_kwargs no_kwargs
             (sample_docker_env second_fails_oom_engine) in
  r.1 = Ok None /\ failed sample_conf r.2 = true /\
  map exit_code (commands r.2) = [Some 0; Some 2] /\
  exists b',
    List.filter is_PUT (api r.2) = [PUT_build 123 b'] /\
    build_success b' = Some false /\
    build_exit_code b' = Some 1 /\
    build_error b'
    = Some (py "Build exited due to excessive memory consumption").
Proof.
  vm_compute. split; [reflexivity|]. split; [reflexivity|].
  split; [reflexivity|]. eexists. repeat split.
Qed.

(** C3, counterexample.  In the scenario the only PUT of the build record
    carries an empty error text: a failed command ends the scope with a
    warning, which is not stored as the failure of the build. *)
Lemma failed_command_leaves_error_text_empty :
  let r := two_command_build sample_conf second_fails_host
             ["true"%string] ["false"%string] no_kwargs no_kwargs
             sample_local_env in
  failed sample_conf r.2 = true /\
  exists b',
    List.filter is_PUT (api r.2) = [PUT_build 123 b'] /\
    build_error b' = Some [] /\
    ~ (exists text, build_error b' = Some text /\ text <> []).
Proof.
  vm_compute. split; [reflexivity|].
  eexists. split; [reflexivity|]. split; [reflexivity|].
  intros (text & [= <-] & Hne). by apply Hne.
Qed.

(** ** Escaping of shell characters *)

Lemma backslash_is_special : is_bash_special "\"%char = true.
Proof. by vm_compute. Qed.

Lemma _escape_command_length s :
  (String.length s <= String.length (_escape_command s))%nat.
Proof.
  induction s as [|a s IH]; simpl; [done|].
  destruct (bool_decide _); simpl; lia.
Qed.

Lemma _escape_command_cons a s :
  _escape_command (String a s)
  = if is_bash_special a
    then String "\"%char (String a (_escape_command s))
    else String a (_escape_command s).
Proof. reflexivity. Qed.

(** X1.  [_escape_command] loses nothing: two commands with the same
    escaped text are the same command. *)
Theorem _escape_command_injective s1 s2 :
  _escape_command s1 = _escape_command s2 -> s1 = s2.
Proof.
  revert s2. induction s1 as [|a s1 IH]; intros [|b s2];
    rewrite ?_escape_command_cons.
  - done.
  - simpl. destruct (is_bash_special b); discriminate.
  - simpl. destruct (is_bash_special a); discriminate.
  - destruct (is_bash_special a) eqn:Ha, (is_bash_special b) eqn:Hb;
      intros H; simplify_eq; f_equal; by apply IH.
Qed.

Lemma _escape_command_injective_witness :
  _escape_command "a b" = _escape_command "a b" /\ "a b"%string = "a b"%string.
Proof.
  split; [reflexivity|].
  apply (_escape_command_injective "a b" "a b"). reflexivity.
Defined.

(** X2.  [_escape_command] leaves a text as it is exactly when the text has
    no character that [bash_escape_re] matches. *)
Theorem _escape_command_fixes_safe_text s :
  _escape_command s = s <-> bash_safe s = true.
Proof.
  induction s as [|a s IH]; [done|].
  rewrite _escape_command_cons. simpl.
  destruct (is_bash_special a) eqn:Ha; simpl.
  - split; [|done]. intros H. simplify_eq.
    pose proof (_escape_command_length s) as Hlen.
    match goal with
    | H : String _ _ = s |- _ => rewrite <- H in Hlen at 1
    end.
    simpl in Hlen. lia.
  - rewrite <- IH. split; [by intros [=]|by intros ->].
Qed.

(** X3.  In the text [_escape_command] returns, every character that
    [bash_escape_re] matches directly follows an escaping backslash. *)
Theorem _escape_command_escapes_all s :
  all_escaped (_escape_command s) = true.
Proof.
  induction s as [|a s IH]; [done|].
  rewrite _escape_command_cons.
  destruct (is_bash_special a) eqn:Ha.
  - simpl. by rewrite Ha, IH.
  - simpl. by rewrite Ha.
Qed.

(** ** Decoded and sanitized text *)

(** One step of the decoder, for a goal about every branch of it. *)
Lemma utf8_decode_replace_unfold bs :
  utf8_decode_replace bs
  = match bs with
    | [] => []
    | b0 :: r0 =>
      if b0 <? 128 then b0 :: utf8_decode_replace r0
      else if b0 <? 194 then REPLACEMENT :: utf8_decode_replace r0
      else if b0 <? 224 then
        match r0 with
        | [] => [REPLACEMENT]
        | b1 :: r1 =>
          if is_cont b1
          then ((b0 - 192) * 64 + (b1 - 128)) :: utf8_decode_replace r1
          else REPLACEMENT :: utf8_decode_replace r0
        end
      else if b0 <? 240 then
        match r0 with
        | [] => [REPLACEMENT]
        | b1 :: r1 =>
          if second_ok b0 b1 then
            match r1 with
            | [] => [REPLACEMENT]
            | b2 :: r2 =>
              if is_cont b2
              then ((b0 - 224) * 4096 + (b1 - 128) * 64 + (b2 - 128))
                   :: utf8_decode_replace r2
              else REPLACEMENT :: utf8_decode_replace r1
            end
          else REPLACEMENT :: utf8_decode_replace r0
        end
      else if b0 <? 245 then
        match r0 with
        | [] => [REPLACEMENT]
        | b1 :: r1 =>
          if second_ok b0 b1 then
            match r1 with
            | [] => [REPLACEMENT]
            | b2 :: r2 =>
              if is_cont b2 then
                match r2 with
                | [] => [REPLACEMENT]
                | b3 :: r3 =>
                  if is_cont b3
                  then ((b0 - 240) * 262144 + (b1 - 128) * 4096
                        + (b2 - 128) * 64 + (b3 - 128))
                       :: utf8_decode_replace r3
                  else REPLACEMENT :: utf8_decode_replace r2
                end
              else REPLACEMENT :: utf8_decode_replace r1
            end
          else REPLACEMENT :: utf8_decode_replace r0
        end
      else REPLACEMENT :: utf8_decode_replace r0
    end.
Proof. by destruct bs as [|? [|? [|? [|? ?]]]]. Qed.

(** A property of code points that holds of the replacement character and
    of every code point the decoder assembles holds of the decoded text. *)
Lemma utf8_decode_replace_ind (P : Z -> Prop) (Q : Z -> Prop) :
  P REPLACEMENT ->
  (forall b0, Q b0 -> b0 < 128 -> P b0) ->
  (forall b0 b1, 194 <= b0 < 224 -> is_cont b1 = true ->
     P ((b0 - 192) * 64 + (b1 - 128))) ->
  (forall b0 b1 b2, 224 <= b0 < 240 -> second_ok b0 b1 = true ->
     is_cont b2 = true ->
     P ((b0 - 224) * 4096 + (b1 - 128) * 64 + (b2 - 128))) ->
  (forall b0 b1 b2 b3, 240 <= b0 < 245 -> second_ok b0 b1 = true ->
     is_cont b2 = true -> is_cont b3 = true ->
     P ((b0 - 240) * 262144 + (b1 - 128) * 4096 + (b2 - 128) * 64
        + (b3 - 128))) ->
  forall bs, Forall Q bs -> Forall P (utf8_decode_replace bs).
Proof.
  intros Hr H1 H2 H3 H4 bs.
  remember (length bs) as n eqn:Hn. revert bs Hn.
  induction n as [n IH] using lt_wf_ind. intros bs -> Hbs.
  assert (forall l, (length l < length bs)%nat -> Forall Q l ->
            Forall P (utf8_decode_replace l)) as IH'.
  { intros l Hl HQ. by eapply IH. }
  clear IH. rewrite utf8_decode_replace_unfold.
  destruct bs as [|b0 r0]; [constructor|].
  apply Forall_cons in Hbs as [Hb0 Hr0].
  destruct (Z.ltb_spec b0 128).
  { constructor; [by apply H1|]. apply IH'; [simpl; lia|done]. }
  destruct (Z.ltb_spec b0 194).
  { constructor; [done|]. apply IH'; [simpl; lia|done]. }
  assert (Forall P (REPLACEMENT :: utf8_decode_replace r0)) as Hskip.
  { constructor; [done|]. apply IH'; [simpl; lia|done]. }
  destruct (Z.ltb_spec b0 224).
  { destruct r0 as [|b1 r1]; [by repeat constructor|].
    apply Forall_cons in Hr0 as [Hb1 Hr1].
    destruct (is_cont b1) eqn:E1; [|done].
    constructor; [by apply H2|]. apply IH'; [simpl; lia|done]. }
  destruct (Z.ltb_spec b0 240).
  { destruct r0 as [|b1 r1]; [by repeat constructor|].
    apply Forall_cons in Hr0 as [Hb1 Hr1].
    destruct (second_ok b0 b1) eqn:E1; [|done].
    destruct r1 as [|b2 r2]; [by repeat constructor|].
    apply Forall_cons in Hr1 as [Hb2 Hr2].
    destruct (is_cont b2) eqn:E2.
    - constructor; [by apply H3|]. apply IH'; [simpl; lia|done].
    - constructor; [done|]. apply IH'; [simpl; lia|by constructor]. }
  destruct (Z.ltb_spec b0 245); [|done].
  destruct r0 as [|b1 r1]; [by repeat constructor|].
  apply Forall_cons in Hr0 as [Hb1 Hr1].
  destruct (second_ok b0 b1) eqn:E1; [|done].
  destruct r1 as [|b2 r2]; [by repeat constructor|].
  apply Forall_cons in Hr1 as [Hb2 Hr2].
  destruct (is_cont b2) eqn:E2.
  - destruct r2 as [|b3 r3]; [by repeat constructor|].
    apply Forall_cons in Hr2 as [Hb3 Hr3].
    destruct (is_cont b3) eqn:E3.
    + constructor; [by apply H4|]. apply IH'; [simpl; lia|done].
    + constructor; [done|]. apply IH'; [simpl; lia|by constructor].
  - constructor; [done|]. apply IH'; [simpl; lia|by constructor].
Qed.





Lemma byte_val_range b : 0 <= byte_val b < 256.
Proof.
  unfold byte_val. pose proof (Byte.to_N_bounded b). lia.
Qed.

Lemma bytes_decode_scalar bs : Forall is_scalar_value (bytes_decode bs).
Proof.
  unfold bytes_decode.
  apply (utf8_decode_replace_ind is_scalar_value (fun b => 0 <= b < 256)).
  - unfold is_scalar_value, REPLACEMENT. lia.
  - unfold is_scalar_value. lia.
  - intros b0 b1 H0 H1. unfold is_cont, in_range in H1.
    unfold is_scalar_value. lia.
  - intros b0 b1 b2 H0 H1 H2.
    unfold second_ok, is_cont, in_range in *. unfold is_scalar_value.
    repeat match goal with
           | H : context [if ?b =? ?k then _ else _] |- _ =>
               destruct (Z.eqb_spec b k)
           end; lia.
  - intros b0 b1 b2 b3 H0 H1 H2 H3.
    unfold second_ok, is_cont, in_range in *. unfold is_scalar_value.
    repeat match goal with
           | H : context [if ?b =? ?k then _ else _] |- _ =>
               destruct (Z.eqb_spec b k)
           end; lia.
  - apply Forall_map, Forall_forall. intros b _. apply byte_val_range.
Qed.

Lemma py_scalar s : Forall is_scalar_value (py s).
Proof.
  unfold py. apply Forall_map, Forall_forall. intros a _.
  pose proof (N_ascii_bounded a). unfold is_scalar_value. lia.
Qed.

(** X5.  The text that [sanitize_output] returns for a byte sequence holds
    only Unicode scalar values, whatever the bytes were: it can be encoded
    as UTF-8 again. *)
Theorem sanitize_output_scalar_values cf benv bs text :
  sanitize_output cf benv (Some bs) = Ok (Some text) ->
  Forall is_scalar_value text.
Proof.
  unfold sanitize_output.
  set (allowed := DATA_UPLOAD_MAX_MEMORY_SIZE cf - 512 * 1024).
  set (whole := strip_nul (bytes_decode bs)).
  assert (Forall is_scalar_value whole) as Hs.
  { unfold whole, strip_nul. apply Forall_forall.
    intros c [_ Hc]%list_elem_of_filter.
    by apply (proj1 (Forall_forall _ _) (bytes_decode_scalar bs)). }
  destruct (_ >? _).
  - destruct benv as [[b|]|]; [|done..]. intros Heq.
    assert (text = truncation_notice allowed
                   ++ py_slice_from (- allowed) whole) as ->
      by congruence.
    apply Forall_app_2.
    + unfold truncation_notice, str_of_int.
      repeat apply Forall_app_2; apply py_scalar.
    + destruct (py_slice_from_suffix (- allowed) whole) as [pre Hpre].
      rewrite Hpre in Hs. by apply Forall_app in Hs as [_ Hs].
  - intros Heq. assert (text = whole) as -> by congruence. done.
Qed.

Lemma sanitize_output_scalar_values_witness :
  Forall is_scalar_value
    (strip_nul (bytes_decode [xed; xa0; x80; x41; xff])).
Proof.
  apply (sanitize_output_scalar_values sample_conf None
           [xed; xa0; x80; x41; xff]).
  reflexivity.
Defined.

Lemma utf8_decode_replace_ascii l :
  Forall (fun b => b < 128) l -> utf8_decode_replace l = l.
Proof.
  induction 1 as [|b l Hb _ IH]; [done|].
  rewrite utf8_decode_replace_unfold.
  destruct (Z.ltb_spec b 128); [|lia]. by rewrite IH.
Qed.

Lemma strip_nul_nonzero l : Forall (fun b => 0 < b) l -> strip_nul l = l.
Proof.
  unfold strip_nul. induction 1 as [|b l Hb _ IH]; [done|].
  rewrite filter_cons_True by lia. by rewrite IH.
Qed.

(** X6.  An output of ASCII bytes without NUL that is within the limit is
    returned unchanged, one character for each byte. *)
Theorem sanitize_output_keeps_ascii cf benv bs :
  Forall (fun b => 0 < byte_val b < 128) bs ->
  Z.of_nat (length bs) <= DATA_UPLOAD_MAX_MEMORY_SIZE cf - 512 * 1024 ->
  sanitize_output cf benv (Some bs) = Ok (Some (map byte_val bs)).
Proof.
  intros Hb Hle. unfold sanitize_output.
  destruct (Z.gtb_spec (Z.of_nat (length bs))
              (DATA_UPLOAD_MAX_MEMORY_SIZE cf - 512 * 1024)); [lia|].
  unfold bytes_decode.
  rewrite utf8_decode_replace_ascii, strip_nul_nonzero; [done|..];
    apply Forall_map; eapply Forall_impl; [exact Hb| |exact Hb|];
    simpl; intros; lia.
Qed.

Lemma sanitize_output_keeps_ascii_witness :
  sanitize_output sample_conf None (Some (bytes_of "make: done"))
  = Ok (Some (py "make: done")).
Proof.
  apply (sanitize_output_keeps_ascii sample_conf None
           (bytes_of "make: done")).
  - repeat constructor.
  - vm_compute. discriminate.
Defined.

(** X7.  With a limit of zero or less, a command of an environment with a
    build record gets every output that is longer than the limit back as
    truncated, although nothing is cut from its end: what follows the
    notice is the text without its first characters, as many as the limit
    is below zero. *)
Theorem sanitize_output_nonpositive_limit cf b bs :
  let allowed := DATA_UPLOAD_MAX_MEMORY_SIZE cf - 512 * 1024 in
  allowed <= 0 ->
  allowed < Z.of_nat (length bs) ->
  sanitize_output cf (Some (Some b)) (Some bs)
  = Ok (Some (truncation_notice allowed
              ++ drop (Z.to_nat (- allowed)) (strip_nul (bytes_decode bs)))).
Proof.
  intros allowed Hle Hlt. unfold sanitize_output. fold allowed.
  destruct (Z.gtb_spec (Z.of_nat (length bs)) allowed); [|lia].
  do 3 f_equal. unfold py_slice_from.
  destruct (Z.ltb_spec (- allowed) 0); [lia|].
  set (n := Z.of_nat (length (strip_nul (bytes_decode bs)))).
  destruct (Z.le_gt_cases (- allowed) n).
  - by rewrite Z.min_l.
  - rewrite Z.min_r by lia. subst n. rewrite Nat2Z.id.
    rewrite !drop_ge; [done|lia|lia].
Qed.

Lemma sanitize_output_nonpositive_limit_witness :
  sanitize_output
    {| DATA_UPLOAD_MAX_MEMORY_SIZE := 512 * 1024 - 2;
       RTD_DOCKER_WORKDIR := RTD_DOCKER_WORKDIR sample_conf;
       RTD_DOCKER_USER := RTD_DOCKER_USER sample_conf;
       DOCKER_IMAGE := DOCKER_IMAGE sample_conf;
       DOCKER_LIMITS_memory := DOCKER_LIMITS_memory sample_conf;
       DOCKER_LIMITS_time := DOCKER_LIMITS_time sample_conf;
       DOCKER_OOM_EXIT_CODE := DOCKER_OOM_EXIT_CODE sample_conf;
       DOCKER_TIMEOUT_EXIT_CODE := DOCKER_TIMEOUT_EXIT_CODE sample_conf;
       DOCKER_HOSTNAME_MAX_LEN := DOCKER_HOSTNAME_MAX_LEN sample_conf;
       BUILD_STATE_FINISHED := BUILD_STATE_FINISHED sample_conf;
       GENERIC_WITH_BUILD_ID := GENERIC_WITH_BUILD_ID sample_conf;
       default_status_code := default_status_code sample_conf;
       slugify := slugify sample_conf;
       os_environ_PATH := os_environ_PATH sample_conf;
       gethostname := gethostname sample_conf |}
    (Some (Some sample_build)) (Some (bytes_of "abcde"))
  = Ok (Some (truncation_notice (-2) ++ py "cde")).
Proof.
  match goal with
  | |- sanitize_output ?cf _ _ = _ =>
      apply (sanitize_output_nonpositive_limit cf sample_build
               (bytes_of "abcde"))
  end.
  - vm_compute. discriminate.
  - vm_compute. reflexivity.
Defined.

(** ** The process a local command starts *)

(** The command [run_command_class] builds, and its copy of the
    environment mapping. *)
Lemma construct_command_builds cf k cmd ras kw s d :
  kw_environment kw = None ->
  heap s !! env_environment s = Some d ->
  d !! "PATH"%string = None ->
  exists c0 s0,
    construct_command cf k cmd ras kw s = (Ok c0, s0) /\
    calls s0 = calls s /\
    default ∅ (heap s0 !! cmd_environment c0) = delete "BIN_PATH"%string d /\
    bin_path c0 = effective_bin_path kw d /\
    command c0 = cmd /\ shell c0 = kw_shell kw /\
    cwd c0 = or_else (kw_cwd kw) (RTD_DOCKER_WORKDIR cf) /\
    cmd_class c0 = k.
Proof.
  intros Hkw Hd Hpath.
  destruct kw as [kcwd ksh kenv kuser kbe kbp kdesc kesc].
  simpl in Hkw. subst kenv.
  unfold construct_command, Command_init, dict_copy, dict_pop, dict_read,
    dict_new, dict_write, effective_bin_path.
  unfold_monad. simpl. rewrite Hd. simpl.
  rewrite !lookup_insert_eq. simpl.
  destruct (is_build_environment (cls s)); simpl;
    (destruct kbp as [p|]; simpl;
     [|destruct (truthy (d !! "BIN_PATH"%string)) eqn:Et]; simpl;
     rewrite ?lookup_insert_eq; simpl;
     (destruct (bool_decide (delete "BIN_PATH"%string d = ∅)) eqn:He; simpl;
      rewrite ?lookup_insert_eq; simpl;
      [rewrite ?lookup_empty;
       rewrite bool_decide_eq_false_2 by (intros [? [=]]);
       eexists _, _; split; [reflexivity|]; simpl;
       rewrite lookup_insert_eq; simpl;
       apply bool_decide_eq_true_1 in He; rewrite He; done
      |rewrite ?lookup_insert_ne by apply fresh_insert_ne;
       rewrite ?lookup_insert_eq; simpl; rewrite ?lookup_insert_eq; simpl;
       rewrite lookup_delete_ne by done; rewrite Hpath;
       rewrite bool_decide_eq_false_2 by (intros [? [=]]);
       eexists _, _; split; [reflexivity|]; simpl;
       rewrite lookup_insert_eq; simpl; done])).
Qed.

(** The one call [BuildCommand.run] makes, whatever comes of it. *)
Lemma BuildCommand_run_popen cf O c s :
  calls (BuildCommand_run cf O c s).2
  = calls s
    ++ [call_Popen (if shell c then [get_command c] else command c)
          (shell c) (cwd c)
          (<["PATH"%string := process_PATH cf (bin_path c)]>
             (delete "PYTHONPATH"%string
                (delete "DJANGO_SETTINGS_MODULE"%string
                   (default ∅ (heap s !! cmd_environment c)))))].
Proof.
  unfold BuildCommand_run, dict_copy, dict_discard, dict_set, dict_read,
    dict_new, dict_write, process_PATH.
  unfold_monad. simpl. rewrite !lookup_insert_eq. simpl.
  destruct (on_Popen O _) as [[raw rc]|e]; simpl.
  - destruct (sanitize_output cf _ (Some raw)) as [out|e]; simpl.
    + destruct (sanitize_output cf _ None) as [err|e]; simpl; [done|].
      by destruct (isinstance e OSError).
    + by destruct (isinstance e OSError).
  - by destruct (isinstance e OSError).
Qed.

Lemma settle_command_keeps_calls cf O r w c :
  keeps calls (settle_command cf O r w c).
Proof.
  unfold settle_command, record_command, save, self_version.
  assert (forall q a, keeps calls (post q a)) as Hpost by done.
  repeat first [apply Hpost | keeps_step].
Qed.

(** X8.  A command run by a local environment starts one process, and the
    process sees the environment mapping of the environment object with
    these changes: [BIN_PATH], [DJANGO_SETTINGS_MODULE] and [PYTHONPATH]
    are taken out, and [PATH] is the host's, behind the [bin_path] of the
    caller or else a non-empty [BIN_PATH] of the mapping. *)
Theorem run_process_environment cf O cmd record_ w ras kw s d :
  command_class_of (cls s) = BuildCommand ->
  kw_environment kw = None ->
  heap s !! env_environment s = Some d ->
  d !! "PATH"%string = None ->
  exists env,
    calls (run cf O cmd record_ w ras kw s).2
    = calls s
      ++ [call_Popen (if kw_shell kw then [String.concat " " cmd] else cmd)
            (kw_shell kw) (or_else (kw_cwd kw) (RTD_DOCKER_WORKDIR cf))
            env] /\
    env !! "PATH"%string
    = Some (process_PATH cf (effective_bin_path kw d)) /\
    env !! "BIN_PATH"%string = None /\
    env !! "DJANGO_SETTINGS_MODULE"%string = None /\
    env !! "PYTHONPATH"%string = None /\
    forall key,
      key ∉ ["PATH"; "BIN_PATH"; "DJANGO_SETTINGS_MODULE";
             "PYTHONPATH"]%string ->
      env !! key = d !! key.
Proof.
  intros Hk Hkw Hd Hpath.
  destruct (construct_command_builds cf BuildCommand cmd ras kw s d)
    as (c0 & s0 & Hc & Hcalls & Henv & Hbin & Hcmd & Hsh & Hcwd & Hcls);
    [done..|].
  exists (<["PATH"%string := process_PATH cf (effective_bin_path kw d)]>
            (delete "PYTHONPATH"%string
               (delete "DJANGO_SETTINGS_MODULE"%string
                  (delete "BIN_PATH"%string d)))).
  split; [|split; [|split; [|split; [|split]]]].
  - unfold run. unfold mbind at 1. unfold M_bind at 1. unfold get at 1.
    rewrite Hk, run_command_class_phases.
    unfold mbind, M_bind. rewrite Hc.
    unfold Command_run. rewrite Hcls.
    pose proof (BuildCommand_run_popen cf O c0 s0) as Hp.
    rewrite Henv, Hbin, Hsh, Hcwd, Hcalls in Hp.
    unfold get_command in Hp. rewrite Hcmd in Hp.
    destruct (BuildCommand_run cf O c0 s0) as [[c1|e] s1]; simpl in *;
      [|exact Hp].
    pose proof (settle_command_keeps_calls cf O
                  (effective_record s record_ ras)
                  (effective_warn_only s record_ w ras) c1 s1) as Hs.
    simpl in Hs. rewrite Hs. exact Hp.
  - by rewrite lookup_insert_eq.
  - rewrite lookup_insert_ne by done.
    rewrite !lookup_delete_ne by done. by rewrite lookup_delete_eq.
  - rewrite lookup_insert_ne by done.
    rewrite lookup_delete_ne by done. by rewrite lookup_delete_eq.
  - rewrite lookup_insert_ne by done. by rewrite lookup_delete_eq.
  - intros key Hkey.
    rewrite !not_elem_of_cons in Hkey.
    destruct Hkey as (H1 & H2 & H3 & H4 & _).
    rewrite lookup_insert_ne by done.
    by rewrite !lookup_delete_ne by done.
Qed.

Lemma run_process_environment_witness :
  let caller : dict :=
    {[ "BIN_PATH" := "/venv/bin"; "PYTHONPATH" := "/src";
       "HOME" := "/home/docs" ]}%string in
  let s := BuildEnvironment_init sample_conf {[ 1%positive := caller ]}
             LocalBuildEnvironment sample_project sample_version
             (Some sample_build) None true (Some 1%positive) true in
  exists env,
    calls (run sample_conf quiet_oracle ["make"; "html"]%string None false
             false no_kwargs s).2
    = [call_Popen ["make"; "html"]%string false "/home/docs/" env] /\
    env !! "PATH"%string = Some "/venv/bin:/usr/bin:/bin"%string /\
    env !! "PYTHONPATH"%string = None /\
    env !! "HOME"%string = Some "/home/docs"%string.
Proof.
  intros caller s.
  destruct (run_process_environment sample_conf quiet_oracle
              ["make"; "html"]%string None false false no_kwargs s caller)
    as (env & H1 & H2 & _ & _ & H5 & H6).
  - reflexivity.
  - reflexivity.
  - vm_compute. reflexivity.
  - vm_compute. reflexivity.
  - exists env. split; [exact H1|]. split; [|split; [exact H5|]].
    + rewrite H2. vm_compute. reflexivity.
    + rewrite H6; [vm_compute; reflexivity|].
      rewrite !not_elem_of_cons. repeat split; try done.
      apply not_elem_of_nil.
Defined.




(** ** What [run_command_class] refuses, records and returns *)

Lemma kw_environment_after_bin_path (b1 b2 : bool) p kw :
  kw_environment
    (if b1 then with_bin_path p (if b2 then with_build_env kw else kw)
     else if b2 then with_build_env kw else kw)
  = kw_environment kw.
Proof. by destruct b1, b2. Qed.

(** X10.  A caller that passes [environment] to [run_command_class] gets
    a [BuildEnvironmentError]; no command is built, nothing is run, recorded
    or sent. *)
Theorem run_command_class_refuses_environment cf O k cmd record_ w ras kw s :
  kw_environment kw <> None ->
  let r := run_command_class cf O k cmd record_ w ras kw s in
  r.1 = Raise (BuildEnvironmentError_ cf
                 (py "environment can't be passed in via commands.")) /\
  calls r.2 = calls s /\ commands r.2 = commands s /\ api r.2 = api s.
Proof.
  intros Hkw r. subst r.
  unfold run_command_class, dict_copy, dict_pop, dict_read, dict_new,
    dict_write.
  unfold_monad. simpl.
  rewrite kw_environment_after_bin_path.
  by rewrite (bool_decide_eq_true_2 _ Hkw).
Qed.

Lemma run_command_class_refuses_environment_witness :
  (run_command_class sample_conf quiet_oracle BuildCommand ["env"]%string
     None false false (with_environment 1%positive no_kwargs)
     sample_local_env).1
  = Raise (BuildEnvironmentError_ sample_conf
             (py "environment can't be passed in via commands.")).
Proof.
  apply (run_command_class_refuses_environment sample_conf quiet_oracle
           BuildCommand ["env"]%string None false false
           (with_environment 1%positive no_kwargs) sample_local_env).
  discriminate.
Defined.

(** X11.  When the environment mapping of the environment object sets
    [PATH], every command is refused with a [BuildEnvironmentError] before
    it runs: nothing is run, recorded or sent. *)
Theorem run_command_class_refuses_PATH cf O k cmd record_ w ras kw s d v :
  kw_environment kw = None ->
  heap s !! env_environment s = Some d ->
  d !! "PATH"%string = Some v ->
  let r := run_command_class cf O k cmd record_ w ras kw s in
  r.1 = Raise (BuildEnvironmentError_ cf
                 (py "'PATH' can't be set. Use bin_path")) /\
  calls r.2 = calls s /\ commands r.2 = commands s /\ api r.2 = api s.
Proof.
  intros Hkw Hd Hpath r. subst r.
  assert (delete "BIN_PATH"%string d <> ∅) as Hne.
  { intros He. apply (f_equal (lookup "PATH"%string)) in He.
    rewrite lookup_delete_ne, Hpath, lookup_empty in He by done. done. }
  unfold run_command_class, Command_init, dict_copy, dict_pop, dict_read,
    dict_new, dict_write.
  unfold_monad. simpl. rewrite Hd. simpl.
  rewrite !lookup_insert_eq. simpl.
  rewrite kw_environment_after_bin_path.
  rewrite (bool_decide_eq_false_2 (kw_environment kw ≠ None))
    by (intros H; by apply H).
  simpl. rewrite !lookup_insert_eq. simpl.
  rewrite (bool_decide_eq_false_2 _ Hne). simpl.
  rewrite ?lookup_insert_ne by apply fresh_insert_ne.
  rewrite ?lookup_insert_eq. simpl. rewrite ?lookup_insert_eq. simpl.
  rewrite lookup_delete_ne by done. rewrite Hpath.
  rewrite bool_decide_eq_true_2 by eauto. done.
Qed.

Lemma run_command_class_refuses_PATH_witness :
  let s := BuildEnvironment_init sample_conf
             {[ 1%positive := {[ "PATH" := "/opt/bin" ]}%string ]}
             LocalBuildEnvironment sample_project sample_version
             (Some sample_build) None true (Some 1%positive) true in
  let r := run sample_conf quiet_oracle ["make"]%string None false false
             no_kwargs s in
  r.1 = Raise (BuildEnvironmentError_ sample_conf
                 (py "'PATH' can't be set. Use bin_path")) /\
  calls r.2 = [].
Proof.
  intros s r.
  destruct (run_command_class_refuses_PATH sample_conf quiet_oracle
              BuildCommand ["make"]%string None false false no_kwargs s
              {[ "PATH" := "/opt/bin" ]}%string "/opt/bin"%string)
    as (H1 & H2 & _).
  - reflexivity.
  - vm_compute. reflexivity.
  - vm_compute. reflexivity.
  - split; [exact H1|exact H2].
Defined.

(** What [BuildCommand.run] and [DockerBuildCommand.run] return has an exit
    code. *)
Lemma Command_run_sets_exit_code cf O c :
  stable (Command_run cf O c) (fun c' => is_Some (exit_code c')).
Proof.
  unfold Command_run. destruct (cmd_class c).
  - unfold BuildCommand_run. repeat stable_step; simpl; eauto.
  - unfold DockerBuildCommand_run, exited_abnormally.
    eapply stable_bind with (P := any);
      [eapply stable_weaken; [apply stable_get|done]|]. intros s _.
    eapply stable_bind with (P := any); [repeat stable_step|]. intros _ _.
    eapply stable_bind with (P := any);
      [eapply stable_weaken; [apply stable_get_client|done]|]. intros _ _.
    repeat stable_step; simpl; eauto.
Qed.

(** The command list after [settle_command]: the list from before, and
    behind it the command when it is recorded. *)
Lemma settle_command_appends cf O r w c s :
  is_Some (exit_code c) ->
  exists l,
    commands (settle_command cf O r w c s).2 = commands s ++ l /\
    Forall (fun c' => is_Some (exit_code c')) l.
Proof.
  intros Hx. unfold settle_command, record_command, save, self_version.
  unfold_monad. simpl.
  destruct r; simpl.
  - destruct (is_build_environment (cls s)) eqn:Hk; simpl.
    + destruct (benv_of _ s) as [[b|]|]; simpl;
        [|exists []; by rewrite app_nil_r..].
      destruct (on_POST O _); simpl; [|exists []; by rewrite app_nil_r].
      eexists [_]. split.
      * destruct (cmd_failed _); [destruct w|]; simpl; rewrite ?Hk; done.
      * repeat constructor. by destruct (record_as_success c).
    + exists [c]. split; [|by repeat constructor].
      destruct (cmd_failed c); [destruct w|]; simpl; rewrite ?Hk; done.
  - exists []. rewrite app_nil_r. split; [|constructor].
    destruct (cmd_failed c); [destruct w|]; simpl; [|done..].
    by destruct (is_build_environment (cls s)).
Qed.

(** X12.  Every command in the command list has an exit code, and
    [run_command_class] keeps it so, whatever the outside world answers:
    a command joins the list only after its run has returned. *)
Theorem recorded_commands_have_exit_codes cf O k cmd record_ w ras kw s :
  Forall (fun c => is_Some (exit_code c)) (commands s) ->
  Forall (fun c => is_Some (exit_code c))
    (commands (run_command_class cf O k cmd record_ w ras kw s).2).
Proof.
  intros Hall. rewrite run_command_class_phases.
  unfold mbind, M_bind.
  destruct (stable_construct_command cf k cmd ras kw s) as [Hs0 _].
  destruct (construct_command cf k cmd ras kw s) as [[c0|e] s0];
    simpl in *.
  2:{ apply (f_equal commands) in Hs0. simpl in Hs0. by rewrite Hs0. }
  destruct (Command_run_sets_exit_code cf O c0 s0) as [Hs1 Hx].
  destruct (Command_run cf O c0 s0) as [[c1|e] s1]; simpl in *.
  2:{ assert (forget_store s1 = forget_store s) as Hs by congruence.
      apply (f_equal commands) in Hs. simpl in Hs. by rewrite Hs. }
  assert (forget_store s1 = forget_store s) as Hs by congruence.
  apply (f_equal commands) in Hs. simpl in Hs.
  destruct (settle_command_appends cf O
              (effective_record s record_ ras)
              (effective_warn_only s record_ w ras) c1 s1 (Hx c1 eq_refl))
    as (l & -> & Hl).
  rewrite Hs. by apply Forall_app.
Qed.

Lemma recorded_commands_have_exit_codes_witness :
  Forall (fun c => is_Some (exit_code c))
    (commands (run_command_class sample_conf failing_host BuildCommand
                 ["false"%string] None true false no_kwargs
                 sample_local_env).2).
Proof.
  apply (recorded_commands_have_exit_codes sample_conf failing_host
           BuildCommand ["false"%string] None true false no_kwargs
           sample_local_env).
  constructor.
Defined.

(** X13.  A [LocalEnvironment] sends nothing to the tracking API, and a
    command it returns has not failed: for a failed command the run raises,
    under [warn_only] at the log call that reads [self.version]. *)
Theorem local_environment_returns_only_success cf O k cmd record_ w ras kw
    s :
  cls s = LocalEnvironment ->
  let r := run_command_class cf O k cmd record_ w ras kw s in
  api r.2 = api s /\
  forall c, r.1 = Ok c -> cmd_failed c = false.
Proof.
  intros Hcls r. subst r. rewrite run_command_class_phases.
  unfold mbind, M_bind.
  destruct (stable_construct_command cf k cmd ras kw s) as [Hs0 _].
  destruct (construct_command cf k cmd ras kw s) as [[c0|e] s0];
    simpl in *.
  2:{ apply (f_equal api) in Hs0. simpl in Hs0. by rewrite Hs0. }
  destruct (stable_Command_run cf O c0 s0) as [Hs1 _].
  destruct (Command_run cf O c0 s0) as [[c1|e] s1]; simpl in *.
  2:{ assert (forget_store s1 = forget_store s) as Hs by congruence.
      apply (f_equal api) in Hs. simpl in Hs. by rewrite Hs. }
  assert (forget_store s1 = forget_store s) as Hs by congruence.
  destruct (forget_store_fields _ _ Hs) as (Hcls1 & _ & _ & _ & _ & _ & _
                                            & _ & Hapi & _).
  rewrite Hcls in Hcls1.
  unfold settle_command, record_command, save, self_version.
  unfold_monad. simpl.
  destruct (effective_record s record_ ras); simpl; rewrite ?Hcls1; simpl;
    (destruct (cmd_failed c1) eqn:Hf;
     [destruct (effective_warn_only s record_ w ras)|]; simpl;
     rewrite ?Hcls1; simpl; (split; [done|]); intros c [= <-]; done).
Qed.

Lemma local_environment_returns_only_success_witness :
  let r := run_command_class sample_conf failing_host BuildCommand
             ["false"%string] None true false no_kwargs sample_plain_env in
  r.1 = Raise attribute_error /\ api r.2 = [].
Proof.
  intros r.
  destruct (local_environment_returns_only_success sample_conf failing_host
              BuildCommand ["false"%string] None true false no_kwargs
              sample_plain_env) as [H _].
  - reflexivity.
  - split; [vm_compute; reflexivity|exact H].
Defined.

(** X14.  A command that is not recorded leaves no trace on a build
    environment: it does not join the list, nothing is sent for it, and
    its failure raises nothing, so the run returns the command as it
    ran. *)
Theorem unrecorded_command_leaves_no_trace cf O k cmd record_ w ras kw s :
  effective_record s record_ ras = false ->
  let r := run_command_class cf O k cmd record_ w ras kw s in
  commands r.2 = commands s /\ api r.2 = api s /\ failure r.2 = failure s /\
  (is_build_environment (cls s) = true ->
   forall c0 s0 c1 s1,
     construct_command cf k cmd ras kw s = (Ok c0, s0) ->
     Command_run cf O c0 s0 = (Ok c1, s1) ->
     r = (Ok c1, s1)).
Proof.
  intros Hrec r. subst r. rewrite run_command_class_phases.
  assert (effective_warn_only s record_ w ras = true) as Hw.
  { unfold effective_record, effective_warn_only in *.
    destruct ras; [done|]. by rewrite Hrec. }
  rewrite Hrec, Hw.
  unfold mbind, M_bind.
  destruct (stable_construct_command cf k cmd ras kw s) as [Hs0 _].
  destruct (construct_command cf k cmd ras kw s) as [[c0|e] s0] eqn:Hc;
    simpl in Hs0.
  2:{ destruct (forget_store_fields _ _ Hs0)
        as (_ & _ & _ & _ & _ & _ & Hf & Hcs & Ha & _).
      simpl. split; [done|]. split; [done|]. split; [done|].
      intros _ ? ? ? ? [=]. }
  destruct (stable_Command_run cf O c0 s0) as [Hs1 _].
  destruct (Command_run cf O c0 s0) as [[c1|e] s1] eqn:Hr; simpl in Hs1.
  2:{ assert (forget_store s1 = forget_store s) as Hs by congruence.
      destruct (forget_store_fields _ _ Hs)
        as (_ & _ & _ & _ & _ & _ & Hf & Hcs & Ha & _).
      simpl. split; [done|]. split; [done|]. split; [done|].
      intros _ ? ? ? ? [= <- <-]. rewrite Hr. intros [=]. }
  assert (forget_store s1 = forget_store s) as Hs by congruence.
  destruct (forget_store_fields _ _ Hs)
    as (Hcls & _ & _ & _ & _ & _ & Hf & Hcs & Ha & _).
  assert (is_build_environment (cls s) = true ->
          settle_command cf O false true c1 s1 = (Ok c1, s1)) as Hsettle.
  { intros Hk. unfold settle_command, self_version. unfold_monad. simpl.
    destruct (cmd_failed c1); simpl; [|done]. by rewrite Hcls, Hk. }
  assert (let s2 := (settle_command cf O false true c1 s1).2 in
          commands s2 = commands s1 /\ api s2 = api s1 /\
          failure s2 = failure s1) as (H1 & H2 & H3).
  { unfold settle_command, self_version. unfold_monad. simpl.
    destruct (cmd_failed c1); simpl; [|done].
    by destruct (is_build_environment (cls s1)). }
  split; [congruence|]. split; [congruence|]. split; [congruence|].
  intros Hk c0' s0' c1' s1' [= <- <-]. rewrite Hr. intros [= <- <-].
  by apply Hsettle.
Qed.

Lemma unrecorded_command_leaves_no_trace_witness :
  let r := run_command_class sample_conf failing_host BuildCommand
             ["false"%string] (Some false) false false no_kwargs
             sample_local_env in
  (exists c, r.1 = Ok c /\ exit_code c = Some 2) /\
  commands r.2 = [] /\ api r.2 = [].
Proof.
  intros r.
  destruct (unrecorded_command_leaves_no_trace sample_conf failing_host
              BuildCommand ["false"%string] (Some false) false false
              no_kwargs sample_local_env) as (H1 & H2 & _).
  - reflexivity.
  - split; [|split; [exact H1|exact H2]].
    eexists. split; vm_compute; reflexivity.
Defined.



(** ** What the exit of a scope reports *)

Lemma warning_is_an_exception c :
  issubclass c BuildEnvironmentWarning = true ->
  issubclass c BuildEnvironmentException = true.
Proof. by destruct c. Qed.







(** ** The container of a Docker build environment *)

Lemma BuildEnvironment_exit_keeps_container cf exc_ :
  keeps container (BuildEnvironment_exit cf exc_).
Proof.
  unfold BuildEnvironment_exit, handle_exception, update_build, with_build.
  repeat keeps_step.
Qed.

Lemma get_client_connected cf O s :
  client s = true -> get_client cf O s = (Ok tt, s).
Proof. intros H. unfold get_client. unfold_monad. by rewrite H. Qed.

(** The reconciliation with a connected client and an engine whose
    [inspect_container] fails at most with an engine API error. *)
Lemma reconciliation_connected cf O s :
  (forall h e, on_inspect_container O h = Raise e ->
               is_a DockerAPIError e) ->
  client s = true ->
  exists s1,
    update_build_from_container_state cf O s = (Ok tt, s1) /\
    calls s1 = calls s ++ [call_inspect_container (container_id s)] /\
    client s1 = true /\ container_id s1 = container_id s.
Proof.
  intros Hinspect Hcl.
  unfold update_build_from_container_state, container_state.
  unfold mbind at 1. unfold M_bind at 1.
  unfold mbind at 1. unfold M_bind at 1.
  rewrite (get_client_connected cf O s Hcl).
  unfold_monad. simpl.
  destruct (on_inspect_container O _) as [st|e] eqn:Ei; simpl.
  - repeat case_match; simpl; by eexists.
  - pose proof (Hinspect _ _ Ei) as H. unfold is_a in H. rewrite H. simpl.
    by eexists.
Qed.

Lemma kill_is_handled O cid s :
  (forall h e, on_kill O h = Raise e -> is_a DockerAPIError e) ->
  try_except (ext (call_kill cid) (on_kill O))
    (fun e =>
       if isinstance e DockerNotFoundError then mret tt
       else if isinstance e DockerAPIError then mret tt
       else raise e) s
  = (Ok tt, set_calls (calls s ++ [call_kill cid]) s).
Proof.
  intros Hkill. unfold_monad. simpl.
  destruct (on_kill O _) as [[]|e] eqn:Ek; [done|].
  pose proof (Hkill _ _ Ek) as H. unfold is_a in H. rewrite H.
  by destruct (isinstance e DockerNotFoundError).
Qed.

Lemma remove_is_handled O cid s :
  (forall h e, on_remove_container O h = Raise e ->
     is_a DockerAPIError e \/ is_a ConnectionError e \/ is_a ReadTimeout e) ->
  try_except (ext (call_remove_container cid) (on_remove_container O))
    (fun e =>
       if isinstance e DockerNotFoundError then mret tt
       else if isinstance e DockerAPIError || isinstance e ConnectionError
               || isinstance e ReadTimeout
       then mret tt
       else raise e) s
  = (Ok tt, set_calls (calls s ++ [call_remove_container cid]) s).
Proof.
  intros Hremove. unfold_monad. simpl.
  destruct (on_remove_container O _) as [[]|e] eqn:Er; [done|].
  assert (isinstance e DockerAPIError || isinstance e ConnectionError
          || isinstance e ReadTimeout = true) as ->.
  { destruct (Hremove _ _ Er) as [H | [H | H]]; unfold is_a in H;
      rewrite H, ?orb_true_r; done. }
  by destruct (isinstance e DockerNotFoundError).
Qed.

(** X18.  With a connected client and an engine that fails only in the
    ways the handlers of [__exit__] name, the exit of a Docker build
    environment asks for the state of the container, kills it and removes
    it, in this order and whatever the answers are, and forgets it. *)
Theorem docker_exit_kills_and_removes cf O exc_ s :
  tolerable O ->
  client s = true ->
  let r := DockerBuildEnvironment_exit cf O exc_ s in
  calls r.2
  = calls s ++ [call_inspect_container (container_id s);
                call_kill (container_id s);
                call_remove_container (container_id s)] /\
  container r.2 = None.
Proof.
  intros [_ Hinspect Hkill Hremove] Hcl r. subst r.
  destruct (reconciliation_connected cf O s Hinspect Hcl)
    as (s1 & Hrec & Hcalls1 & Hcl1 & Hid1).
  assert (DockerBuildEnvironment_exit cf O exc_ s
          = BuildEnvironment_exit cf exc_
              (set_container None
                 (set_calls
                    ((calls s1 ++ [call_kill (container_id s1)])
                     ++ [call_remove_container (container_id s1)]) s1)))
    as ->.
  { unfold DockerBuildEnvironment_exit.
    unfold mbind at 1. unfold M_bind at 1.
    unfold try_except at 1.
    unfold mbind at 1. unfold M_bind at 1. rewrite Hrec.
    unfold mbind at 1. unfold M_bind at 1.
    rewrite (get_client_connected cf O s1 Hcl1).
    unfold mbind at 1. unfold M_bind at 1. unfold get at 1.
    unfold mbind at 1. unfold M_bind at 1.
    rewrite (kill_is_handled O _ s1 Hkill).
    unfold mbind at 1. unfold M_bind at 1.
    rewrite (remove_is_handled O _ _ Hremove).
    reflexivity. }
  rewrite (BuildEnvironment_exit_keeps_calls cf exc_ _).
  rewrite (BuildEnvironment_exit_keeps_container cf exc_ _).
  simpl. rewrite Hcalls1, Hid1. by rewrite <- !app_assoc.
Qed.

Lemma docker_exit_kills_and_removes_witness :
  let s := set_client true (sample_docker_env quiet_oracle) in
  calls (DockerBuildEnvironment_exit sample_conf quiet_oracle None s).2
  = [call_inspect_container (container_id s); call_kill (container_id s);
     call_remove_container (container_id s)].
Proof.
  intros s.
  destruct (docker_exit_kills_and_removes sample_conf quiet_oracle None s)
    as [H _].
  - split; intros h e; simpl; unfold inspect_fresh;
      try discriminate.
    destruct (existsb is_create h); [discriminate|].
    intros [= <-]. reflexivity.
  - reflexivity.
  - exact H.
Defined.



(** X20.  A container command whose exec session fails with an engine API
    error does not raise: it ends with exit code -1.  When the session
    could not be created or started, its output is the text [Command
    exited abnormally]; when only the inspection failed, a captured output
    is kept and an empty one is replaced by that text. *)
Theorem docker_run_survives_api_error cf O c s b e :
  build_env c = true ->
  is_docker_environment (cls s) = true ->
  client s = true ->
  build s = Some b ->
  output c = None ->
  isinstance e DockerAPIError = true ->
  let abnormal := Some (py "Command exited abnormally") in
  let h1 := calls s ++ [call_exec_create (container_id s)
                          (get_wrapped_command c)
                          (default ∅ (heap s !! cmd_environment c))
                          (user c) (cwd c)] in
  let r := (DockerBuildCommand_run cf O c s).1 in
  (on_exec_create O h1 = Raise e ->
   r = Ok (set_output abnormal (set_exit_code (Some (-1)) c))) /\
  (forall id,
     on_exec_create O h1 = Ok id ->
     on_exec_start O (h1 ++ [call_exec_start id]) = Raise e ->
     r = Ok (set_output abnormal (set_exit_code (Some (-1)) c))) /\
  (forall id raw text,
     on_exec_create O h1 = Ok id ->
     on_exec_start O (h1 ++ [call_exec_start id]) = Ok raw ->
     sanitize_output cf (Some (Some b)) (Some raw) = Ok (Some text) ->
     on_exec_inspect O ((h1 ++ [call_exec_start id])
                        ++ [call_exec_inspect id]) = Raise e ->
     r = Ok (set_output (if bool_decide (text = []) then abnormal
                         else Some text)
               (set_exit_code (Some (-1)) (set_output (Some text) c)))).
Proof.
  intros Hbe Hdocker Hcl Hb Hout He abnormal h1 r. subst r.
  split; [|split].
  - intros Hc. unfold DockerBuildCommand_run, get_client, dict_read,
      exited_abnormally.
    unfold_monad. simpl. rewrite Hbe, Hdocker. simpl. rewrite Hcl. simpl.
    fold h1. rewrite Hc. simpl. rewrite He, Hout. done.
  - intros id Hc Hs. unfold DockerBuildCommand_run, get_client, dict_read,
      exited_abnormally.
    unfold_monad. simpl. rewrite Hbe, Hdocker. simpl. rewrite Hcl. simpl.
    fold h1. rewrite Hc. simpl. rewrite Hs. simpl. rewrite He, Hout. done.
  - intros id raw text Hc Hs Hsan Hi.
    unfold DockerBuildCommand_run, get_client, dict_read, benv_of,
      exited_abnormally.
    unfold_monad. simpl. rewrite Hbe, Hdocker. simpl. rewrite Hcl. simpl.
    fold h1. rewrite Hc. simpl. rewrite Hs. simpl. rewrite Hb, Hsan. simpl.
    rewrite Hi. simpl. rewrite He. simpl.
    destruct text; done.
Qed.

Lemma docker_run_survives_api_error_witness :
  let e := Exc DockerAPIError (py "500 Server Error") 0 in
  let O := {| on_APIClient := fun _ => Ok tt;
              on_inspect_container := inspect_fresh;
              on_kill := fun _ => Ok tt;
              on_remove_container := fun _ => Ok tt;
              on_create_container := fun _ => Ok (Some "c0ffee"%string);
              on_start := fun _ => Ok tt;
              on_exec_create := fun _ => Ok "exec1"%string;
              on_exec_start := fun _ => Ok (bytes_of "partial");
              on_exec_inspect := fun _ => Raise e;
              on_Popen := fun _ => Ok ([], 0);
              on_path_exists := fun _ => true;
              on_makedirs := fun _ => Ok tt;
              on_uuid4 := fun _ => "0123456789abcdef"%string;
              on_POST := fun _ => Ok tt |} in
  let s := set_client true (sample_docker_env O) in
  exists c',
    (DockerBuildCommand_run sample_conf O
       (docker_command ["make"]%string) s).1 = Ok c' /\
    exit_code c' = Some (-1) /\ output c' = Some (py "partial").
Proof.
  intros e O s.
  destruct (docker_run_survives_api_error sample_conf O
              (docker_command ["make"]%string) s sample_build e)
    as (_ & _ & H); try reflexivity.
  eexists. split.
  - apply (H "exec1"%string (bytes_of "partial") (py "partial"));
      reflexivity.
  - split; reflexivity.
Defined.
